(** * NpmPackageUpgrader: the package.json cleaning loop

    A shallow embedding of [cli-app/src/utils/packageJsonUtils.ts]
    (with [shellUtils.ts], [consoleUtils.ts] and [types.ts]) and the
    properties of its error classifier, manifest pruner, retry loop and
    exporter.

    Modelling conventions.
    - A JavaScript string is represented by the byte string of its UTF-8
      encoding; the character classes of the source (anything but a colon,
      a double quote or a slash) and [startsWith] only ever inspect ASCII
      delimiters, so working on bytes agrees with working on UTF-16 code
      units.
    - An object used as a dictionary ([Record<string, string>]) is a finite
      map over its own data properties, together with what it inherits
      from [Object.prototype]: the inherited names answer to [in], and an
      assignment under the name [__proto__] goes to the inherited setter
      unless the object has an own property of that name.
    - Module-level accumulators, the file system and the console are
      threaded explicitly as a state. *)

From Stdlib Require Import String Ascii List ZArith Lia Bool.
From stdpp Require Import base option gmap strings list fin_maps.

Local Open Scope string_scope.

(* ===================================================================== *)
(** ** Strings *)
(* ===================================================================== *)

Module Str.

Definition dquote : ascii := "034"%char.
Definition slash : ascii := "/"%char.
Definition colon : ascii := ":"%char.
Definition percent : ascii := "%"%char.

(** [s.startsWith(p)] *)
Definition startsWith (s p : string) : bool := String.prefix p s.

(** Drop the first [n] characters. *)
Fixpoint drop (n : nat) (s : string) : string :=
  match n, s with
  | O, _ => s
  | S n', String _ s' => drop n' s'
  | S _, EmptyString => EmptyString
  end.

Definition quoted (s : string) : string :=
  String dquote (s ++ String dquote "").

End Str.

(* ===================================================================== *)
(** ** The regular expressions of the classifier *)
(* ===================================================================== *)

Module Regex.

(** The fragment of regular expressions used by the source: literal text
    and one capturing group of the shape [([^c]+)]. *)
Inductive Atom : Type :=
| Lit (text : string)
| CaptureNotPlus (c : ascii).

Definition Pattern : Type := list Atom.

(** Backtracking match of a pattern at the start of [s]; the result is the
    list of captured groups.  [([^c]+)] is greedy: it first tries to take
    one more character and gives characters back only when the rest of
    the pattern fails. *)
Fixpoint match_here (r : Pattern) : string -> option (list string) :=
  match r with
  | [] => fun _ => Some []
  | Lit text :: r' =>
      fun s =>
        if Str.startsWith s text
        then match_here r' (Str.drop (String.length text) s)
        else None
  | CaptureNotPlus c :: r' =>
      fix plus (s : string) : option (list string) :=
        match s with
        | EmptyString => None
        | String a s' =>
            if Ascii.eqb a c then None
            else match plus s' with
                 | Some (g :: gs) => Some (String a g :: gs)
                 | _ =>
                     match match_here r' s' with
                     | Some gs => Some (String a "" :: gs)
                     | None => None
                     end
                 end
        end
  end.

(** [pattern.exec(s)] for a pattern without flags: the leftmost position
    at which the pattern matches. *)
Fixpoint exec (r : Pattern) (s : string) : option (list string) :=
  match match_here r s with
  | Some gs => Some gs
  | None =>
      match s with
      | EmptyString => None
      | String _ s' => exec r s'
      end
  end.

(** [match[1]] *)
Definition group1 (gs : list string) : string :=
  match gs with
  | g :: _ => g
  | [] => ""
  end.

End Regex.

(* ===================================================================== *)
(** ** decodeURIComponent *)
(* ===================================================================== *)

Module URI.

Definition hexDigit (a : ascii) : option N :=
  let n := N_of_ascii a in
  if ((48 <=? n) && (n <=? 57))%N then Some (n - 48)%N
  else if ((65 <=? n) && (n <=? 70))%N then Some (n - 55)%N
  else if ((97 <=? n) && (n <=? 102))%N then Some (n - 87)%N
  else None.

(** The octet written by two hexadecimal digits. *)
Definition ParseHexOctet (h1 h2 : ascii) : option N :=
  match hexDigit h1, hexDigit h2 with
  | Some a, Some b => Some (16 * a + b)%N
  | _, _ => None
  end.

(** Number of leading 1 bits of an octet. *)
Definition leadingOnes (b : N) : nat :=
  if (b <? 128)%N then 0
  else if (b <? 192)%N then 1
  else if (b <? 224)%N then 2
  else if (b <? 240)%N then 3
  else if (b <? 248)%N then 4
  else 5.

Definition between (lo hi b : N) : bool := ((lo <=? b) && (b <=? hi))%N.

(** Well-formed UTF-8 encodings of one code point (no overlong forms, no
    surrogates, nothing above U+10FFFF). *)
Definition validUtf8 (octets : list N) : bool :=
  match octets with
  | [b0; b1] => between 194 223 b0 && between 128 191 b1
  | [b0; b1; b2] =>
      ((N.eqb b0 224 && between 160 191 b1)
       || (between 225 236 b0 && between 128 191 b1)
       || (N.eqb b0 237 && between 128 159 b1)
       || (between 238 239 b0 && between 128 191 b1))
      && between 128 191 b2
  | [b0; b1; b2; b3] =>
      ((N.eqb b0 240 && between 144 191 b1)
       || (between 241 243 b0 && between 128 191 b1)
       || (N.eqb b0 244 && between 128 143 b1))
      && between 128 191 b2 && between 128 191 b3
  | _ => false
  end.

Definition octetsToString (octets : list N) : string :=
  fold_right (fun b s => String (ascii_of_N b) s) "" octets.

(** The Decode operation of ECMAScript with an empty set of preserved
    escapes.  [need] is the number of continuation escapes still expected
    for the multi-byte sequence collected in [octets]; [None] stands for
    the URIError exception. *)
Fixpoint Decode (octets : list N) (need : nat) (s : string) {struct s}
  : option string :=
  match need with
  | O =>
      match s with
      | EmptyString => Some ""
      | String c s1 =>
          if Ascii.eqb c Str.percent then
            match s1 with
            | String h1 (String h2 rest) =>
                match ParseHexOctet h1 h2 with
                | None => None
                | Some b =>
                    match leadingOnes b with
                    | O => String (ascii_of_N b) <$> Decode [] 0 rest
                    | S O => None
                    | S (S m) =>
                        if (2 <? m)%nat then None
                        else Decode [b] (S m) rest
                    end
                end
            | _ => None
            end
          else String c <$> Decode [] 0 s1
      end
  | S need' =>
      match s with
      | String c (String h1 (String h2 rest)) =>
          if Ascii.eqb c Str.percent then
            match ParseHexOctet h1 h2 with
            | None => None
            | Some b =>
                let octets' := (octets ++ [b])%list in
                match need' with
                | O =>
                    if validUtf8 octets'
                    then String.append (octetsToString octets')
                           <$> Decode [] 0 rest
                    else None
                | S _ => Decode octets' need' rest
                end
            end
          else None
      | _ => None
      end
  end.

Definition decodeURIComponent (s : string) : option string :=
  Decode [] 0 s.

End URI.

(* ===================================================================== *)
(** ** Results of computations that may throw *)
(* ===================================================================== *)

Inductive Exn : Type :=
| URIError
| ENOENT
| SyntaxError.

Inductive Result (A : Type) : Type :=
| Ret (a : A)
| Throw (e : Exn).
Arguments Ret {A} a.
Arguments Throw {A} e.

(* ===================================================================== *)
(** ** Error classifier *)
(* ===================================================================== *)

Module Classifier.
Import Regex.

Definition registryNotFound : Pattern :=
  [ Lit "https://registry.yarnpkg.com/"; CaptureNotPlus Str.colon;
    Lit ": Not found" ].

Definition packageNotFound : Pattern :=
  [ Lit ("error Couldn't find package " ++ String Str.dquote "");
    CaptureNotPlus Str.dquote;
    Lit (String Str.dquote "") ].

Definition noMatchingVersion : Pattern :=
  [ Lit ("error Couldn't find any versions for " ++ String Str.dquote "");
    CaptureNotPlus Str.dquote;
    Lit (String Str.dquote " that matches") ].

Definition patterns : list Pattern :=
  [ registryNotFound; packageNotFound; noMatchingVersion ].

(** [/^([^\/]+)/] *)
Definition aliasPattern : Pattern := [ CaptureNotPlus Str.slash ].

(** [decodedString.match(/^([^\/]+)/)]: the pattern is anchored, so only
    the first position is tried. *)
Definition aliasMatch (decodedString : string) : option (list string) :=
  match_here aliasPattern decodedString.

(** The [for (const pattern of patterns)] loop.  [error] is the text of
    [error.toString()]. *)
Fixpoint tryPatterns (ps : list Pattern) (error : string)
  : Result (option string) :=
  match ps with
  | [] => Ret None
  | pattern :: ps' =>
      match exec pattern error with
      | Some m =>
          match URI.decodeURIComponent (group1 m) with
          | None => Throw URIError
          | Some decodedString =>
              match aliasMatch decodedString with
              | Some am => Ret (Some (group1 am))
              | None => tryPatterns ps' error
              end
          end
      | None => tryPatterns ps' error
      end
  end.

Definition parseErrorForPackageAlias (error : string)
  : Result (option string) :=
  tryPatterns patterns error.

End Classifier.

(* ===================================================================== *)
(** ** Objects used as dictionaries *)
(* ===================================================================== *)

Module JsObject.

(** The property names of [Object.prototype].  Every object of the program
    (an object literal, a result of [JSON.parse], the export of a required
    module) has [Object.prototype] as its prototype. *)
Definition prototypeNames : list string :=
  [ "constructor"; "__defineGetter__"; "__defineSetter__"; "hasOwnProperty";
    "__lookupGetter__"; "__lookupSetter__"; "isPrototypeOf";
    "propertyIsEnumerable"; "toString"; "valueOf"; "__proto__";
    "toLocaleString" ].

Definition inherited (name : string) : bool :=
  existsb (String.eqb name) prototypeNames.

(** [name in o]: an own property or an inherited one. *)
Definition hasProperty {V : Type} (o : gmap string V) (name : string)
  : bool :=
  bool_decide (is_Some (o !! name)) || inherited name.

(** Whether [o[name] = v] creates or updates an own property.  Every
    inherited property is a writable data property, which the assignment
    shadows by an own one, but [__proto__], an accessor: unless [o] has an
    own property of that name, its setter is called. *)
Definition stores {V : Type} (o : gmap string V) (name : string) : bool :=
  negb (String.eqb name "__proto__") || bool_decide (is_Some (o !! name)).

(** [o[name] = v] for a string [v]: the setter of [__proto__] ignores a
    value that is neither an object nor null. *)
Definition assign (name v : string) (o : gmap string string)
  : gmap string string :=
  if stores o name then <[name := v]> o else o.

End JsObject.

(* ===================================================================== *)
(** ** Data model ([types.ts]) *)
(* ===================================================================== *)

Abbreviation Dependencies := (gmap string string).

Record PackageJson : Type := mkPackageJson {
  dependencies : option Dependencies;
  devDependencies : option Dependencies;
  scripts : option (gmap string string)
}.

Record LockedEntry : Type := mkLockedEntry {
  name : string;
  version : string
}.

Abbreviation LockedDependencies := (gmap string LockedEntry).

Definition setDependencies (d : option Dependencies) (p : PackageJson)
  : PackageJson :=
  mkPackageJson d (devDependencies p) (scripts p).

Definition setDevDependencies (d : option Dependencies) (p : PackageJson)
  : PackageJson :=
  mkPackageJson (dependencies p) d (scripts p).

(** [delete packageJson.scripts] *)
Definition deleteScripts (p : PackageJson) : PackageJson :=
  mkPackageJson (dependencies p) (devDependencies p) None.

(** [Object.keys(m || {}).length] *)
Definition keyCount (m : option Dependencies) : nat :=
  match m with
  | Some d => size d
  | None => 0
  end.

(* ===================================================================== *)
(** ** Module state, file system and console *)
(* ===================================================================== *)

(** The five module-level accumulators. *)
Record Removed : Type := mkRemoved {
  removedLocalDeps : Dependencies;
  removedLocalDevDeps : Dependencies;
  removedLockedDeps : Dependencies;
  removedLockedDevDeps : Dependencies;
  removedScripts : gmap string string
}.

Definition noRemoved : Removed := mkRemoved ∅ ∅ ∅ ∅ ∅.

(** Paths in normal form: the list of their segments. *)
Abbreviation Path := (list string).

(** [path.join(dir, fileName)] and [path.resolve(dir, fileName)] for a
    one-segment [fileName]. *)
Definition join (dir : Path) (fileName : string) : Path :=
  (dir ++ [fileName])%list.

Definition dirname (p : Path) : Path := removelast p.

Definition showPath (p : Path) : string := String.concat "/" p.

(** What [JSON.stringify] is applied to. *)
Inductive Doc : Type :=
| DocPackageJson (p : PackageJson)
| DocRecord (r : gmap string string)
| DocAllRemoved
    (scripts_ localDependencies_ devDependencies_ : gmap string string).

Inductive Event : Type :=
| LogSuccess (message : string)
| LogError (message : string) (err : option string)
| LogInfo (message : string)
| ConsoleError (message : string) (arg : string)
| ConsoleLog (text : string)
| Exec (command : string) (cwd : Path)
| ReadFile (path : Path)
| WriteFile (path : Path) (doc : Doc).

Record State : Type := mkState {
  removed : Removed;
  dirs : gset Path;
  files : gmap Path Doc;
  events : list Event
}.

Definition setRemoved (r : Removed) (s : State) : State :=
  mkState r (dirs s) (files s) (events s).

Definition addEvent (e : Event) (s : State) : State :=
  mkState (removed s) (dirs s) (files s) (events s ++ [e]).

Definition putFile (path : Path) (doc : Doc) (s : State) : State :=
  mkState (removed s) (dirs s) (<[path := doc]> (files s)) (events s).

(** Computations over the state that return or throw. *)
Definition M (A : Type) : Type := State -> Result A * State.

Definition ret {A} (a : A) : M A := fun s => (Ret a, s).

Definition bind {A B} (m : M A) (k : A -> M B) : M B :=
  fun s =>
    match m s with
    | (Ret a, s') => k a s'
    | (Throw e, s') => (Throw e, s')
    end.

Declare Scope js_scope.
Delimit Scope js_scope with js.
Notation "x <- m ;; k" := (bind m (fun x => k))
  (at level 100, m at next level, right associativity) : js_scope.
Notation "m ;;; k" := (bind m (fun _ => k))
  (at level 100, right associativity) : js_scope.
Local Open Scope js_scope.

Definition emit (e : Event) : M unit := fun s => (Ret tt, addEvent e s).

(** [consoleUtils.ts] *)
Definition logSuccess (message : string) : M unit := emit (LogSuccess message).
Definition logError (message : string) (err : option string) : M unit :=
  emit (LogError message err).
Definition logInfo (message : string) : M unit := emit (LogInfo message).

(** [fs.writeFileSync(path, JSON.stringify(data, null, 2), 'utf8')]: the
    write fails when the directory of [path] does not exist.  Other causes
    of failure (permissions, a full disk) are not modelled. *)
Definition writeFileSync (path : Path) (doc : Doc) : M unit :=
  fun s =>
    if bool_decide (dirname path ∈ dirs s)
    then (Ret tt, addEvent (WriteFile path doc) (putFile path doc s))
    else (Throw ENOENT, s).

(** [JSON.parse(fs.readFileSync(path, 'utf8'))] at type [PackageJson]. *)
Definition readPackageJson (path : Path) : M PackageJson :=
  fun s =>
    match files s !! path with
    | Some (DocPackageJson p) => (Ret p, addEvent (ReadFile path) s)
    | Some _ => (Throw SyntaxError, s)
    | None => (Throw ENOENT, s)
    end.

(* ===================================================================== *)
(** ** Manifest pruner *)
(* ===================================================================== *)

Inductive DependencyType : Type := local | locked.

Definition getRecord (dependencyType : DependencyType) (isDevDep : bool)
  (r : Removed) : Dependencies :=
  match dependencyType with
  | local => if isDevDep then removedLocalDevDeps r else removedLocalDeps r
  | locked => if isDevDep then removedLockedDevDeps r else removedLockedDeps r
  end.

(** Writing through the reference returned by [getRecord]. *)
Definition setRecord (dependencyType : DependencyType) (isDevDep : bool)
  (record : Dependencies) (r : Removed) : Removed :=
  match dependencyType, isDevDep with
  | local, false =>
      mkRemoved record (removedLocalDevDeps r) (removedLockedDeps r)
        (removedLockedDevDeps r) (removedScripts r)
  | local, true =>
      mkRemoved (removedLocalDeps r) record (removedLockedDeps r)
        (removedLockedDevDeps r) (removedScripts r)
  | locked, false =>
      mkRemoved (removedLocalDeps r) (removedLocalDevDeps r) record
        (removedLockedDevDeps r) (removedScripts r)
  | locked, true =>
      mkRemoved (removedLocalDeps r) (removedLocalDevDeps r)
        (removedLockedDeps r) record (removedScripts r)
  end.

(** One iteration of the [for ... of Object.entries(dependencies)] loop on
    the pair (dependencies, record). *)
Definition removeStep (condition : string -> bool)
  (acc : Dependencies * Dependencies) (entry : string * string)
  : Dependencies * Dependencies :=
  let '(dependencies, record) := acc in
  let '(name, version) := entry in
  if condition name
  then (delete name dependencies, JsObject.assign name version record)
  else (dependencies, record).

(** [removeAndRecordDependencies]: the entries are listed once, before the
    loop starts; the result is the updated [dependencies] object and the
    updated accumulators. *)
Definition removeAndRecordDependencies (dependencies : option Dependencies)
  (isDevDep : bool) (dependencyType : DependencyType)
  (condition : string -> bool) (r : Removed)
  : option Dependencies * Removed :=
  match dependencies with
  | None => (None, r)
  | Some deps =>
      let record := getRecord dependencyType isDevDep r in
      let '(deps', record') :=
        foldl (removeStep condition) (deps, record) (map_to_list deps) in
      (Some deps', setRecord dependencyType isDevDep record' r)
  end.

Definition removeAliasDeps (alias : string)
  (dependencies : option Dependencies) (isDevDep : bool) (r : Removed)
  : option Dependencies * Removed :=
  removeAndRecordDependencies dependencies isDevDep local
    (fun name => Str.startsWith name (alias ++ "/")) r.

(** [name in locked] *)
Definition inLocked (locked_ : LockedDependencies) (name : string) : bool :=
  JsObject.hasProperty locked_ name.

Definition removeLockedDeps (locked_ : LockedDependencies)
  (dependencies : option Dependencies) (isDevDep : bool) (r : Removed)
  : option Dependencies * Removed :=
  removeAndRecordDependencies dependencies isDevDep locked
    (inLocked locked_) r.

(** [removeScripts] *)
Definition removeScripts (packageJson : PackageJson)
  : M PackageJson :=
  match scripts packageJson with
  | Some scr =>
      fun s =>
        let r := removed s in
        let recorded :=
          foldl (fun acc scriptName =>
                   match scr !! scriptName with
                   | Some command => JsObject.assign scriptName command acc
                   | None => acc
                   end)
            (removedScripts r) (map_to_list scr).*1 in
        let r' :=
          mkRemoved (removedLocalDeps r) (removedLocalDevDeps r)
            (removedLockedDeps r) (removedLockedDevDeps r) recorded in
        (logSuccess "Removed scripts from package.json" ;;;
         ret (deleteScripts packageJson)) (setRemoved r' s)
  | None => ret packageJson
  end.

(* ===================================================================== *)
(** ** Retry loop, exporter and entry point *)
(* ===================================================================== *)

(** How [child_process.exec] calls back: with the standard output, or with
    the standard error output and an error, of which the program only uses
    the text of [error.toString()]. *)
Inductive ExecOutcome : Type :=
| Exited (stdout : string)
| Failed (stderr : string) (error : string).

(** Run a pruner against the module-level accumulators. *)
Definition onRemoved {A} (f : Removed -> A * Removed) : M A :=
  fun s => let '(a, r) := f (removed s) in (Ret a, setRemoved r s).

Definition getRemoved : M Removed := fun s => (Ret (removed s), s).

(** [!packageAlias] *)
Definition isFalsy (packageAlias : option string) : bool :=
  match packageAlias with
  | None => true
  | Some a => bool_decide (a = "")
  end.

(** A thrown exception of the classifier propagates. *)
Definition liftResult {A} (r : Result A) : M A := fun s => (r, s).

Section Program.

(** The external command: its outcome may depend on the command, the
    working directory and everything the program has done so far. *)
Variable exec : string -> Path -> State -> ExecOutcome.

(** [shellUtils.ts]: the promise resolves with the standard output
    ([inl]) or rejects with the error ([inr]). *)
Definition runCommand (command : string) (workingDirectory : Path)
  : M (string + string) :=
  fun s =>
    let s1 := addEvent (Exec command workingDirectory) s in
    match exec command workingDirectory s with
    | Failed stderr error =>
        (Ret (inr error),
         addEvent
           (ConsoleError
              ("Error executing command " ++ Str.quoted command ++ ":")
              stderr) s1)
    | Exited stdout => (Ret (inl stdout), addEvent (ConsoleLog stdout) s1)
    end.

(** The [while (retryCount < maxRetries)] loop; [remaining] is
    [maxRetries - retryCount].  The result is the manifest object and the
    value of [retryCount] when the loop is left. *)
Fixpoint retryLoop (projectRootPath : Path) (remaining : nat)
  (packageJson : PackageJson) (retryCount : nat)
  : M (PackageJson * nat) :=
  match remaining with
  | O => ret (packageJson, retryCount)
  | S remaining' =>
      logInfo "Attempting to install dependencies..." ;;;
      outcome <- runCommand "yarn install" projectRootPath ;;
      match outcome with
      | inl _ =>
          logSuccess "Dependencies installed successfully!" ;;;
          ret (packageJson, retryCount)
      | inr error =>
          packageAlias <-
            liftResult (Classifier.parseErrorForPackageAlias error) ;;
          if isFalsy packageAlias then
            logError "Could not parse package alias from error:"
              (Some error) ;;;
            ret (packageJson, retryCount)
          else
            let alias := default "" packageAlias in
            deps <- onRemoved
              (removeAliasDeps alias (dependencies packageJson) false) ;;
            devDeps <- onRemoved
              (removeAliasDeps alias (devDependencies packageJson) true) ;;
            let packageJson' :=
              setDevDependencies devDeps
                (setDependencies deps packageJson) in
            writeFileSync (join projectRootPath "package.json")
              (DocPackageJson packageJson') ;;;
            logInfo ("Removed packages starting with alias: " ++ alias) ;;;
            retryLoop projectRootPath remaining' packageJson'
              (S retryCount)
      end
  end.

Definition attemptInstallWithRetries (packageJson : PackageJson)
  (projectRootPath : Path) (maxRetries : nat) : M PackageJson :=
  let retryCount := 0 in
  res <-
    retryLoop projectRootPath (maxRetries - retryCount) packageJson
      retryCount ;;
  let '(packageJson', retryCount) := res in
  if (maxRetries <=? retryCount)%nat then
    logError
      "Failed to resolve all package installation issues after maximum retries."
      None ;;;
    ret packageJson'
  else ret packageJson'.

Definition saveJson (dir : Path) (fileName : string) (data : Doc) : M unit :=
  writeFileSync (join dir fileName) data.

(** [{ ...a, ...b }]: the entries of [b] win. *)
Definition spread2 (a b : gmap string string) : gmap string string := b ∪ a.

Definition saveRemovedItems (exportRootPath : Path) : M unit :=
  let detailsPath := join exportRootPath "details" in
  r <- getRemoved ;;
  saveJson detailsPath "removedLocalPackages.json"
    (DocRecord (removedLocalDeps r)) ;;;
  saveJson detailsPath "removedLockedPackages.json"
    (DocRecord (removedLockedDeps r)) ;;;
  saveJson detailsPath "removedScripts.json"
    (DocRecord (removedScripts r)) ;;;
  let combinedDevDeps :=
    spread2 (removedLocalDevDeps r) (removedLockedDevDeps r) in
  let combinedDeps := spread2 (removedLocalDeps r) (removedLockedDeps r) in
  saveJson exportRootPath "allRemovedItems.json"
    (DocAllRemoved (removedScripts r) combinedDeps combinedDevDeps) ;;;
  logSuccess ("Saved removed items to " ++ showPath exportRootPath).

Definition cleanPackageJson (projectRootPath : Path)
  (lockedDependencies : LockedDependencies) (exportRootPath : Path)
  : M unit :=
  let packageJsonPath := join projectRootPath "package.json" in
  packageJson <- readPackageJson packageJsonPath ;;
  packageJson <- removeScripts packageJson ;;
  deps <- onRemoved
    (removeLockedDeps lockedDependencies (dependencies packageJson) false) ;;
  devDeps <- onRemoved
    (removeLockedDeps lockedDependencies (devDependencies packageJson)
       true) ;;
  let packageJson :=
    setDevDependencies devDeps (setDependencies deps packageJson) in
  writeFileSync packageJsonPath (DocPackageJson packageJson) ;;;
  let maxRetries :=
    (keyCount (dependencies packageJson)
     + keyCount (devDependencies packageJson))%nat in
  packageJson <-
    attemptInstallWithRetries packageJson projectRootPath maxRetries ;;
  saveRemovedItems exportRootPath.

End Program.

(* ===================================================================== *)
(** ** Vocabulary of the statements *)
(* ===================================================================== *)

(** Entries that satisfy a condition, and entries that do not. *)
Definition taken (condition : string -> bool) (deps : Dependencies)
  : Dependencies :=
  filter (fun kv => condition kv.1 = true) deps.

Definition kept (condition : string -> bool) (deps : Dependencies)
  : Dependencies :=
  filter (fun kv => condition kv.1 = false) deps.

(** The entries of [m] that assignments into the object [record] store:
    all of them, but an entry named [__proto__] when [record] has no own
    property of that name. *)
Definition stored (record m : gmap string string) : gmap string string :=
  filter (fun kv => JsObject.stores record kv.1 = true) m.

(** The condition of [removeAliasDeps]. *)
Definition aliasCondition (alias : string) (name : string) : bool :=
  Str.startsWith name (alias ++ "/").

(** The portion of a string before its first path separator. *)
Fixpoint beforeSlash (s : string) : string :=
  match s with
  | EmptyString => ""
  | String c s' =>
      if Ascii.eqb c Str.slash then "" else String c (beforeSlash s')
  end.

(** The classifier as the specification words it: the first matcher that
    matches wins, its capture is percent-decoded, and the alias is the
    portion before the first path separator. *)
Fixpoint firstCapture (ps : list Regex.Pattern) (error : string)
  : option string :=
  match ps with
  | [] => None
  | p :: ps' =>
      match Regex.exec p error with
      | Some m => Some (Regex.group1 m)
      | None => firstCapture ps' error
      end
  end.

Definition firstMatchWins (error : string) : Result (option string) :=
  match firstCapture Classifier.patterns error with
  | None => Ret None
  | Some capture =>
      match URI.decodeURIComponent capture with
      | Some decoded => Ret (Some (beforeSlash decoded))
      | None => Throw URIError
      end
  end.

(** Diagnostics used in the statements. *)
Definition yarnScopedNotFound : string :=
  "https://registry.yarnpkg.com/%40scope%2Fpkg: Not found".

Definition exampleScopedNotFound : string :=
  "https://registry.example.com/%40scope%2Fpkg: Not found".

Definition couldntFindPackage (name : string) : string :=
  "error Couldn't find package " ++ Str.quoted name.

(** A text that matches the first two shapes. *)
Definition twoShapes : string :=
  "https://registry.yarnpkg.com//x: Not found "
  ++ couldntFindPackage "left-pad".


(** The manifest of a project. *)
Definition manifestPath (projectRootPath : Path) : Path :=
  join projectRootPath "package.json".

(** Install attempts among a list of events. *)
Definition isExec (e : Event) : bool :=
  match e with
  | Exec _ _ => true
  | _ => false
  end.

Definition attempts (evs : list Event) : nat :=
  length (List.filter isExec evs).

(** Writes to a file other than the manifest. *)
Definition isWriteElsewhere (manifest : Path) (e : Event) : bool :=
  match e with
  | WriteFile p _ => negb (bool_decide (p = manifest))
  | _ => false
  end.

(** The manifest and the accumulators after the two [removeAliasDeps]
    calls of one pruning step. *)
Definition prunedManifest (alias : string) (p : PackageJson) : PackageJson :=
  mkPackageJson (kept (aliasCondition alias) <$> dependencies p)
    (kept (aliasCondition alias) <$> devDependencies p) (scripts p).

Definition prunedStore (alias : string) (p : PackageJson) (r : Removed)
  : Removed :=
  mkRemoved
    (taken (aliasCondition alias) (default ∅ (dependencies p))
     ∪ removedLocalDeps r)
    (taken (aliasCondition alias) (default ∅ (devDependencies p))
     ∪ removedLocalDevDeps r)
    (removedLockedDeps r) (removedLockedDevDeps r) (removedScripts r).

(** The state in which the next attempt starts after a pruning step. *)
Definition afterPruning (projectRootPath : Path) (alias : string)
  (p : PackageJson) (s : State) : State :=
  let doc := DocPackageJson (prunedManifest alias p) in
  addEvent (LogInfo ("Removed packages starting with alias: " ++ alias))
    (addEvent (WriteFile (manifestPath projectRootPath) doc)
       (putFile (manifestPath projectRootPath) doc
          (setRemoved (prunedStore alias p (removed s)) s))).

(** The state after the command of an attempt has failed. *)
Definition afterFailure (projectRootPath : Path) (stderr : string)
  (s : State) : State :=
  addEvent
    (ConsoleError
       ("Error executing command " ++ Str.quoted "yarn install" ++ ":")
       stderr)
    (addEvent (Exec "yarn install" projectRootPath)
       (addEvent (LogInfo "Attempting to install dependencies...") s)).

(** The manifest and the accumulators after [removeScripts] and the two
    [removeLockedDeps] calls. *)
Definition preparedManifest (locked_ : LockedDependencies) (p : PackageJson)
  : PackageJson :=
  mkPackageJson (kept (inLocked locked_) <$> dependencies p)
    (kept (inLocked locked_) <$> devDependencies p) None.

Definition preparedStore (locked_ : LockedDependencies) (p : PackageJson)
  (r : Removed) : Removed :=
  mkRemoved (removedLocalDeps r) (removedLocalDevDeps r)
    (stored (removedLockedDeps r)
       (taken (inLocked locked_) (default ∅ (dependencies p)))
     ∪ removedLockedDeps r)
    (stored (removedLockedDevDeps r)
       (taken (inLocked locked_) (default ∅ (devDependencies p)))
     ∪ removedLockedDevDeps r)
    (stored (removedScripts r) (default ∅ (scripts p)) ∪ removedScripts r).

(** The retry budget of a manifest. *)
Definition budget (p : PackageJson) : nat :=
  keyCount (dependencies p) + keyCount (devDependencies p).

(** Conservation for one kind of dependency: the original map is the
    disjoint union of what is still in the manifest and of the two
    removal buckets of that kind. *)
Definition conserved (original final : option Dependencies)
  (removedLocal removedLocked : Dependencies) : Prop :=
  match original, final with
  | Some d, Some d' =>
      d' ∪ removedLocal ∪ removedLocked = d
      /\ d' ##ₘ removedLocal /\ d' ##ₘ removedLocked
      /\ removedLocal ##ₘ removedLocked
  | None, None => removedLocal = ∅ /\ removedLocked = ∅
  | _, _ => False
  end.

(** The same on the names other than [__proto__]: on each of them the
    union of the three maps agrees with the original map, and the three
    maps do not overlap. *)
Definition conservedButProto (original final : option Dependencies)
  (removedLocal removedLocked : Dependencies) : Prop :=
  match original, final with
  | Some d, Some d' =>
      (forall name,
         name <> "__proto__" ->
         (d' ∪ removedLocal ∪ removedLocked) !! name = d !! name)
      /\ d' ##ₘ removedLocal /\ d' ##ₘ removedLocked
      /\ removedLocal ##ₘ removedLocked
  | None, None => removedLocal = ∅ /\ removedLocked = ∅
  | _, _ => False
  end.

(** A map without its entry named [__proto__]. *)
Definition withoutProto (o : option (gmap string string))
  : option (gmap string string) :=
  delete "__proto__" <$> o.

Definition conservedManifest (original final : PackageJson) (r : Removed)
  : Prop :=
  conserved (dependencies original) (dependencies final)
    (removedLocalDeps r) (removedLockedDeps r)
  /\ conserved (devDependencies original) (devDependencies final)
       (removedLocalDevDeps r) (removedLockedDevDeps r).

(** Every entry of [original] with a name other than [__proto__] is still
    in [final] or is, with its version, in one of the two buckets. *)
Definition tracked (original final : option Dependencies)
  (removedLocal removedLocked : Dependencies) : Prop :=
  forall d name ver,
    original = Some d -> d !! name = Some ver -> name <> "__proto__" ->
    final ≫= (fun d' => d' !! name) = Some ver
    \/ (final ≫= (fun d' => d' !! name) = None
        /\ (removedLocal !! name = Some ver
            \/ removedLocked !! name = Some ver)).

(** Every entry of [original] with a name other than [__proto__] that
    [final] no longer has is, with its version, in one of the two buckets;
    the summary, in which the locked bucket wins, shows it with that
    version unless the locked bucket held the name before the run. *)
Definition accountedFor (original final : option Dependencies)
  (removedLocal removedLocked staleLocked : Dependencies) : Prop :=
  forall d name ver,
    original = Some d -> d !! name = Some ver -> name <> "__proto__" ->
    final ≫= (fun d' => d' !! name) = None ->
    (removedLocal !! name = Some ver \/ removedLocked !! name = Some ver)
    /\ is_Some ((removedLocked ∪ removedLocal) !! name)
    /\ (staleLocked !! name = None ->
        (removedLocked ∪ removedLocal) !! name = Some ver).

(** The buckets [r] account for what a run that started with the buckets
    [r0] has removed from the manifest [original], of which [final] is
    left. *)
Definition recordsRemoved (original final : PackageJson) (r0 r : Removed)
  : Prop :=
  accountedFor (dependencies original) (dependencies final)
    (removedLocalDeps r) (removedLockedDeps r) (removedLockedDeps r0)
  /\ accountedFor (devDependencies original) (devDependencies final)
       (removedLocalDevDeps r) (removedLockedDevDeps r)
       (removedLockedDevDeps r0)
  /\ scripts final = None
  /\ forall scr name command,
       scripts original = Some scr -> scr !! name = Some command ->
       name <> "__proto__" ->
       removedScripts r !! name = Some command.

(** What [removeScripts] prints. *)
Definition scriptsLog (p : PackageJson) : list Event :=
  match scripts p with
  | Some _ => [LogSuccess "Removed scripts from package.json"]
  | None => []
  end.

(** The state after the preparation of [cleanPackageJson] (scripts and
    locked dependencies removed, manifest written), on a manifest [p] read
    from the disk. *)
Definition preparedState (projectRootPath : Path)
  (locked_ : LockedDependencies) (p : PackageJson) (s : State) : State :=
  let doc := DocPackageJson (preparedManifest locked_ p) in
  mkState (preparedStore locked_ p (removed s)) (dirs s)
    (<[manifestPath projectRootPath := doc]> (files s))
    (events s
     ++ ReadFile (manifestPath projectRootPath)
        :: scriptsLog p ++ [WriteFile (manifestPath projectRootPath) doc]).

(** The same when the manifest cannot be written back. *)
Definition unpersistedState (projectRootPath : Path)
  (locked_ : LockedDependencies) (p : PackageJson) (s : State) : State :=
  mkState (preparedStore locked_ p (removed s)) (dirs s) (files s)
    (events s ++ ReadFile (manifestPath projectRootPath) :: scriptsLog p).

(** The documents of the export, in the order in which they are written. *)
Definition detailDocuments (exportRootPath : Path) (r : Removed)
  : list (Path * Doc) :=
  let detailsPath := join exportRootPath "details" in
  [ (join detailsPath "removedLocalPackages.json",
     DocRecord (removedLocalDeps r));
    (join detailsPath "removedLockedPackages.json",
     DocRecord (removedLockedDeps r));
    (join detailsPath "removedScripts.json", DocRecord (removedScripts r)) ].

Definition summaryDocument (exportRootPath : Path) (r : Removed)
  : Path * Doc :=
  (join exportRootPath "allRemovedItems.json",
   DocAllRemoved (removedScripts r)
     (removedLockedDeps r ∪ removedLocalDeps r)
     (removedLockedDevDeps r ∪ removedLocalDevDeps r)).

Definition exportDocuments (exportRootPath : Path) (r : Removed)
  : list (Path * Doc) :=
  (detailDocuments exportRootPath r ++ [summaryDocument exportRootPath r])%list.

(** The state after a list of successful writes. *)
Definition written (docs : list (Path * Doc)) (s : State) : State :=
  foldl (fun s pd => addEvent (WriteFile pd.1 pd.2) (putFile pd.1 pd.2 s))
    s docs.

Definition writeEvents (docs : list (Path * Doc)) : list Event :=
  (fun pd => WriteFile pd.1 pd.2) <$> docs.

(** The state after a complete export. *)
Definition exportedState (exportRootPath : Path) (s : State) : State :=
  addEvent
    (LogSuccess ("Saved removed items to " ++ showPath exportRootPath))
    (written (exportDocuments exportRootPath (removed s)) s).

(** A project for the scenarios: its directory and the two export
    directories exist, the accumulators are empty and nothing has been
    printed. *)
Definition projectRoot : Path := ["project"].

Definition exportRoot : Path := ["cleaned-items"].

Definition freshState (manifest : PackageJson) : State :=
  mkState noRemoved {[ projectRoot; exportRoot; join exportRoot "details" ]}
    {[ manifestPath projectRoot := DocPackageJson manifest ]} [].

(** The same without the [details] directory. *)
Definition stateWithoutDetails (manifest : PackageJson) : State :=
  mkState noRemoved {[ projectRoot; exportRoot ]}
    {[ manifestPath projectRoot := DocPackageJson manifest ]} [].

Definition leftPadManifest : PackageJson :=
  mkPackageJson (Some {[ "left-pad" := "1.0.0" ]}) None None.

Definition lodashManifest : PackageJson :=
  mkPackageJson (Some {[ "lodash" := "4.17.21" ]}) None None.

(** An install command that always fails with the given diagnostic. *)
Definition alwaysFails (diagnostic : string)
  : string -> Path -> State -> ExecOutcome :=
  fun _ _ _ => Failed diagnostic ("Error: Command failed: " ++ diagnostic).

(** [iterates exec root n p rc s n' p' rc' s']: the retry loop, entered
    with [n] iterations left, manifest [p], counter [rc] and state [s], is
    at the head of an iteration with [n'], [p'], [rc'] and [s'] after zero
    or more pruning steps. *)
Inductive iterates (exec : string -> Path -> State -> ExecOutcome)
  (root : Path)
  : nat -> PackageJson -> nat -> State ->
    nat -> PackageJson -> nat -> State -> Prop :=
| iterates_here n p rc s : iterates exec root n p rc s n p rc s
| iterates_prune n p rc s stderr error alias n' p' rc' s' :
    exec "yarn install" root
      (addEvent (LogInfo "Attempting to install dependencies...") s)
    = Failed stderr error ->
    Classifier.parseErrorForPackageAlias error = Ret (Some alias) ->
    root ∈ dirs s ->
    iterates exec root n (prunedManifest alias p) (S rc)
      (afterPruning root alias p (afterFailure root stderr s))
      n' p' rc' s' ->
    iterates exec root (S n) p rc s n' p' rc' s'.

(** The entry present in a map of the manifest under [name]. *)
Definition manifestEntry (p : PackageJson) (name : string) : option string :=
  match dependencies p ≫= (fun d => d !! name) with
  | Some v => Some v
  | None => devDependencies p ≫= (fun d => d !! name)
  end.

(** The state in which the loop stops when a failure is not classified. *)
Definition afterAbort (projectRootPath : Path) (stderr error : string)
  (s : State) : State :=
  addEvent (LogError "Could not parse package alias from error:" (Some error))
    (afterFailure projectRootPath stderr s).

Definition noLocked : LockedDependencies := ∅.

(** An install command that fails, naming the package, as long as the
    manifest on the disk lists it, and succeeds otherwise. *)
Definition failsWhileListed (name : string)
  : string -> Path -> State -> ExecOutcome :=
  fun _ cwd s =>
    match files s !! manifestPath cwd with
    | Some (DocPackageJson p) =>
        if bool_decide (is_Some (manifestEntry p name))
        then Failed (couldntFindPackage name)
               ("Error: Command failed: yarn install "
                ++ couldntFindPackage name)
        else Exited "Done"
    | _ => Exited "Done"
    end.

(** An entry is in exactly one of three maps. *)
Definition exactlyOnePlace (name ver : string)
  (final removedLocal removedLocked : Dependencies) : Prop :=
  (final !! name = Some ver /\ removedLocal !! name = None
   /\ removedLocked !! name = None)
  \/ (final !! name = None /\ removedLocal !! name = Some ver
      /\ removedLocked !! name = None)
  \/ (final !! name = None /\ removedLocal !! name = None
      /\ removedLocked !! name = Some ver).

(** [hasChar c s]: the character [c] occurs in [s]. *)
Fixpoint hasChar (c : ascii) (s : string) : bool :=
  match s with
  | EmptyString => false
  | String a s' => Ascii.eqb a c || hasChar c s'
  end.

(** The diagnostic of yarn for a package it cannot find, followed by any
    text. *)
Definition couldntFindPackageThen (name rest : string) : string :=
  "error Couldn't find package " ++ String Str.dquote ""
  ++ name ++ String Str.dquote rest.

(** Messages of the retry loop. *)
Definition installedMessage : Event :=
  LogSuccess "Dependencies installed successfully!".

Definition exhaustedMessage : Event :=
  LogError
    "Failed to resolve all package installation issues after maximum retries."
    None.

Definition isAbortMessage (e : Event) : bool :=
  match e with
  | LogError message (Some _) =>
      bool_decide (message = "Could not parse package alias from error:")
  | _ => false
  end.

(** The state in which the loop stops when the install command exits
    normally. *)
Definition afterSuccess (projectRootPath : Path) (stdout : string)
  (s : State) : State :=
  addEvent installedMessage
    (addEvent (ConsoleLog stdout)
       (addEvent (Exec "yarn install" projectRootPath)
          (addEvent (LogInfo "Attempting to install dependencies...") s))).

(** [d'] is [d] without some entries whose names contain a path
    separator. *)
Definition keepsUnscoped (d' d : Dependencies) : Prop :=
  d' ⊆ d
  /\ forall name, hasChar Str.slash name = false -> d' !! name = d !! name.

Definition prunedFrom (o' o : option Dependencies) : Prop :=
  match o', o with
  | Some d', Some d => keepsUnscoped d' d
  | None, None => True
  | _, _ => False
  end.

Definition shrunkManifest (p' p : PackageJson) : Prop :=
  scripts p' = scripts p
  /\ prunedFrom (dependencies p') (dependencies p)
  /\ prunedFrom (devDependencies p') (devDependencies p).

(** What the retry loop may do to the accumulators: the locked buckets and
    the scripts bucket stay, the local buckets keep their names. *)
Definition localGrowth (r r' : Removed) : Prop :=
  removedLockedDeps r' = removedLockedDeps r
  /\ removedLockedDevDeps r' = removedLockedDevDeps r
  /\ removedScripts r' = removedScripts r
  /\ dom (removedLocalDeps r) ⊆ dom (removedLocalDeps r')
  /\ dom (removedLocalDevDeps r) ⊆ dom (removedLocalDevDeps r').


(** What the summary document holds of one kind restores the original map
    of that kind. *)
Definition restores (original final : option Dependencies)
  (summary : Dependencies) : Prop :=
  match original, final with
  | Some d, Some d' => d' ∪ summary = d /\ d' ##ₘ summary
  | None, None => summary = ∅
  | _, _ => False
  end.

(** The diagnostic of yarn for a registry path that does not exist,
    followed by any text. *)
Definition registryPathNotFound (path rest : string) : string :=
  "https://registry.yarnpkg.com/" ++ path ++ ": Not found" ++ rest.

Definition scopedManifest : PackageJson :=
  mkPackageJson (Some {[ "@scope/pkg" := "1.2.3"; "lodash" := "4.17.21" ]})
    None None.

(** A manifest with a script named [__proto__]. *)
Definition protoScriptManifest : PackageJson :=
  mkPackageJson None None
    (Some {[ "__proto__" := "echo hi"; "build" := "tsc" ]}).

Definition buildScriptManifest : PackageJson :=
  mkPackageJson (Some {[ "lodash" := "4.17.21" ]}) None
    (Some {[ "build" := "tsc"; "test" := "jest" ]}).
(* ===================================================================== *)
(** ** The pruner as a partition of the map *)
(* ===================================================================== *)

Section PrunerFacts.

Variable condition : string -> bool.

Lemma stores_assign (n v : string) (r : Dependencies) (k : string) :
  JsObject.stores (JsObject.assign n v r) k = JsObject.stores r k.
Proof.
  unfold JsObject.assign. destruct (JsObject.stores r n) eqn:E; [|done].
  unfold JsObject.stores in *. destruct (decide (k = n)) as [->|Hne].
  - rewrite lookup_insert_eq, E.
    rewrite (bool_decide_eq_true_2 (is_Some (Some v))) by eauto.
    apply orb_true_r.
  - by rewrite lookup_insert_ne.
Qed.

Lemma lookup_assign (n v : string) (r : Dependencies) (k : string) :
  JsObject.assign n v r !! k
  = if bool_decide (k = n) && JsObject.stores r n then Some v else r !! k.
Proof.
  unfold JsObject.assign. case_bool_decide as Hk.
  - subst k. destruct (JsObject.stores r n); cbn; [|done].
    apply lookup_insert_eq.
  - cbn. destruct (JsObject.stores r n); [|done]. by rewrite lookup_insert_ne.
Qed.

Lemma lookup_stored (r m : Dependencies) (k : string) :
  stored r m !! k = if JsObject.stores r k then m !! k else None.
Proof.
  unfold stored. destruct (filter _ m !! k) as [v|] eqn:E.
  - apply map_lookup_filter_Some in E as [E Hc]. simpl in Hc.
    by rewrite Hc.
  - destruct (JsObject.stores r k) eqn:Hc; [|done].
    destruct (m !! k) as [v|] eqn:Hk; [|done].
    assert (filter (fun kv => JsObject.stores r kv.1 = true) m !! k = Some v)
      as E' by (by apply map_lookup_filter_Some).
    congruence.
Qed.

Lemma stored_empty (r : Dependencies) : stored r ∅ = ∅.
Proof. apply map_filter_empty. Qed.

Lemma stored_subseteq (r m : Dependencies) : stored r m ⊆ m.
Proof. apply map_filter_subseteq. Qed.

(** Only an entry named [__proto__] can fail to be stored. *)
Lemma stores_other (r : Dependencies) (k : string) :
  k <> "__proto__" -> JsObject.stores r k = true.
Proof.
  intros Hk. unfold JsObject.stores.
  destruct (String.eqb_spec k "__proto__") as [->|_]; [done|reflexivity].
Qed.

Lemma foldl_removeStep_lookup (l : list (string * string))
  (d r : Dependencies) (k : string) :
  NoDup l.*1 ->
  (foldl (removeStep condition) (d, r) l).1 !! k
  = (if condition k && bool_decide (k ∈ l.*1) then None else d !! k)
  /\ (foldl (removeStep condition) (d, r) l).2 !! k
     = (if condition k && JsObject.stores r k
        then match (list_to_map l : Dependencies) !! k with
             | Some v => Some v
             | None => r !! k
             end
        else r !! k).
Proof.
  revert d r. induction l as [|[n v] l IH]; intros d r Hnd.
  - simpl. rewrite andb_false_r, lookup_empty.
    by destruct (condition k && JsObject.stores r k).
  - rewrite fmap_cons in Hnd. apply NoDup_cons in Hnd as [Hn Hnd].
    cbn [fst] in Hn.
    cbn [foldl removeStep]. rewrite fmap_cons. cbn [fst].
    change (list_to_map ((n, v) :: l) : Dependencies)
      with (<[n := v]> (list_to_map l : Dependencies)).
    rewrite (bool_decide_ext _ _ (elem_of_cons (l.*1) k n)), bool_decide_or.
    destruct (decide (k = n)) as [->|Hne].
    + rewrite (bool_decide_eq_true_2 (n = n)) by done.
      rewrite (bool_decide_eq_false_2 (n ∈ l.*1)) in IH by done.
      rewrite andb_false_r in IH.
      rewrite lookup_insert_eq, orb_true_l, andb_true_r.
      rewrite (not_elem_of_list_to_map_1 _ n) in IH by done.
      destruct (condition n) eqn:Hc.
      * destruct (IH (delete n d) (JsObject.assign n v r) Hnd) as [-> ->].
        rewrite lookup_delete_eq, stores_assign, lookup_assign.
        rewrite (bool_decide_eq_true_2 (n = n)) by done. cbn.
        by destruct (JsObject.stores r n).
      * by destruct (IH d r Hnd) as [-> ->].
    + rewrite (bool_decide_eq_false_2 (k = n)) by done.
      rewrite orb_false_l, lookup_insert_ne by done.
      destruct (condition n) eqn:Hc.
      * destruct (IH (delete n d) (JsObject.assign n v r) Hnd) as [-> ->].
        rewrite lookup_delete_ne, stores_assign, lookup_assign by done.
        by rewrite (bool_decide_eq_false_2 (k = n)) by done.
      * by destruct (IH d r Hnd) as [-> ->].
Qed.

Lemma lookup_kept (deps : Dependencies) (k : string) :
  kept condition deps !! k = if condition k then None else deps !! k.
Proof.
  unfold kept. destruct (filter _ deps !! k) as [v|] eqn:E.
  - apply map_lookup_filter_Some in E as [E Hc]. simpl in Hc.
    by rewrite Hc.
  - destruct (condition k) eqn:Hc; [done|].
    destruct (deps !! k) as [v|] eqn:Hk; [|done].
    assert (filter (fun kv => condition kv.1 = false) deps !! k = Some v)
      as E' by (by apply map_lookup_filter_Some).
    congruence.
Qed.

Lemma lookup_taken (deps : Dependencies) (k : string) :
  taken condition deps !! k = if condition k then deps !! k else None.
Proof.
  unfold taken. destruct (filter _ deps !! k) as [v|] eqn:E.
  - apply map_lookup_filter_Some in E as [E Hc]. simpl in Hc.
    by rewrite Hc.
  - destruct (condition k) eqn:Hc; [|done].
    destruct (deps !! k) as [v|] eqn:Hk; [|done].
    assert (filter (fun kv => condition kv.1 = true) deps !! k = Some v)
      as E' by (by apply map_lookup_filter_Some).
    congruence.
Qed.

Lemma foldl_removeStep_entries (deps r : Dependencies) :
  foldl (removeStep condition) (deps, r) (map_to_list deps)
  = (kept condition deps, stored r (taken condition deps) ∪ r).
Proof.
  destruct (foldl _ _ _) as [d' r'] eqn:E.
  f_equal; apply map_eq; intros k;
    destruct (foldl_removeStep_lookup (map_to_list deps) deps r k
                (NoDup_fst_map_to_list deps)) as [H1 H2];
    rewrite E in H1, H2; simpl in H1, H2.
  - rewrite H1, lookup_kept.
    destruct (condition k); [|done]. simpl.
    destruct (deps !! k) as [v|] eqn:Hk.
    + rewrite bool_decide_eq_true_2; [done|].
      apply list_elem_of_fmap. exists (k, v). split; [done|].
      by apply elem_of_map_to_list.
    + by destruct (bool_decide _).
  - rewrite H2, list_to_map_to_list, lookup_union, lookup_stored,
      lookup_taken.
    destruct (condition k), (JsObject.stores r k), (deps !! k), (r !! k);
      done.
Qed.

Lemma removeAndRecordDependencies_Some (deps : Dependencies)
  (isDevDep : bool) (ty : DependencyType) (r : Removed) :
  removeAndRecordDependencies (Some deps) isDevDep ty condition r
  = (Some (kept condition deps),
     setRecord ty isDevDep
       (stored (getRecord ty isDevDep r) (taken condition deps)
        ∪ getRecord ty isDevDep r) r).
Proof.
  unfold removeAndRecordDependencies.
  by rewrite foldl_removeStep_entries.
Qed.

Lemma kept_taken_disjoint (deps : Dependencies) :
  kept condition deps ##ₘ taken condition deps.
Proof.
  apply map_disjoint_spec. intros k x y.
  rewrite lookup_kept, lookup_taken. by destruct (condition k).
Qed.

Lemma kept_taken_union (deps : Dependencies) :
  kept condition deps ∪ taken condition deps = deps.
Proof.
  apply map_eq. intros k. rewrite lookup_union, lookup_kept, lookup_taken.
  destruct (condition k), (deps !! k); done.
Qed.

Lemma kept_subseteq (deps : Dependencies) : kept condition deps ⊆ deps.
Proof. apply map_filter_subseteq. Qed.

Lemma kept_kept (deps : Dependencies) :
  kept condition (kept condition deps) = kept condition deps.
Proof.
  apply map_eq. intros k. rewrite !lookup_kept. by destruct (condition k).
Qed.

Lemma taken_kept (deps : Dependencies) :
  taken condition (kept condition deps) = ∅.
Proof.
  apply map_eq. intros k. rewrite lookup_taken, lookup_kept, lookup_empty.
  by destruct (condition k).
Qed.

Lemma size_kept_le (deps : Dependencies) :
  size (kept condition deps) <= size deps.
Proof. apply map_subseteq_size, kept_subseteq. Qed.

Lemma size_kept_lt (deps : Dependencies) (k v : string) :
  deps !! k = Some v -> condition k = true ->
  size (kept condition deps) < size deps.
Proof.
  intros Hk Hc. apply map_subset_size. split; [apply kept_subseteq|].
  intros Hsub. rewrite map_subseteq_spec in Hsub.
  specialize (Hsub k v Hk). rewrite lookup_kept, Hc in Hsub. done.
Qed.

End PrunerFacts.

Lemma setRecord_getRecord (ty : DependencyType) (dev : bool) (r : Removed) :
  setRecord ty dev (getRecord ty dev r) r = r.
Proof. by destruct r, ty, dev. Qed.

Lemma getRecord_setRecord (ty : DependencyType) (dev : bool)
  (m : Dependencies) (r : Removed) :
  getRecord ty dev (setRecord ty dev m r) = m.
Proof. by destruct ty, dev. Qed.

(* ===================================================================== *)
(** ** C7: pruning twice *)
(* ===================================================================== *)

(** C7. Pruner idempotence: for every dependency map (present or absent),
    every predicate and every bucket selector, pruning again with the same
    predicate after a first pruning changes neither the map nor any audit
    bucket. *)
Theorem prune_twice_changes_nothing (dependencies : option Dependencies)
  (condition : string -> bool) (isDevDep isDevDep' : bool)
  (ty ty' : DependencyType) (r : Removed) :
  let first :=
    removeAndRecordDependencies dependencies isDevDep ty condition r in
  removeAndRecordDependencies first.1 isDevDep' ty' condition first.2 = first.
Proof.
  destruct dependencies as [deps|]; [|done].
  rewrite removeAndRecordDependencies_Some. cbn [fst snd].
  rewrite removeAndRecordDependencies_Some, kept_kept, taken_kept.
  by rewrite stored_empty, (left_id_L ∅ (∪)), setRecord_getRecord.
Qed.

(* ===================================================================== *)
(** ** C1: what alias removal removes *)
(* ===================================================================== *)

Lemma hasChar_app (c : ascii) (s t : string) :
  hasChar c (s ++ t) = hasChar c s || hasChar c t.
Proof.
  induction s as [|a s IH]; [done|]. simpl. by rewrite IH, orb_assoc.
Qed.

Lemma startsWith_hasChar (c : ascii) (p s : string) :
  Str.startsWith s p = true -> hasChar c p = true -> hasChar c s = true.
Proof.
  unfold Str.startsWith. revert s. induction p as [|a p IH]; [done|].
  intros [|b s]; [done|]. cbn.
  destruct (ascii_dec a b) as [->|]; [|done].
  intros Hp. destruct (Ascii.eqb b c); [done|]. cbn. by apply IH.
Qed.

Lemma aliasCondition_has_slash (alias name : string) :
  aliasCondition alias name = true -> hasChar Str.slash name = true.
Proof.
  unfold aliasCondition. intros H.
  apply (startsWith_hasChar Str.slash) in H; [done|].
  rewrite hasChar_app. cbn. by rewrite orb_true_r.
Qed.

(** A name that starts with an alias and a path separator is not
    [__proto__], so the assignment that records it stores it. *)
Lemma stored_taken_alias (alias : string) (r deps : Dependencies) :
  stored r (taken (aliasCondition alias) deps)
  = taken (aliasCondition alias) deps.
Proof.
  apply map_eq. intros k. rewrite lookup_stored, lookup_taken.
  destruct (aliasCondition alias k) eqn:E.
  - rewrite stores_other; [done|]. intros ->.
    apply aliasCondition_has_slash in E. discriminate.
  - by destruct (JsObject.stores r k).
Qed.

Lemma removeAliasDeps_Some (alias : string) (deps : Dependencies)
  (isDevDep : bool) (r : Removed) :
  removeAliasDeps alias (Some deps) isDevDep r
  = (Some (kept (aliasCondition alias) deps),
     setRecord local isDevDep
       (taken (aliasCondition alias) deps ∪ getRecord local isDevDep r) r).
Proof.
  unfold removeAliasDeps. fold (aliasCondition alias).
  by rewrite removeAndRecordDependencies_Some, stored_taken_alias.
Qed.

(** C1. With alias [foo], the entry named [foo/x] is removed and recorded
    and [foobar] is left alone, but the entry named exactly [foo] is left
    in the map as well.  So in the run of scenario A (the manifest lists
    [left-pad], the install fails naming it as long as it is listed) the
    only attempt fails, nothing is pruned and [left-pad] is still in the
    manifest at the end. *)
Theorem alias_removal_keeps_exact_name :
  removeAliasDeps "foo"
    (Some {[ "foo" := "1.0.0"; "foo/x" := "2.0.0"; "foobar" := "3.0.0" ]})
    false noRemoved
  = (Some {[ "foo" := "1.0.0"; "foobar" := "3.0.0" ]},
     mkRemoved {[ "foo/x" := "2.0.0" ]} ∅ ∅ ∅ ∅)
  /\ let final :=
       cleanPackageJson (failsWhileListed "left-pad") projectRoot noLocked
         exportRoot (freshState leftPadManifest) in
     final.1 = Ret tt
     /\ files final.2 !! manifestPath projectRoot
        = Some (DocPackageJson leftPadManifest)
     /\ removed final.2 = noRemoved
     /\ attempts (events final.2) = 1.
Proof. cbv zeta. repeat split; vm_compute; reflexivity. Qed.

(* ===================================================================== *)
(** ** The classifier *)
(* ===================================================================== *)

Lemma aliasMatch_beforeSlash (decoded : string) :
  Classifier.aliasMatch decoded
  = match beforeSlash decoded with
    | EmptyString => None
    | a => Some [a]
    end.
Proof.
  unfold Classifier.aliasMatch, Classifier.aliasPattern.
  induction decoded as [|c s IH]; [done|].
  cbn [Regex.match_here beforeSlash] in *.
  destruct (Ascii.eqb c Str.slash); [done|].
  rewrite IH. by destruct (beforeSlash s).
Qed.

Lemma tryPatterns_skip_unmatched (pre ps : list Regex.Pattern)
  (error : string) :
  Forall (fun q => Regex.exec q error = None) pre ->
  Classifier.tryPatterns (pre ++ ps) error = Classifier.tryPatterns ps error.
Proof.
  induction 1 as [|q pre Hq _ IH]; [done|].
  cbn [app Classifier.tryPatterns]. by rewrite Hq.
Qed.

Lemma tryPatterns_no_match (ps : list Regex.Pattern) (error : string) :
  Forall (fun q => Regex.exec q error = None) ps ->
  Classifier.tryPatterns ps error = Ret None.
Proof.
  intros H. rewrite <- (app_nil_r ps).
  by rewrite tryPatterns_skip_unmatched.
Qed.

(** The alias is never the empty string. *)
Lemma tryPatterns_alias_nonempty (ps : list Regex.Pattern)
  (error alias : string) :
  Classifier.tryPatterns ps error = Ret (Some alias) -> alias <> "".
Proof.
  induction ps as [|p ps IH]; [done|]. cbn [Classifier.tryPatterns].
  destruct (Regex.exec p error) as [m|]; [|done].
  destruct (URI.decodeURIComponent _) as [d|]; [|done].
  rewrite aliasMatch_beforeSlash.
  destruct (beforeSlash d) eqn:E; [done|].
  cbn. intros [= <-]. done.
Qed.

(** The decoder and the matchers on a few texts. *)
Example decode_escaped_space :
  URI.decodeURIComponent "a%20b" = Some "a b".
Proof. vm_compute. reflexivity. Qed.

Example decode_multibyte_length :
  String.length <$> URI.decodeURIComponent "%E2%82%ACx" = Some 4.
Proof. vm_compute. reflexivity. Qed.

Example decode_overlong_throws : URI.decodeURIComponent "%C0%80" = None.
Proof. vm_compute. reflexivity. Qed.

Example decode_truncated_throws : URI.decodeURIComponent "%4" = None.
Proof. reflexivity. Qed.

Example exec_leftmost_match :
  Regex.exec Classifier.registryNotFound
    ("https://registry.yarnpkg.com/a:b: Not found "
     ++ "https://registry.yarnpkg.com/foo/bar: Not found")
  = Some ["foo/bar"].
Proof. vm_compute. reflexivity. Qed.

Example classify_no_matching_version :
  Classifier.parseErrorForPackageAlias
    ("error Couldn't find any versions for " ++ Str.quoted "@babel/core"
     ++ " that matches " ++ Str.quoted "^9")
  = Ret (Some "@babel").
Proof. vm_compute. reflexivity. Qed.

Example classify_malformed_escape_throws :
  Classifier.parseErrorForPackageAlias (couldntFindPackage "100%")
  = Throw URIError.
Proof. vm_compute. reflexivity. Qed.

(* ===================================================================== *)
(** ** C3: the order of the matchers *)
(* ===================================================================== *)

(** C3 (as amended). The matchers are tried in their fixed order.  When
    the matchers before [p] do not match and [p] matches, the capture of
    [p] is percent-decoded: if the portion of the decoded text before the
    first path separator is not empty, that portion is the alias returned;
    if it is empty, [p] is passed over and the remaining matchers are
    tried.  A text that no matcher matches gives no signal. *)
Theorem classifier_first_usable_match_wins (error : string)
  (pre post : list Regex.Pattern) (p : Regex.Pattern) (m : list string)
  (decoded : string) :
  Classifier.patterns = (pre ++ p :: post)%list ->
  Forall (fun q => Regex.exec q error = None) pre ->
  Regex.exec p error = Some m ->
  URI.decodeURIComponent (Regex.group1 m) = Some decoded ->
  (beforeSlash decoded <> "" ->
   Classifier.parseErrorForPackageAlias error
   = Ret (Some (beforeSlash decoded)))
  /\ (beforeSlash decoded = "" ->
      Classifier.parseErrorForPackageAlias error
      = Classifier.tryPatterns post error)
  /\ (forall text,
        Forall (fun q => Regex.exec q text = None) Classifier.patterns ->
        Classifier.parseErrorForPackageAlias text = Ret None)
  /\ Classifier.parseErrorForPackageAlias (couldntFindPackage "left-pad")
     = Ret (Some "left-pad").
Proof.
  intros Hps Hpre Hm Hd.
  assert (Hhere : Classifier.parseErrorForPackageAlias error
                  = match beforeSlash decoded with
                    | EmptyString => Classifier.tryPatterns post error
                    | a => Ret (Some a)
                    end).
  { unfold Classifier.parseErrorForPackageAlias.
    rewrite Hps, tryPatterns_skip_unmatched by done.
    cbn [Classifier.tryPatterns]. rewrite Hm, Hd, aliasMatch_beforeSlash.
    by destruct (beforeSlash decoded). }
  split; [|split; [|split]].
  - intros Hne. rewrite Hhere. by destruct (beforeSlash decoded).
  - intros E. by rewrite Hhere, E.
  - intros text Hall. by apply tryPatterns_no_match.
  - vm_compute. reflexivity.
Qed.

Lemma classifier_first_usable_match_wins_witness :
  Classifier.parseErrorForPackageAlias yarnScopedNotFound
  = Ret (Some "@scope")
  /\ Classifier.parseErrorForPackageAlias twoShapes = Ret (Some "left-pad").
Proof.
  split.
  - apply (classifier_first_usable_match_wins yarnScopedNotFound []
            [Classifier.packageNotFound; Classifier.noMatchingVersion]
            Classifier.registryNotFound ["%40scope%2Fpkg"] "@scope/pkg");
      [reflexivity | constructor | vm_compute; reflexivity
      | vm_compute; reflexivity | vm_compute; discriminate].
  - destruct (classifier_first_usable_match_wins twoShapes []
            [Classifier.packageNotFound; Classifier.noMatchingVersion]
            Classifier.registryNotFound ["/x"] "/x") as (_ & H & _);
      [reflexivity | constructor | vm_compute; reflexivity
      | vm_compute; reflexivity |].
    rewrite H by reflexivity. vm_compute. reflexivity.
Defined.

(** On a text that matches the first two shapes, where the capture of the
    first begins with a path separator, the alias comes from the second
    matcher. *)
Lemma first_match_does_not_always_win :
  ~ (forall error,
       Classifier.parseErrorForPackageAlias error = firstMatchWins error).
Proof.
  intros H. specialize (H twoShapes). vm_compute in H. discriminate.
Qed.

(* ===================================================================== *)
(** ** C2: the scoped registry diagnostic *)
(* ===================================================================== *)

(** The diagnostic of the specification names another registry host, which
    the first matcher does not accept. *)
Lemma example_registry_host_gives_no_alias :
  Classifier.parseErrorForPackageAlias exampleScopedNotFound = Ret None
  /\ Classifier.parseErrorForPackageAlias exampleScopedNotFound
     <> Ret (Some "@scope").
Proof. split; vm_compute; [reflexivity|discriminate]. Qed.

(** C2 (as amended). For the diagnostic
    [https://registry.yarnpkg.com/%40scope%2Fpkg: Not found] the classifier
    returns the alias [@scope]; pruning a map with that alias removes every
    entry whose name starts with [@scope/], records it with its version in
    the local bucket of the map's kind, and leaves every entry alone whose
    name neither is [@scope] nor starts with [@scope/]. *)
Theorem scoped_diagnostic_prunes_scope (deps : Dependencies)
  (isDevDep : bool) (r : Removed) (name ver : string) :
  deps !! name = Some ver ->
  Regex.exec Classifier.registryNotFound yarnScopedNotFound
  = Some ["%40scope%2Fpkg"]
  /\ URI.decodeURIComponent "%40scope%2Fpkg" = Some "@scope/pkg"
  /\ Classifier.parseErrorForPackageAlias yarnScopedNotFound
     = Ret (Some "@scope")
  /\ exists deps',
       let pruned := removeAliasDeps "@scope" (Some deps) isDevDep r in
       pruned.1 = Some deps'
       /\ (Str.startsWith name "@scope/" = true ->
           deps' !! name = None
           /\ getRecord local isDevDep pruned.2 !! name = Some ver)
       /\ (name <> "@scope" -> Str.startsWith name "@scope/" = false ->
           deps' !! name = Some ver).
Proof.
  intros Hname. split; [vm_compute; reflexivity|].
  split; [vm_compute; reflexivity|]. split; [vm_compute; reflexivity|].
  rewrite removeAliasDeps_Some. eexists. split; [reflexivity|].
  cbn [fst snd].
  rewrite getRecord_setRecord, lookup_kept, lookup_union, lookup_taken.
  unfold aliasCondition. change ("@scope" ++ "/") with "@scope/".
  split.
  - intros ->. rewrite Hname. split; [done|].
    by destruct (getRecord local isDevDep r !! name).
  - intros _ ->. done.
Qed.

Lemma scoped_diagnostic_prunes_scope_witness :
  exists deps',
    (removeAliasDeps "@scope"
       (Some {[ "@scope/pkg" := "1.2.3"; "lodash" := "4.17.21" ]})
       false noRemoved).1 = Some deps'
    /\ deps' !! "@scope/pkg" = None.
Proof.
  destruct (scoped_diagnostic_prunes_scope
              {[ "@scope/pkg" := "1.2.3"; "lodash" := "4.17.21" ]}
              false noRemoved "@scope/pkg" "1.2.3")
    as (_ & _ & _ & deps' & E & H & _); [vm_compute; reflexivity|].
  exists deps'. split; [exact E|]. apply H. vm_compute. reflexivity.
Defined.

(* ===================================================================== *)
(** ** One iteration of the retry loop *)
(* ===================================================================== *)

Lemma dirname_join (dir : Path) (fileName : string) :
  dirname (join dir fileName) = dir.
Proof. apply removelast_last. Qed.

Lemma onRemoved_removeAliasDeps (alias : string) (deps : option Dependencies)
  (isDevDep : bool) (s : State) :
  onRemoved (removeAliasDeps alias deps isDevDep) s
  = (Ret (kept (aliasCondition alias) <$> deps),
     setRemoved
       (setRecord local isDevDep
          (taken (aliasCondition alias) (default ∅ deps)
           ∪ getRecord local isDevDep (removed s)) (removed s)) s).
Proof.
  unfold onRemoved. destruct deps as [d|].
  - by rewrite removeAliasDeps_Some.
  - unfold removeAliasDeps, removeAndRecordDependencies, taken.
    cbn [default]. rewrite map_filter_empty, (left_id_L ∅ (∪)).
    by rewrite setRecord_getRecord.
Qed.

Section LoopStep.

Variable exec : string -> Path -> State -> ExecOutcome.
Variable root : Path.

Lemma retryLoop_step (n : nat) (p : PackageJson) (rc : nat) (s : State) :
  retryLoop exec root (S n) p rc s
  = let s1 := addEvent (LogInfo "Attempting to install dependencies...") s in
    match exec "yarn install" root s1 with
    | Exited out =>
        (Ret (p, rc),
         addEvent (LogSuccess "Dependencies installed successfully!")
           (addEvent (ConsoleLog out)
              (addEvent (Exec "yarn install" root) s1)))
    | Failed stderr error =>
        let s3 := afterFailure root stderr s in
        match Classifier.parseErrorForPackageAlias error with
        | Throw e => (Throw e, s3)
        | Ret packageAlias =>
            if isFalsy packageAlias then
              (Ret (p, rc),
               addEvent
                 (LogError "Could not parse package alias from error:"
                    (Some error)) s3)
            else
              let alias := default "" packageAlias in
              if bool_decide (root ∈ dirs s) then
                retryLoop exec root n (prunedManifest alias p) (S rc)
                  (afterPruning root alias p s3)
              else
                (Throw ENOENT,
                 setRemoved (prunedStore alias p (removed s3)) s3)
        end
    end.
Proof.
  cbn [retryLoop]. unfold bind at 1. cbn [logInfo emit].
  unfold bind at 1. unfold runCommand at 1.
  destruct (exec _ _ _) as [out|stderr error]; [reflexivity|].
  cbn zeta. unfold bind at 1, liftResult at 1.
  fold (afterFailure root stderr s).
  destruct (Classifier.parseErrorForPackageAlias error) as [pa|e];
    [|reflexivity].
  destruct (isFalsy pa); [reflexivity|].
  unfold bind at 1. rewrite onRemoved_removeAliasDeps.
  unfold bind at 1. rewrite onRemoved_removeAliasDeps.
  unfold bind at 1. unfold writeFileSync at 1.
  rewrite dirname_join. cbn [dirs setRemoved afterFailure addEvent].
  destruct (bool_decide (root ∈ dirs s)); [|reflexivity].
  reflexivity.
Qed.

End LoopStep.

(* ===================================================================== *)
(** ** What the retry loop can do to the state *)
(* ===================================================================== *)

Lemma attempts_app (l1 l2 : list Event) :
  attempts (l1 ++ l2) = attempts l1 + attempts l2.
Proof. unfold attempts. by rewrite List.filter_app, length_app. Qed.

Lemma isWriteElsewhere_manifest (mp : Path) (doc : Doc) :
  isWriteElsewhere mp (WriteFile mp doc) = false.
Proof. cbn. by rewrite bool_decide_eq_true_2. Qed.

Section LoopFacts.

Variable exec : string -> Path -> State -> ExecOutcome.
Variable root : Path.

(** The loop leaves the directories alone, appends events of which at most
    [n] are install attempts and none is a write outside the manifest, and
    touches no file but the manifest. *)
Lemma retryLoop_frame (n : nat) (p : PackageJson) (rc : nat) (s : State) :
  let s' := (retryLoop exec root n p rc s).2 in
  dirs s' = dirs s
  /\ (forall q, q <> manifestPath root -> files s' !! q = files s !! q)
  /\ exists evs,
       events s' = (events s ++ evs)%list
       /\ attempts evs <= n
       /\ Forall (fun e => isWriteElsewhere (manifestPath root) e = false) evs.
Proof.
  revert p rc s. induction n as [|n IH]; intros p rc s.
  { cbn. split; [done|]. split; [done|]. exists [].
    by rewrite app_nil_r. }
  rewrite retryLoop_step. cbn zeta.
  destruct (exec _ _ _) as [out|stderr error].
  { cbn. split; [done|]. split; [done|]. eexists [_; _; _; _].
    rewrite <- !app_assoc. split; [reflexivity|].
    split; [cbn; lia|]. by repeat constructor. }
  destruct (Classifier.parseErrorForPackageAlias error) as [pa|e].
  2:{ cbn. split; [done|]. split; [done|]. eexists [_; _; _].
      rewrite <- !app_assoc. split; [reflexivity|].
      split; [cbn; lia|]. by repeat constructor. }
  destruct (isFalsy pa).
  { cbn. split; [done|]. split; [done|]. eexists [_; _; _; _].
    rewrite <- !app_assoc. split; [reflexivity|].
    split; [cbn; lia|]. by repeat constructor. }
  destruct (bool_decide (root ∈ dirs s)).
  2:{ cbn. split; [done|]. split; [done|]. eexists [_; _; _].
      rewrite <- !app_assoc. split; [reflexivity|].
      split; [cbn; lia|]. by repeat constructor. }
  destruct (IH (prunedManifest (default "" pa) p) (S rc)
              (afterPruning root (default "" pa) p
                 (afterFailure root stderr s)))
    as (Hd & Hf & evs & He & Ha & Hw).
  split; [by rewrite Hd|]. split.
  { intros q Hq. rewrite Hf by done. cbn. by rewrite lookup_insert_ne. }
  eexists (_ :: _ :: _ :: _ :: _ :: evs). split.
  { rewrite He. cbn. rewrite <- !app_assoc. reflexivity. }
  split.
  { change (?a :: ?b :: ?c :: ?d :: ?e :: evs)
      with ([a; b; c; d; e] ++ evs)%list.
    rewrite attempts_app. cbn. lia. }
  repeat (constructor;
          [first [reflexivity | apply isWriteElsewhere_manifest]|]).
  done.
Qed.

End LoopFacts.

Section LoopInvariant.

Variable exec : string -> Path -> State -> ExecOutcome.
Variable root : Path.

(** A property of the manifest object and the state that console and
    command events do not affect and that a pruning step followed by the
    write of the manifest preserves. *)
Variable I : PackageJson -> State -> Prop.
Hypothesis I_event : forall p s e, I p s -> I p (addEvent e s).
Hypothesis I_prune : forall p s alias,
  I p s ->
  I (prunedManifest alias p)
    (putFile (manifestPath root) (DocPackageJson (prunedManifest alias p))
       (setRemoved (prunedStore alias p (removed s)) s)).

Lemma retryLoop_invariant (n : nat) (p : PackageJson) (rc : nat)
  (s : State) :
  root ∈ dirs s -> I p s ->
  exists p',
    I p' (retryLoop exec root n p rc s).2
    /\ forall x, (retryLoop exec root n p rc s).1 = Ret x -> x.1 = p'.
Proof.
  revert p rc s. induction n as [|n IH]; intros p rc s Hroot HI.
  { exists p. split; [done|]. by intros x [= <-]. }
  rewrite retryLoop_step. cbn zeta.
  destruct (exec _ _ _) as [out|stderr error].
  { exists p. split; [by repeat apply I_event|]. by intros x [= <-]. }
  destruct (Classifier.parseErrorForPackageAlias error) as [pa|e].
  2:{ exists p. split; [by repeat apply I_event|]. done. }
  destruct (isFalsy pa).
  { exists p. split; [by repeat apply I_event|]. by intros x [= <-]. }
  rewrite bool_decide_eq_true_2 by done.
  apply IH; [done|]. unfold afterPruning. do 2 apply I_event.
  apply I_prune. unfold afterFailure. by repeat apply I_event.
Qed.

Lemma attemptInstallWithRetries_cases (p : PackageJson) (maxRetries : nat)
  (s : State) :
  attemptInstallWithRetries exec p root maxRetries s
  = match retryLoop exec root maxRetries p 0 s with
    | (Ret (p', retryCount), s') =>
        if (maxRetries <=? retryCount)%nat then
          (Ret p',
           addEvent
             (LogError
                "Failed to resolve all package installation issues after maximum retries."
                None) s')
        else (Ret p', s')
    | (Throw e, s') => (Throw e, s')
    end.
Proof.
  unfold attemptInstallWithRetries, bind. cbn zeta. rewrite Nat.sub_0_r.
  destruct (retryLoop _ _ _ _ _ _) as [[[p' rc']|e] s']; [|done].
  by destruct (maxRetries <=? rc')%nat.
Qed.

Lemma attemptInstallWithRetries_invariant (p : PackageJson)
  (maxRetries : nat) (s : State) :
  root ∈ dirs s -> I p s ->
  exists p',
    I p' (attemptInstallWithRetries exec p root maxRetries s).2
    /\ forall x,
         (attemptInstallWithRetries exec p root maxRetries s).1 = Ret x ->
         x = p'.
Proof.
  intros Hroot HI. rewrite attemptInstallWithRetries_cases.
  destruct (retryLoop_invariant maxRetries p 0 s Hroot HI) as (p' & H1 & H2).
  destruct (retryLoop _ _ _ _ _ _) as [[[p'' rc']|e] s'].
  - specialize (H2 _ eq_refl). cbn in H2. subst p''. exists p'.
    destruct (maxRetries <=? rc')%nat; cbn.
    + split; [by apply I_event|]. by intros x [= <-].
    + split; [done|]. by intros x [= <-].
  - exists p'. split; [done|]. done.
Qed.

End LoopInvariant.

Section AttemptFrame.

Variable exec : string -> Path -> State -> ExecOutcome.
Variable root : Path.

Lemma attemptInstallWithRetries_frame (p : PackageJson) (maxRetries : nat)
  (s : State) :
  let s' := (attemptInstallWithRetries exec p root maxRetries s).2 in
  dirs s' = dirs s
  /\ (forall q, q <> manifestPath root -> files s' !! q = files s !! q)
  /\ exists evs,
       events s' = (events s ++ evs)%list
       /\ attempts evs <= maxRetries
       /\ Forall (fun e => isWriteElsewhere (manifestPath root) e = false) evs.
Proof.
  rewrite attemptInstallWithRetries_cases.
  destruct (retryLoop_frame exec root maxRetries p 0 s)
    as (Hd & Hf & evs & He & Ha & Hw).
  destruct (retryLoop _ _ _ _ _ _) as [[[p' rc']|e] s']; cbn in *.
  - destruct (maxRetries <=? rc')%nat; cbn.
    + split; [done|]. split; [done|]. exists (evs ++ [LogError
        "Failed to resolve all package installation issues after maximum retries."
        None])%list.
      rewrite He, <- app_assoc. split; [done|].
      rewrite attempts_app. cbn. split; [lia|].
      apply Forall_app. split; [done|]. by repeat constructor.
    + split; [done|]. split; [done|]. by exists evs.
  - split; [done|]. split; [done|]. by exists evs.
Qed.

End AttemptFrame.

(* ===================================================================== *)
(** ** The phases of [cleanPackageJson] *)
(* ===================================================================== *)

Lemma removeScripts_fold (scr acc : gmap string string) (l : list string)
  (k : string) :
  foldl (fun acc scriptName =>
           match scr !! scriptName with
           | Some command => JsObject.assign scriptName command acc
           | None => acc
           end) acc l !! k
  = match (if bool_decide (k ∈ l) && JsObject.stores acc k
           then scr !! k else None) with
    | Some c => Some c
    | None => acc !! k
    end.
Proof.
  revert acc. induction l as [|n l IH]; intros acc.
  { by rewrite bool_decide_eq_false_2 by set_solver. }
  cbn [foldl]. rewrite IH.
  rewrite (bool_decide_ext _ _ (elem_of_cons l k n)), bool_decide_or.
  destruct (decide (k = n)) as [->|Hne].
  - rewrite (bool_decide_eq_true_2 (n = n)) by done. cbn.
    destruct (scr !! n) as [c|] eqn:E.
    + rewrite stores_assign, lookup_assign.
      rewrite (bool_decide_eq_true_2 (n = n)) by done. cbn.
      destruct (JsObject.stores acc n); [|by rewrite andb_false_r].
      by destruct (bool_decide _).
    + by destruct (bool_decide _ && _), (JsObject.stores acc n).
  - rewrite (bool_decide_eq_false_2 (k = n)) by done. cbn.
    destruct (scr !! n) as [c|]; [|done].
    rewrite stores_assign, lookup_assign.
    by rewrite (bool_decide_eq_false_2 (k = n)) by done.
Qed.

Lemma removeScripts_cases (p : PackageJson) (s : State) :
  removeScripts p s
  = (Ret (deleteScripts p),
     mkState
       (mkRemoved (removedLocalDeps (removed s))
          (removedLocalDevDeps (removed s)) (removedLockedDeps (removed s))
          (removedLockedDevDeps (removed s))
          (stored (removedScripts (removed s)) (default ∅ (scripts p))
           ∪ removedScripts (removed s)))
       (dirs s) (files s) (events s ++ scriptsLog p)).
Proof.
  unfold removeScripts, scriptsLog.
  destruct p as [d dd [scr|]]; cbn [scripts default].
  - unfold bind, logSuccess, emit, ret, addEvent, setRemoved. cbn.
    do 3 f_equal. apply map_eq. intros k.
    rewrite removeScripts_fold, lookup_union, lookup_stored.
    destruct (scr !! k) as [c|] eqn:E.
    + rewrite bool_decide_eq_true_2.
      * cbn. destruct (JsObject.stores _ k);
          by destruct (removedScripts (removed s) !! k).
      * apply list_elem_of_fmap. exists (k, c). split; [done|].
        by apply elem_of_map_to_list.
    + destruct (bool_decide _ && _), (JsObject.stores _ k);
        by destruct (removedScripts (removed s) !! k).
  - unfold ret, deleteScripts. cbn.
    rewrite stored_empty, (left_id_L ∅ (∪)), app_nil_r.
    by destruct s as [[] ? ? ?].
Qed.

Lemma onRemoved_removeLockedDeps (locked_ : LockedDependencies)
  (deps : option Dependencies) (isDevDep : bool) (s : State) :
  onRemoved (removeLockedDeps locked_ deps isDevDep) s
  = (Ret (kept (inLocked locked_) <$> deps),
     setRemoved
       (setRecord locked isDevDep
          (stored (getRecord locked isDevDep (removed s))
             (taken (inLocked locked_) (default ∅ deps))
           ∪ getRecord locked isDevDep (removed s)) (removed s)) s).
Proof.
  unfold onRemoved, removeLockedDeps. destruct deps as [d|].
  - by rewrite removeAndRecordDependencies_Some.
  - unfold removeAndRecordDependencies, taken.
    cbn [default]. rewrite map_filter_empty, stored_empty, (left_id_L ∅ (∪)).
    by rewrite setRecord_getRecord.
Qed.

Lemma written_dirs (docs : list (Path * Doc)) (s : State) :
  dirs (written docs s) = dirs s.
Proof.
  revert s. unfold written.
  induction docs as [|d docs IH]; intros s; [done|].
  cbn [foldl]. by rewrite IH.
Qed.

Lemma written_removed (docs : list (Path * Doc)) (s : State) :
  removed (written docs s) = removed s.
Proof.
  revert s. unfold written.
  induction docs as [|d docs IH]; intros s; [done|].
  cbn [foldl]. by rewrite IH.
Qed.

Lemma written_events (docs : list (Path * Doc)) (s : State) :
  events (written docs s) = (events s ++ writeEvents docs)%list.
Proof.
  revert s. unfold written.
  induction docs as [|d docs IH]; intros s.
  - cbn. by rewrite app_nil_r.
  - cbn [foldl]. rewrite IH. cbn. by rewrite <- app_assoc.
Qed.

Lemma writeFileSync_ok (path : Path) (doc : Doc) (s : State) :
  dirname path ∈ dirs s ->
  writeFileSync path doc s
  = (Ret tt, addEvent (WriteFile path doc) (putFile path doc s)).
Proof. intros H. unfold writeFileSync. by rewrite bool_decide_eq_true_2. Qed.

Lemma writeFileSync_fail (path : Path) (doc : Doc) (s : State) :
  dirname path ∉ dirs s -> writeFileSync path doc s = (Throw ENOENT, s).
Proof. intros H. unfold writeFileSync. by rewrite bool_decide_eq_false_2. Qed.

Lemma saveRemovedItems_cases (exportRootPath : Path) (s : State) :
  saveRemovedItems exportRootPath s
  = if bool_decide (join exportRootPath "details" ∈ dirs s) then
      if bool_decide (exportRootPath ∈ dirs s) then
        (Ret tt, exportedState exportRootPath s)
      else
        (Throw ENOENT,
         written (detailDocuments exportRootPath (removed s)) s)
    else (Throw ENOENT, s).
Proof.
  unfold saveRemovedItems, getRemoved, saveJson. unfold bind at 1.
  case_bool_decide as Hd.
  - unfold bind at 1.
    rewrite writeFileSync_ok by (by rewrite dirname_join).
    unfold bind at 1.
    rewrite writeFileSync_ok by (by rewrite dirname_join).
    unfold bind at 1.
    rewrite writeFileSync_ok by (by rewrite dirname_join).
    unfold bind at 1.
    case_bool_decide as Ho.
    + rewrite writeFileSync_ok by (by rewrite dirname_join). reflexivity.
    + rewrite writeFileSync_fail by (by rewrite dirname_join). reflexivity.
  - unfold bind at 1.
    rewrite writeFileSync_fail by (by rewrite dirname_join). reflexivity.
Qed.

Section Phases.

Variable exec : string -> Path -> State -> ExecOutcome.
Variable root : Path.
Variable locked_ : LockedDependencies.
Variable out : Path.

Lemma cleanPackageJson_unreadable (s : State) :
  (forall p, files s !! manifestPath root <> Some (DocPackageJson p)) ->
  exists e, cleanPackageJson exec root locked_ out s = (Throw e, s).
Proof.
  intros H. unfold cleanPackageJson, bind, readPackageJson.
  fold (manifestPath root).
  destruct (files s !! manifestPath root) as [[p| |]|] eqn:E; eauto.
  by destruct (H p).
Qed.

Lemma cleanPackageJson_cases (s : State) (p : PackageJson) :
  files s !! manifestPath root = Some (DocPackageJson p) ->
  cleanPackageJson exec root locked_ out s
  = if bool_decide (root ∈ dirs s) then
      match attemptInstallWithRetries exec (preparedManifest locked_ p) root
              (budget (preparedManifest locked_ p))
              (preparedState root locked_ p s) with
      | (Ret _, s1) => saveRemovedItems out s1
      | (Throw e, s1) => (Throw e, s1)
      end
    else (Throw ENOENT, unpersistedState root locked_ p s).
Proof.
  intros Hp. unfold cleanPackageJson.
  unfold bind at 1. unfold readPackageJson. fold (manifestPath root).
  rewrite Hp.
  unfold bind at 1. rewrite removeScripts_cases.
  unfold bind at 1. rewrite onRemoved_removeLockedDeps.
  unfold bind at 1. rewrite onRemoved_removeLockedDeps.
  unfold bind at 1.
  case_bool_decide as Hr.
  - rewrite writeFileSync_ok
      by (unfold manifestPath; by rewrite dirname_join).
    unfold bind at 1.
    replace (addEvent _ (putFile _ _ _))
      with (preparedState root locked_ p s).
    + reflexivity.
    + unfold preparedState, putFile, addEvent. cbn.
      rewrite <- !app_assoc. reflexivity.
  - rewrite writeFileSync_fail
      by (unfold manifestPath; by rewrite dirname_join).
    f_equal. unfold unpersistedState, setRemoved, addEvent. cbn.
    rewrite <- !app_assoc. reflexivity.
Qed.

End Phases.

(* ===================================================================== *)
(** ** The export leaves the rest alone *)
(* ===================================================================== *)

Lemma attempts_writeEvents (docs : list (Path * Doc)) :
  attempts (writeEvents docs) = 0.
Proof. induction docs as [|d docs IH]; [done|]. exact IH. Qed.

Lemma written_files_other (docs : list (Path * Doc)) (s : State) (q : Path) :
  q ∉ docs.*1 -> files (written docs s) !! q = files s !! q.
Proof.
  revert s. unfold written. induction docs as [|d docs IH]; intros s Hq.
  - done.
  - rewrite fmap_cons in Hq. apply not_elem_of_cons in Hq as [Hne Hq].
    cbn [foldl]. rewrite IH by done. cbn. by rewrite lookup_insert_ne.
Qed.

Lemma join_ne_fileName (d d' : Path) (f f' : string) :
  f <> f' -> join d f <> join d' f'.
Proof. unfold join. intros Hne H. by apply app_inj_tail in H as [_ ?]. Qed.

Lemma manifestPath_not_exported (root out : Path) (r : Removed) :
  manifestPath root ∉ (exportDocuments out r).*1.
Proof.
  unfold exportDocuments, detailDocuments, summaryDocument, manifestPath.
  cbn. rewrite !not_elem_of_cons. repeat split;
    try (by apply join_ne_fileName). apply not_elem_of_nil.
Qed.

Lemma manifestPath_not_details (root out : Path) (r : Removed) :
  manifestPath root ∉ (detailDocuments out r).*1.
Proof.
  unfold detailDocuments, manifestPath.
  cbn. rewrite !not_elem_of_cons. repeat split;
    try (by apply join_ne_fileName). apply not_elem_of_nil.
Qed.

Lemma saveRemovedItems_frame (root out : Path) (s : State) :
  let s' := (saveRemovedItems out s).2 in
  dirs s' = dirs s /\ removed s' = removed s
  /\ files s' !! manifestPath root = files s !! manifestPath root
  /\ exists evs, events s' = (events s ++ evs)%list /\ attempts evs = 0.
Proof.
  rewrite saveRemovedItems_cases.
  repeat case_bool_decide; cbn [snd].
  - unfold exportedState.
    cbn [dirs removed files events addEvent].
    rewrite written_dirs, written_removed, written_events.
    rewrite written_files_other by apply manifestPath_not_exported.
    repeat split. eexists. rewrite <- app_assoc. split; [reflexivity|].
    by rewrite attempts_app, attempts_writeEvents.
  - rewrite written_dirs, written_removed, written_events.
    rewrite written_files_other by apply manifestPath_not_details.
    repeat split. eexists. split; [reflexivity|].
    by rewrite attempts_writeEvents.
  - repeat split. exists []. by rewrite app_nil_r.
Qed.

Lemma keyCount_kept (condition : string -> bool) (d : option Dependencies) :
  keyCount (kept condition <$> d) <= keyCount d.
Proof. destruct d as [d|]; [apply size_kept_le|done]. Qed.

Lemma attempts_scriptsLog (p : PackageJson) : attempts (scriptsLog p) = 0.
Proof. unfold scriptsLog. by destruct (scripts p). Qed.

(* ===================================================================== *)
(** ** C4: the number of install attempts *)
(* ===================================================================== *)

(** C4. The budget passed to the retry loop is the number of entries that
    the dependency and devDependency maps hold when it is computed, the
    loop performs at most that many install attempts, and so a run performs
    at most (initial dependency count + initial devDependency count + 1)
    install attempts. *)
Theorem install_attempts_within_budget
  (exec : string -> Path -> State -> ExecOutcome) (root out : Path)
  (locked_ : LockedDependencies) (s : State) (p : PackageJson) :
  files s !! manifestPath root = Some (DocPackageJson p) ->
  let maxRetries := budget (preparedManifest locked_ p) in
  (forall p0 n s0, exists evs,
      events (attemptInstallWithRetries exec p0 root n s0).2
      = (events s0 ++ evs)%list /\ attempts evs <= n)
  /\ maxRetries
     <= keyCount (dependencies p) + keyCount (devDependencies p)
  /\ (root ∈ dirs s ->
      cleanPackageJson exec root locked_ out s
      = match attemptInstallWithRetries exec (preparedManifest locked_ p)
                root maxRetries (preparedState root locked_ p s) with
        | (Ret _, s1) => saveRemovedItems out s1
        | (Throw e, s1) => (Throw e, s1)
        end)
  /\ exists evs,
       events (cleanPackageJson exec root locked_ out s).2
       = (events s ++ evs)%list
       /\ attempts evs <= maxRetries
       /\ attempts evs
          <= keyCount (dependencies p) + keyCount (devDependencies p) + 1.
Proof.
  intros Hp maxRetries.
  assert (Hb : maxRetries
               <= keyCount (dependencies p) + keyCount (devDependencies p)).
  { unfold maxRetries, budget, preparedManifest.
    cbn [dependencies devDependencies].
    pose proof (keyCount_kept (inLocked locked_) (dependencies p)).
    pose proof (keyCount_kept (inLocked locked_) (devDependencies p)). lia. }
  split; [|split; [exact Hb|split]].
  { intros p0 n s0.
    destruct (attemptInstallWithRetries_frame exec root p0 n s0)
      as (_ & _ & evs & He & Ha & _).
    by exists evs. }
  { intros Hroot.
    rewrite (cleanPackageJson_cases exec root locked_ out s p Hp).
    by rewrite bool_decide_eq_true_2. }
  rewrite (cleanPackageJson_cases exec root locked_ out s p Hp).
  case_bool_decide as Hr.
  - destruct (attemptInstallWithRetries_frame exec root
                (preparedManifest locked_ p) maxRetries
                (preparedState root locked_ p s))
      as (_ & _ & evs & He & Ha & _).
    fold maxRetries.
    destruct (attemptInstallWithRetries _ _ _ _ _) as [[p1|e] s1];
      cbn [snd] in *.
    + destruct (saveRemovedItems_frame root out s1)
        as (_ & _ & _ & evs' & He' & Ha').
      rewrite He', He. cbn [events preparedState].
      eexists. rewrite <- !app_assoc. split; [reflexivity|].
      rewrite <- app_comm_cons.
      change (attempts (ReadFile ?q :: ?l)) with (attempts l).
      rewrite !attempts_app, attempts_scriptsLog, Ha'. cbn. lia.
    + rewrite He. cbn [events preparedState].
      eexists. rewrite <- !app_assoc. split; [reflexivity|].
      rewrite <- app_comm_cons.
      change (attempts (ReadFile ?q :: ?l)) with (attempts l).
      rewrite !attempts_app, attempts_scriptsLog. cbn. lia.
  - cbn. eexists. split; [reflexivity|].
    change (attempts (ReadFile ?q :: ?l)) with (attempts l).
    rewrite attempts_scriptsLog. lia.
Qed.

Lemma install_attempts_within_budget_witness :
  exists evs,
    events (cleanPackageJson (alwaysFails (couldntFindPackage "left-pad"))
              projectRoot ∅ exportRoot (freshState leftPadManifest)).2
    = ([] ++ evs)%list
    /\ attempts evs <= 1.
Proof.
  destruct (install_attempts_within_budget
              (alwaysFails (couldntFindPackage "left-pad")) projectRoot
              exportRoot ∅ (freshState leftPadManifest) leftPadManifest)
    as (_ & _ & _ & evs & He & Ha & _); [vm_compute; reflexivity|].
  exists evs. split; [exact He|exact Ha].
Defined.

(* ===================================================================== *)
(** ** C6: conservation *)
(* ===================================================================== *)

Lemma conserved_prune (condition : string -> bool)
  (original final : option Dependencies) (a b : Dependencies) :
  conserved original final a b ->
  conserved original (kept condition <$> final)
    (taken condition (default ∅ final) ∪ a) b.
Proof.
  destruct original as [d|], final as [d'|]; cbn; try done.
  - intros (Hu & Ha & Hb & Hab).
    assert (Hk : kept condition d' ⊆ d') by apply kept_subseteq.
    assert (Ht : taken condition d' ⊆ d') by apply map_filter_subseteq.
    split; [|split; [|split]].
    + rewrite (map_union_assoc (kept condition d')), kept_taken_union.
      exact Hu.
    + apply map_disjoint_union_r. split; [apply kept_taken_disjoint|].
      by apply (map_disjoint_weaken_l _ d').
    + by apply (map_disjoint_weaken_l _ d').
    + apply map_disjoint_union_l. split; [|done].
      by apply (map_disjoint_weaken_l _ d').
  - intros [-> ->]. unfold taken.
    by rewrite map_filter_empty, (left_id_L ∅ (∪)).
Qed.

Lemma inLocked_proto (locked_ : LockedDependencies) :
  inLocked locked_ "__proto__" = true.
Proof. unfold inLocked, JsObject.hasProperty. apply orb_true_r. Qed.

(** From empty buckets, the locked pre-filter keeps or records every entry
    but one named [__proto__], which it deletes. *)
Lemma conserved_prepare (locked_ : LockedDependencies)
  (original : option Dependencies) :
  conserved (withoutProto original) (kept (inLocked locked_) <$> original) ∅
    (stored ∅ (taken (inLocked locked_) (default ∅ original)) ∪ ∅).
Proof.
  destruct original as [d|]; cbn.
  - rewrite !(right_id_L ∅ (∪)). split; [|split; [|split]].
    + apply map_eq. intros k.
      rewrite lookup_union, lookup_kept, lookup_stored, lookup_taken.
      destruct (decide (k = "__proto__")) as [->|Hk].
      * by rewrite inLocked_proto, lookup_delete_eq.
      * rewrite lookup_delete_ne, stores_other by done.
        by destruct (inLocked locked_ k), (d !! k).
    + apply map_disjoint_empty_r.
    + apply (map_disjoint_weaken_r _ _ (taken (inLocked locked_) d));
        [apply kept_taken_disjoint|apply stored_subseteq].
    + apply map_disjoint_empty_l.
  - unfold taken. by rewrite map_filter_empty, stored_empty, (left_id_L ∅ (∪)).
Qed.

Lemma conserved_conservedButProto (o o' : option Dependencies)
  (a b : Dependencies) :
  conserved (withoutProto o) o' a b -> conservedButProto o o' a b.
Proof.
  destruct o as [d|], o' as [d'|]; cbn; try done.
  intros (Hu & Ha & Hb & Hab). split; [|done].
  intros name Hne. by rewrite Hu, lookup_delete_ne.
Qed.

Lemma conserved_exactlyOnePlace (d d' a b : Dependencies)
  (name ver : string) :
  conserved (Some d) (Some d') a b ->
  d !! name = Some ver -> exactlyOnePlace name ver d' a b.
Proof.
  intros (Hu & Ha & Hb & Hab) Hn. rewrite <- Hu in Hn.
  rewrite map_disjoint_spec in Ha, Hb, Hab. unfold exactlyOnePlace.
  rewrite !lookup_union in Hn.
  destruct (d' !! name) as [x|] eqn:E1, (a !! name) as [y|] eqn:E2,
    (b !! name) as [z|] eqn:E3; cbn in Hn;
    try (exfalso; by eauto); try discriminate;
    injection Hn as <-; eauto 10.
Qed.

Lemma withoutProto_absent (o : option Dependencies) (name : string) :
  o ≫= (fun d => d !! name) = None ->
  withoutProto o ≫= (fun d => d !! name) = None.
Proof.
  destruct o as [d|]; [|done]. cbn. intros Hn.
  destruct (decide (name = "__proto__")) as [->|Hne].
  - apply lookup_delete_eq.
  - by rewrite lookup_delete_ne.
Qed.

Lemma conserved_absent (o o' : option Dependencies) (a b : Dependencies)
  (name : string) :
  conserved o o' a b ->
  o ≫= (fun d => d !! name) = None ->
  o' ≫= (fun d => d !! name) = None /\ a !! name = None /\ b !! name = None.
Proof.
  destruct o as [d|], o' as [d'|]; cbn; try done.
  - intros (Hu & _) Hn. rewrite <- Hu, !lookup_union in Hn.
    by destruct (d' !! name), (a !! name), (b !! name).
  - by intros [-> ->] _.
Qed.

(** A second run in the same process: the buckets still hold what the
    first run removed, so after the second run they hold an entry that its
    manifest never had, and the union of the final map and the buckets is
    not the original map. *)
Lemma second_run_is_not_conserved :
  let first :=
    cleanPackageJson (alwaysFails yarnScopedNotFound) projectRoot noLocked
      exportRoot (freshState scopedManifest) in
  let s :=
    putFile (manifestPath projectRoot) (DocPackageJson lodashManifest)
      first.2 in
  let second :=
    cleanPackageJson (fun _ _ _ => Exited "Done") projectRoot noLocked
      exportRoot s in
  first.1 = Ret tt
  /\ second.1 = Ret tt
  /\ files second.2 !! manifestPath projectRoot
     = Some (DocPackageJson lodashManifest)
  /\ removedLocalDeps (removed second.2) !! "@scope/pkg" = Some "1.2.3"
  /\ dependencies lodashManifest ≫= (fun d => d !! "@scope/pkg") = None
  /\ ~ conservedManifest lodashManifest lodashManifest (removed second.2).
Proof.
  cbv zeta. split; [vm_compute; reflexivity|].
  split; [vm_compute; reflexivity|]. split; [vm_compute; reflexivity|].
  split; [vm_compute; reflexivity|]. split; [reflexivity|].
  intros [(Hu & _) _].
  apply (f_equal (fun m : Dependencies => m !! "@scope/pkg")) in Hu.
  vm_compute in Hu. discriminate.
Qed.

(** A dependency named [__proto__], in a first run with an empty locked
    set: the locked pre-filter deletes it and no bucket holds it. *)
Example dependency_named_proto_is_lost :
  let p := mkPackageJson (Some {[ "__proto__" := "1.0.0" ]}) None None in
  let final :=
    cleanPackageJson (fun _ _ _ => Exited "Done") projectRoot noLocked
      exportRoot (freshState p) in
  final.1 = Ret tt
  /\ files final.2 !! manifestPath projectRoot
     = Some (DocPackageJson (mkPackageJson (Some ∅) None None))
  /\ removed final.2 = noRemoved.
Proof. cbv zeta. repeat split; vm_compute; reflexivity. Qed.

(** C6 (as amended). Conservation law: in every run that starts with empty
    removal buckets, for each of the two kinds, the union of the final map
    of the manifest and of the local and locked buckets of that kind agrees
    with the original map on every name other than [__proto__], and the
    three do not overlap.  So every entry of an original map with a name
    other than [__proto__] is, with its version, in exactly one place:
    still in that map of the manifest, or in one of the two buckets of its
    kind; and a name that an original map does not list is in neither
    bucket. *)
Theorem removed_entries_are_conserved
  (exec : string -> Path -> State -> ExecOutcome) (root out : Path)
  (locked_ : LockedDependencies) (s : State) (p : PackageJson) :
  files s !! manifestPath root = Some (DocPackageJson p) ->
  root ∈ dirs s ->
  removed s = noRemoved ->
  let s' := (cleanPackageJson exec root locked_ out s).2 in
  exists p',
    files s' !! manifestPath root = Some (DocPackageJson p')
    /\ conservedButProto (dependencies p) (dependencies p')
         (removedLocalDeps (removed s')) (removedLockedDeps (removed s'))
    /\ conservedButProto (devDependencies p) (devDependencies p')
         (removedLocalDevDeps (removed s'))
         (removedLockedDevDeps (removed s'))
    /\ (forall d name ver,
          dependencies p = Some d -> d !! name = Some ver ->
          name <> "__proto__" ->
          exists d',
            dependencies p' = Some d'
            /\ exactlyOnePlace name ver d' (removedLocalDeps (removed s'))
                 (removedLockedDeps (removed s')))
    /\ (forall d name ver,
          devDependencies p = Some d -> d !! name = Some ver ->
          name <> "__proto__" ->
          exists d',
            devDependencies p' = Some d'
            /\ exactlyOnePlace name ver d'
                 (removedLocalDevDeps (removed s'))
                 (removedLockedDevDeps (removed s')))
    /\ (forall name,
          dependencies p ≫= (fun d => d !! name) = None ->
          removedLocalDeps (removed s') !! name = None
          /\ removedLockedDeps (removed s') !! name = None)
    /\ (forall name,
          devDependencies p ≫= (fun d => d !! name) = None ->
          removedLocalDevDeps (removed s') !! name = None
          /\ removedLockedDevDeps (removed s') !! name = None).
Proof.
  intros Hp Hr Hfresh.
  cut (exists p',
         files (cleanPackageJson exec root locked_ out s).2
         !! manifestPath root = Some (DocPackageJson p')
         /\ conserved (withoutProto (dependencies p)) (dependencies p')
              (removedLocalDeps
                 (removed (cleanPackageJson exec root locked_ out s).2))
              (removedLockedDeps
                 (removed (cleanPackageJson exec root locked_ out s).2))
         /\ conserved (withoutProto (devDependencies p))
              (devDependencies p')
              (removedLocalDevDeps
                 (removed (cleanPackageJson exec root locked_ out s).2))
              (removedLockedDevDeps
                 (removed (cleanPackageJson exec root locked_ out s).2))).
  { intros (p' & Hf & Hc1 & Hc2). exists p'. split; [done|].
    split; [by apply conserved_conservedButProto|].
    split; [by apply conserved_conservedButProto|].
    split; [|split; [|split]].
    - intros d name ver Hd Hn Hne. rewrite Hd in Hc1.
      destruct (dependencies p') as [d'|] eqn:E; [|done].
      exists d'. split; [done|].
      eapply conserved_exactlyOnePlace; [exact Hc1|].
      by rewrite lookup_delete_ne.
    - intros d name ver Hd Hn Hne. rewrite Hd in Hc2.
      destruct (devDependencies p') as [d'|] eqn:E; [|done].
      exists d'. split; [done|].
      eapply conserved_exactlyOnePlace; [exact Hc2|].
      by rewrite lookup_delete_ne.
    - intros name Hn.
      destruct (conserved_absent _ _ _ _ name Hc1) as (_ & ? & ?); [|done].
      by apply withoutProto_absent.
    - intros name Hn.
      destruct (conserved_absent _ _ _ _ name Hc2) as (_ & ? & ?); [|done].
      by apply withoutProto_absent. }
  rewrite (cleanPackageJson_cases exec root locked_ out s p Hp).
  rewrite bool_decide_eq_true_2 by done.
  set (I := fun (q : PackageJson) (t : State) =>
              files t !! manifestPath root = Some (DocPackageJson q)
              /\ conserved (withoutProto (dependencies p)) (dependencies q)
                   (removedLocalDeps (removed t))
                   (removedLockedDeps (removed t))
              /\ conserved (withoutProto (devDependencies p))
                   (devDependencies q) (removedLocalDevDeps (removed t))
                   (removedLockedDevDeps (removed t))).
  destruct (attemptInstallWithRetries_invariant exec root I)
    with (p := preparedManifest locked_ p)
         (maxRetries := budget (preparedManifest locked_ p))
         (s := preparedState root locked_ p s) as (p' & (Hf & Hc1 & Hc2) & _).
  - intros q t e (? & ? & ?). by split.
  - intros q t alias (_ & Hd & Hdd). split; [|split].
    + cbn. apply lookup_insert_eq.
    + cbn. by apply conserved_prune.
    + cbn. by apply conserved_prune.
  - done.
  - split; [|split].
    + cbn. apply lookup_insert_eq.
    + cbn [preparedState preparedStore removed dependencies preparedManifest
           removedLocalDeps removedLockedDeps].
      rewrite Hfresh. apply conserved_prepare.
    + cbn [preparedState preparedStore removed devDependencies
           preparedManifest removedLocalDevDeps removedLockedDevDeps].
      rewrite Hfresh. apply conserved_prepare.
  - exists p'.
    destruct (attemptInstallWithRetries _ _ _ _ _) as [[p1|e] s1];
      cbn [snd] in *; [|done].
    destruct (saveRemovedItems_frame root out s1) as (_ & -> & -> & _).
    done.
Qed.

Lemma removed_entries_are_conserved_witness :
  exists p',
    files (cleanPackageJson (alwaysFails yarnScopedNotFound) projectRoot
             noLocked exportRoot (freshState scopedManifest)).2
    !! manifestPath projectRoot = Some (DocPackageJson p')
    /\ conservedButProto (dependencies scopedManifest) (dependencies p')
         (removedLocalDeps
            (removed
               (cleanPackageJson (alwaysFails yarnScopedNotFound) projectRoot
                  noLocked exportRoot (freshState scopedManifest)).2))
         (removedLockedDeps
            (removed
               (cleanPackageJson (alwaysFails yarnScopedNotFound) projectRoot
                  noLocked exportRoot (freshState scopedManifest)).2)).
Proof.
  destruct (removed_entries_are_conserved (alwaysFails yarnScopedNotFound)
              projectRoot exportRoot noLocked (freshState scopedManifest)
              scopedManifest) as (p' & Hf & Hc & _);
    [vm_compute; reflexivity | vm_compute; reflexivity | reflexivity |].
  exists p'. split; [exact Hf|exact Hc].
Defined.

(* ===================================================================== *)
(** ** C5: what a pruning step does to the manifest *)
(* ===================================================================== *)

Lemma isFalsy_alias (ps : list Regex.Pattern) (error alias : string) :
  Classifier.tryPatterns ps error = Ret (Some alias) ->
  isFalsy (Some alias) = false.
Proof.
  intros H. apply tryPatterns_alias_nonempty in H.
  cbn. by apply bool_decide_eq_false_2.
Qed.

Lemma keyCount_kept_lt (condition : string -> bool)
  (d : option Dependencies) (k v : string) :
  d ≫= (fun m => m !! k) = Some v -> condition k = true ->
  keyCount (kept condition <$> d) < keyCount d.
Proof.
  destruct d as [m|]; [|done]. cbn. intros Hk Hc.
  by apply (size_kept_lt condition m k v).
Qed.

(** A failed install whose diagnostic names a scope that no entry of the
    manifest belongs to: the pruning step is taken and removes nothing. *)
Lemma pruning_step_may_remove_nothing :
  let exec := alwaysFails yarnScopedNotFound in
  let s := freshState lodashManifest in
  Classifier.parseErrorForPackageAlias
    ("Error: Command failed: " ++ yarnScopedNotFound) = Ret (Some "@scope")
  /\ (retryLoop exec projectRoot 1 lodashManifest 0 s).1
     = Ret (lodashManifest, 1)
  /\ removed (retryLoop exec projectRoot 1 lodashManifest 0 s).2 = noRemoved
  /\ ~ (budget (prunedManifest "@scope" lodashManifest)
        < budget lodashManifest).
Proof.
  cbv zeta. split; [vm_compute; reflexivity|].
  split; [vm_compute; reflexivity|].
  split; [vm_compute; reflexivity|]. vm_compute. lia.
Qed.

(** C5 (as amended). On a pruning step (the install fails, the classifier
    returns an alias and the manifest can be written) the loop goes on with
    the pruned manifest; pruning adds no name: each map of the manifest is
    a sub-map of what it was, so the number of entries does not grow; and
    the manifest strictly shrinks whenever one of its entries has a name
    that starts with the alias followed by a path separator. *)
Theorem pruning_step_never_grows_manifest
  (exec : string -> Path -> State -> ExecOutcome) (root : Path) (n : nat)
  (p : PackageJson) (rc : nat) (s : State) (stderr error alias : string) :
  exec "yarn install" root
    (addEvent (LogInfo "Attempting to install dependencies...") s)
  = Failed stderr error ->
  Classifier.parseErrorForPackageAlias error = Ret (Some alias) ->
  root ∈ dirs s ->
  let p' := prunedManifest alias p in
  retryLoop exec root (S n) p rc s
  = retryLoop exec root n p' (S rc)
      (afterPruning root alias p (afterFailure root stderr s))
  /\ (forall d, dependencies p = Some d ->
        exists d', dependencies p' = Some d' /\ d' ⊆ d)
  /\ (forall d, devDependencies p = Some d ->
        exists d', devDependencies p' = Some d' /\ d' ⊆ d)
  /\ budget p' <= budget p
  /\ (forall name ver,
        manifestEntry p name = Some ver ->
        Str.startsWith name (alias ++ "/") = true ->
        budget p' < budget p).
Proof.
  intros Hexec Hcls Hroot p'. split; [|split; [|split; [|split]]].
  - rewrite retryLoop_step. cbn zeta. rewrite Hexec, Hcls.
    rewrite (isFalsy_alias _ _ _ Hcls).
    by rewrite bool_decide_eq_true_2.
  - intros d Hd. exists (kept (aliasCondition alias) d).
    unfold p', prunedManifest. cbn. rewrite Hd.
    split; [done|apply kept_subseteq].
  - intros d Hd. exists (kept (aliasCondition alias) d).
    unfold p', prunedManifest. cbn. rewrite Hd.
    split; [done|apply kept_subseteq].
  - unfold budget, p', prunedManifest. cbn [dependencies devDependencies].
    pose proof (keyCount_kept (aliasCondition alias) (dependencies p)).
    pose proof (keyCount_kept (aliasCondition alias) (devDependencies p)).
    lia.
  - intros name ver Hentry Hstarts.
    unfold budget, p', prunedManifest. cbn [dependencies devDependencies].
    pose proof (keyCount_kept (aliasCondition alias) (dependencies p)).
    pose proof (keyCount_kept (aliasCondition alias) (devDependencies p)).
    unfold manifestEntry in Hentry.
    destruct (dependencies p ≫= _) as [v|] eqn:E.
    + pose proof (keyCount_kept_lt (aliasCondition alias) _ name v E Hstarts).
      lia.
    + pose proof (keyCount_kept_lt (aliasCondition alias) _ name ver Hentry
                    Hstarts). lia.
Qed.

Lemma pruning_step_never_grows_manifest_witness :
  budget (prunedManifest "@scope"
            (mkPackageJson
               (Some {[ "@scope/pkg" := "1.2.3"; "lodash" := "4.17.21" ]})
               None None))
  < 2.
Proof.
  destruct (pruning_step_never_grows_manifest
              (alwaysFails yarnScopedNotFound) projectRoot 1
              (mkPackageJson
                 (Some {[ "@scope/pkg" := "1.2.3"; "lodash" := "4.17.21" ]})
                 None None) 0
              (freshState
                 (mkPackageJson
                    (Some {[ "@scope/pkg" := "1.2.3"; "lodash" := "4.17.21" ]})
                    None None))
              yarnScopedNotFound
              ("Error: Command failed: " ++ yarnScopedNotFound) "@scope")
    as (_ & _ & _ & _ & H);
    [reflexivity | vm_compute; reflexivity | vm_compute; reflexivity |].
  apply (H "@scope/pkg" "1.2.3"); vm_compute; reflexivity.
Defined.

(* ===================================================================== *)
(** ** C8: a failure that cannot be classified *)
(* ===================================================================== *)

Section Iterates.

Variable exec : string -> Path -> State -> ExecOutcome.
Variable root : Path.

Lemma iterates_retryLoop n p rc s n' p' rc' s' :
  iterates exec root n p rc s n' p' rc' s' ->
  retryLoop exec root n p rc s = retryLoop exec root n' p' rc' s'
  /\ n + rc = n' + rc'
  /\ dirs s' = dirs s.
Proof.
  induction 1 as [|n p rc s stderr error alias n' p' rc' s'
                    Hexec Hcls Hroot _ (IH1 & IH2 & IH3)]; [done|].
  split; [|split].
  - rewrite retryLoop_step. cbn zeta. rewrite Hexec, Hcls.
    rewrite (isFalsy_alias _ _ _ Hcls).
    by rewrite bool_decide_eq_true_2.
  - lia.
  - by rewrite IH3.
Qed.

Lemma iterates_counter n p rc s n' p' rc' s' :
  iterates exec root n p rc s n' p' rc' s' ->
  rc <= rc' /\ (rc' = rc -> p' = p /\ s' = s).
Proof.
  induction 1 as [|n p rc s stderr error alias n' p' rc' s'
                    Hexec Hcls Hroot _ (IH1 & IH2)]; [done|].
  split; [lia|]. intros ->. lia.
Qed.

End Iterates.

(** A failure that the classifier does not recognise, in a project whose
    export directory has no [details] directory: the loop stops after the
    one attempt and prints the diagnostic, and then the run throws without
    having written any document of the export. *)
Lemma unclassified_failure_without_export :
  let s := stateWithoutDetails lodashManifest in
  let final :=
    cleanPackageJson (alwaysFails "network timeout") projectRoot noLocked
      exportRoot s in
  Classifier.parseErrorForPackageAlias
    "Error: Command failed: network timeout" = Ret None
  /\ attempts (events final.2) = 1
  /\ In (LogError "Could not parse package alias from error:"
           (Some "Error: Command failed: network timeout")) (events final.2)
  /\ final.1 = Throw ENOENT
  /\ Forall (fun pd : Path * Doc => files final.2 !! pd.1 = None)
       (exportDocuments exportRoot (removed final.2)).
Proof.
  cbv zeta. split; [vm_compute; reflexivity|].
  split; [vm_compute; reflexivity|].
  split; [vm_compute; tauto|].
  split; [vm_compute; reflexivity|].
  repeat constructor; vm_compute; reflexivity.
Qed.

(** C8 (as amended). Whenever an install attempt of a run fails and the
    classifier gives no signal, the loop stops at once: the manifest
    object, the manifest on the disk and the accumulators are what they
    were before the attempt, the diagnostic is printed in full, and the
    loop returns without another attempt; provided the export directory
    and its [details] directory exist, the run ends with the export of the
    accumulators as they are; if this happens on the first attempt of a
    run whose preparation recorded nothing, every exported bucket is
    empty. *)
Theorem unclassified_failure_stops_and_exports
  (exec : string -> Path -> State -> ExecOutcome) (root out : Path)
  (locked_ : LockedDependencies) (s : State) (p : PackageJson)
  (n : nat) (p1 : PackageJson) (rc : nat) (s1 : State)
  (stderr error : string) :
  files s !! manifestPath root = Some (DocPackageJson p) ->
  root ∈ dirs s ->
  iterates exec root (budget (preparedManifest locked_ p))
    (preparedManifest locked_ p) 0 (preparedState root locked_ p s)
    (S n) p1 rc s1 ->
  exec "yarn install" root
    (addEvent (LogInfo "Attempting to install dependencies...") s1)
  = Failed stderr error ->
  Classifier.parseErrorForPackageAlias error = Ret None ->
  let s2 := afterAbort root stderr error s1 in
  retryLoop exec root (S n) p1 rc s1 = (Ret (p1, rc), s2)
  /\ removed s2 = removed s1
  /\ files s2 = files s1
  /\ In (LogError "Could not parse package alias from error:" (Some error))
       (events s2)
  /\ attemptInstallWithRetries exec (preparedManifest locked_ p) root
       (budget (preparedManifest locked_ p))
       (preparedState root locked_ p s)
     = (Ret p1, s2)
  /\ (out ∈ dirs s -> join out "details" ∈ dirs s ->
      cleanPackageJson exec root locked_ out s
      = (Ret tt, exportedState out s2))
  /\ (rc = 0 -> preparedStore locked_ p (removed s) = noRemoved ->
      exportDocuments out (removed s2) = exportDocuments out noRemoved).
Proof.
  intros Hp Hroot Hit Hexec Hcls s2.
  assert (Hloop : retryLoop exec root (S n) p1 rc s1 = (Ret (p1, rc), s2)).
  { rewrite retryLoop_step. cbn zeta. by rewrite Hexec, Hcls. }
  destruct (iterates_retryLoop _ _ _ _ _ _ _ _ _ _ Hit) as (Hsame & Hn & Hd).
  assert (Hattempt :
            attemptInstallWithRetries exec (preparedManifest locked_ p) root
              (budget (preparedManifest locked_ p))
              (preparedState root locked_ p s)
            = (Ret p1, s2)).
  { rewrite attemptInstallWithRetries_cases, Hsame, Hloop.
    by replace (_ <=? rc)%nat with false
      by (symmetry; apply Nat.leb_gt; lia). }
  split; [exact Hloop|]. split; [reflexivity|]. split; [reflexivity|].
  split; [apply in_or_app; right; by left|].
  split; [exact Hattempt|]. split.
  - intros Hout Hdetails.
    rewrite (cleanPackageJson_cases exec root locked_ out s p Hp).
    rewrite bool_decide_eq_true_2 by done.
    rewrite Hattempt, saveRemovedItems_cases.
    assert (Hdirs : dirs s2 = dirs s) by (cbn; by rewrite Hd).
    rewrite Hdirs. by rewrite !bool_decide_eq_true_2 by done.
  - intros -> Hnothing.
    destruct (iterates_counter _ _ _ _ _ _ _ _ _ _ Hit) as [_ Heq].
    destruct (Heq eq_refl) as [_ ->].
    cbn [s2 afterAbort removed preparedState addEvent afterFailure].
    by rewrite Hnothing.
Qed.

Lemma unclassified_failure_stops_and_exports_witness :
  cleanPackageJson (alwaysFails "something else went wrong") projectRoot
    noLocked exportRoot (freshState leftPadManifest)
  = (Ret tt,
     exportedState exportRoot
       (afterAbort projectRoot "something else went wrong"
          "Error: Command failed: something else went wrong"
          (preparedState projectRoot noLocked leftPadManifest
             (freshState leftPadManifest)))).
Proof.
  destruct (unclassified_failure_stops_and_exports
              (alwaysFails "something else went wrong") projectRoot
              exportRoot noLocked (freshState leftPadManifest)
              leftPadManifest 0 (preparedManifest noLocked leftPadManifest) 0
              (preparedState projectRoot noLocked leftPadManifest
                 (freshState leftPadManifest))
              "something else went wrong"
              "Error: Command failed: something else went wrong")
    as (_ & _ & _ & _ & _ & H & _);
    [vm_compute; reflexivity | vm_compute; reflexivity
    | | reflexivity | vm_compute; reflexivity |].
  - replace (budget (preparedManifest noLocked leftPadManifest)) with 1
      by (vm_compute; reflexivity).
    apply iterates_here.
  - apply H; vm_compute; reflexivity.
Defined.

(* ===================================================================== *)
(** ** C9: the export *)
(* ===================================================================== *)

Lemma tryPatterns_throws_URIError (ps : list Regex.Pattern)
  (error : string) (e : Exn) :
  Classifier.tryPatterns ps error = Throw e -> e = URIError.
Proof.
  induction ps as [|q ps IH]; [done|]. cbn [Classifier.tryPatterns].
  destruct (Regex.exec q error) as [m|]; [|done].
  destruct (URI.decodeURIComponent _) as [d|]; [|by intros [= <-]].
  by destruct (Classifier.aliasMatch d).
Qed.

Lemma retryLoop_throws_URIError
  (exec : string -> Path -> State -> ExecOutcome) (root : Path) (n : nat)
  (p : PackageJson) (rc : nat) (s : State) (e : Exn) :
  root ∈ dirs s ->
  (retryLoop exec root n p rc s).1 = Throw e -> e = URIError.
Proof.
  revert p rc s. induction n as [|n IH]; intros p rc s Hroot; [done|].
  rewrite retryLoop_step. cbn zeta.
  destruct (exec _ _ _) as [out|stderr error]; [done|].
  destruct (Classifier.parseErrorForPackageAlias error) as [pa|e'] eqn:E.
  2:{ intros [= <-]. by apply tryPatterns_throws_URIError in E. }
  destruct (isFalsy pa); [done|].
  rewrite bool_decide_eq_true_2 by done. by apply IH.
Qed.

Lemma filter_none {A} (f : A -> bool) (l : list A) :
  Forall (fun x => f x = false) l -> List.filter f l = [].
Proof. induction 1 as [|x l Hx _ IH]; [done|]. cbn. by rewrite Hx. Qed.

Lemma filter_writeEvents (mp : Path) (docs : list (Path * Doc)) :
  mp ∉ docs.*1 ->
  List.filter (isWriteElsewhere mp) (writeEvents docs) = writeEvents docs.
Proof.
  induction docs as [|d docs IH]; [done|]. rewrite fmap_cons.
  intros [Hne Hd]%not_elem_of_cons. cbn.
  rewrite bool_decide_eq_false_2 by done. cbn. f_equal. by apply IH.
Qed.

Lemma filter_scriptsLog (mp : Path) (p : PackageJson) :
  List.filter (isWriteElsewhere mp) (scriptsLog p) = [].
Proof. unfold scriptsLog. by destruct (scripts p). Qed.

Lemma exported_documents_on_disk (out : Path) (s : State)
  (pd : Path * Doc) :
  pd ∈ exportDocuments out (removed s) ->
  files (exportedState out s) !! pd.1 = Some pd.2.
Proof.
  unfold exportedState, exportDocuments, detailDocuments, summaryDocument.
  cbn. rewrite !elem_of_cons.
  intros [->|[->|[->|[->|H]]]]; cbn [fst snd].
  - rewrite !lookup_insert_ne by (by apply join_ne_fileName).
    apply lookup_insert_eq.
  - rewrite !lookup_insert_ne by (by apply join_ne_fileName).
    apply lookup_insert_eq.
  - rewrite !lookup_insert_ne by (by apply join_ne_fileName).
    apply lookup_insert_eq.
  - apply lookup_insert_eq.
  - by apply elem_of_nil in H.
Qed.

(** A run in which the [details] directory is missing: the export throws
    on its first write, no directory is created and no document exists. *)
Lemma export_creates_no_directory :
  let s := stateWithoutDetails leftPadManifest in
  let final :=
    cleanPackageJson (alwaysFails "something else went wrong") projectRoot
      noLocked exportRoot s in
  final.1 = Throw ENOENT
  /\ dirs final.2 = dirs s
  /\ bool_decide (join exportRoot "details" ∈ dirs final.2) = false
  /\ files final.2 !! join exportRoot "allRemovedItems.json" = None.
Proof. cbv zeta. repeat split; vm_compute; reflexivity. Qed.

Lemma tracked_prune (condition : string -> bool)
  (original final : option Dependencies) (a b : Dependencies) :
  tracked original final a b ->
  tracked original (kept condition <$> final)
    (taken condition (default ∅ final) ∪ a) b.
Proof.
  intros Ht d name ver Hd Hn Hne.
  destruct (Ht d name ver Hd Hn Hne) as [Hf|[Hf Hab]].
  - destruct final as [d'|]; [|done]. cbn in *.
    rewrite lookup_kept, lookup_union, lookup_taken, Hf.
    destruct (condition name); [right|by left]. split; [done|].
    left. by destruct (a !! name).
  - right. destruct final as [d'|]; cbn in *.
    + rewrite lookup_kept, lookup_union, lookup_taken, Hf.
      split; [by destruct (condition name)|].
      destruct Hab as [Ha|Hb]; [left|by right].
      rewrite Ha. by destruct (condition name).
    + split; [done|]. unfold taken.
      by rewrite map_filter_empty, (left_id_L ∅ (∪)).
Qed.

Lemma tracked_prepare (condition : string -> bool)
  (original : option Dependencies) (a b : Dependencies) :
  tracked original (kept condition <$> original) a
    (stored b (taken condition (default ∅ original)) ∪ b).
Proof.
  intros d name ver -> Hn Hne. cbn.
  rewrite lookup_kept, lookup_union, lookup_stored, lookup_taken, Hn.
  rewrite stores_other by done.
  destruct (condition name); [right|by left]. split; [done|].
  right. by destruct (b !! name).
Qed.

Lemma tracked_accountedFor (condition : string -> bool)
  (original final : option Dependencies) (a b0 : Dependencies) :
  tracked original final a
    (stored b0 (taken condition (default ∅ original)) ∪ b0) ->
  accountedFor original final a
    (stored b0 (taken condition (default ∅ original)) ∪ b0) b0.
Proof.
  intros Ht d name ver Hd Hn Hne Hgone.
  destruct (Ht d name ver Hd Hn Hne) as [Hf|[_ Hab]]; [congruence|].
  split; [exact Hab|]. rewrite (lookup_union _ a).
  split.
  { destruct Hab as [Ha|Hb].
    - rewrite Ha. destruct ((stored _ _ ∪ b0) !! name); cbn; by eauto.
    - rewrite Hb. destruct (a !! name); cbn; by eauto. }
  intros Hstale. destruct Hab as [Ha|Hb].
  - rewrite Ha, lookup_union, lookup_stored, lookup_taken, Hstale.
    subst original. cbn [from_option id]. rewrite Hn.
    by destruct (JsObject.stores b0 name), (condition name).
  - rewrite Hb. by destruct (a !! name).
Qed.

(** No run creates or removes a directory, however it ends. *)
Lemma cleanPackageJson_dirs
  (exec : string -> Path -> State -> ExecOutcome) (root out : Path)
  (locked_ : LockedDependencies) (s : State) :
  dirs (cleanPackageJson exec root locked_ out s).2 = dirs s.
Proof.
  destruct (files s !! manifestPath root) as [[p0| |]|] eqn:Hp0.
  2,3,4: (destruct (cleanPackageJson_unreadable exec root locked_ out s)
            as [e' ->]; [by rewrite Hp0|done]).
  rewrite (cleanPackageJson_cases exec root locked_ out s p0 Hp0).
  case_bool_decide; [|done].
  destruct (attemptInstallWithRetries_frame exec root
              (preparedManifest locked_ p0)
              (budget (preparedManifest locked_ p0))
              (preparedState root locked_ p0 s)) as (Hd0 & _).
  cbn [dirs preparedState] in Hd0.
  destruct (attemptInstallWithRetries _ _ _ _ _) as [[p1|e] s1];
    cbn [snd] in *; [|done].
  by destruct (saveRemovedItems_frame root out s1) as (-> & _).
Qed.

(** C9 (as amended). The exporter creates no directory: no run changes the
    set of directories.  When the export directory and its [details]
    directory exist, the exporter runs exactly once, after the loop has
    returned (installed, aborted or budget spent), and writes all its
    documents, which hold the removal buckets as they are at that point;
    and every script and every entry of the two dependency maps that the
    run has removed from the manifest under a name other than [__proto__]
    is in those buckets with its command or version and is listed in the
    summary document.  The loop fails to return only when percent-decoding
    a diagnostic throws. *)
Theorem export_runs_once_after_loop
  (exec : string -> Path -> State -> ExecOutcome) (root out : Path)
  (locked_ : LockedDependencies) (s : State) (p : PackageJson) :
  let loop :=
    attemptInstallWithRetries exec (preparedManifest locked_ p) root
      (budget (preparedManifest locked_ p))
      (preparedState root locked_ p s) in
  let final := cleanPackageJson exec root locked_ out s in
  dirs final.2 = dirs s
  /\ (files s !! manifestPath root = Some (DocPackageJson p) ->
      root ∈ dirs s -> out ∈ dirs s -> join out "details" ∈ dirs s ->
      (forall e, loop.1 = Throw e ->
         e = URIError /\ final = (Throw URIError, loop.2))
      /\ (forall p1, loop.1 = Ret p1 ->
            final = (Ret tt, exportedState out loop.2)
            /\ (exists evs,
                  events final.2 = (events s ++ evs)%list
                  /\ List.filter (isWriteElsewhere (manifestPath root)) evs
                     = writeEvents (exportDocuments out (removed loop.2)))
            /\ (forall pd, pd ∈ exportDocuments out (removed loop.2) ->
                  files final.2 !! pd.1 = Some pd.2)
            /\ files final.2 !! manifestPath root
               = Some (DocPackageJson p1)
            /\ recordsRemoved p p1 (removed s) (removed loop.2))).
Proof.
  intros loop final.
  destruct (attemptInstallWithRetries_frame exec root
              (preparedManifest locked_ p)
              (budget (preparedManifest locked_ p))
              (preparedState root locked_ p s))
    as (Hd & _ & evs & He & _ & Hw).
  fold loop in Hd, He. cbn [dirs preparedState] in Hd.
  split; [apply cleanPackageJson_dirs|].
  intros Hp Hroot Hout Hdetails.
  assert (Hfinal : final
                   = match loop with
                     | (Ret _, s1) => (Ret tt, exportedState out s1)
                     | (Throw e, s1) => (Throw e, s1)
                     end).
  { unfold final.
    rewrite (cleanPackageJson_cases exec root locked_ out s p Hp).
    rewrite bool_decide_eq_true_2 by done. fold loop.
    destruct loop as [[p1|e] s1]; [|done]. cbn [snd] in Hd.
    rewrite saveRemovedItems_cases, Hd.
    by rewrite !bool_decide_eq_true_2 by done. }
  assert (Hthrow : forall e, loop.1 = Throw e -> e = URIError).
  { intros e. unfold loop. rewrite attemptInstallWithRetries_cases.
    pose proof (retryLoop_throws_URIError exec root
                  (budget (preparedManifest locked_ p))
                  (preparedManifest locked_ p) 0
                  (preparedState root locked_ p s) e Hroot) as H.
    destruct (retryLoop _ _ _ _ _ _) as [[[p' rc']|e'] s'].
    - by destruct (_ <=? _)%nat.
    - intros [= <-]. by apply H. }
  set (I := fun (q : PackageJson) (t : State) =>
              files t !! manifestPath root = Some (DocPackageJson q)
              /\ scripts q = None
              /\ removedLockedDeps (removed t)
                 = removedLockedDeps (preparedStore locked_ p (removed s))
              /\ removedLockedDevDeps (removed t)
                 = removedLockedDevDeps (preparedStore locked_ p (removed s))
              /\ removedScripts (removed t)
                 = removedScripts (preparedStore locked_ p (removed s))
              /\ tracked (dependencies p) (dependencies q)
                   (removedLocalDeps (removed t))
                   (removedLockedDeps (removed t))
              /\ tracked (devDependencies p) (devDependencies q)
                   (removedLocalDevDeps (removed t))
                   (removedLockedDevDeps (removed t))).
  assert (Hinv : exists p',
            I p' loop.2 /\ forall x, loop.1 = Ret x -> x = p').
  { apply (attemptInstallWithRetries_invariant exec root I); [| |done|].
    - intros q t e HI. exact HI.
    - intros q t alias (_ & Hs & Hl & Hld & Hscr & Ht & Htd).
      split; [cbn; apply lookup_insert_eq|].
      split; [done|]. split; [done|]. split; [done|]. split; [done|].
      split; cbn; by apply tracked_prune.
    - split; [cbn; apply lookup_insert_eq|].
      split; [done|]. split; [done|]. split; [done|]. split; [done|].
      split; cbn; apply tracked_prepare. }
  rewrite Hfinal. split.
  - intros e Hl. pose proof (Hthrow e Hl) as ->. split; [done|].
    destruct loop as [[p1|e] s1]; cbn in Hl; [done|]. by inversion Hl.
  - intros p1 Hl. destruct Hinv as (p' & HI & Hret).
    rewrite (Hret p1 Hl).
    destruct loop as [[p1'|e] s1]; cbn in Hl; [|done].
    cbn [snd] in *.
    destruct HI as (Hf & Hs & Hl1 & Hl2 & Hscr & Ht & Htd).
    split; [done|]. split; [|split; [|split; [|split; [|split; [|split]]]]].
    + unfold exportedState. cbn [events addEvent].
      rewrite written_events, He. cbn [events preparedState].
      eexists. rewrite <- !app_assoc. split; [reflexivity|].
      rewrite <- app_comm_cons. cbn [List.filter isWriteElsewhere].
      rewrite !List.filter_app, filter_scriptsLog, (filter_none _ evs Hw).
      rewrite filter_writeEvents by apply manifestPath_not_exported.
      cbn [List.filter isWriteElsewhere app].
      rewrite bool_decide_eq_true_2 by done. reflexivity.
    + intros pd. apply exported_documents_on_disk.
    + unfold exportedState. cbn [files addEvent].
      by rewrite written_files_other by apply manifestPath_not_exported.
    + rewrite Hl1 in Ht |- *. cbn [preparedStore removedLockedDeps] in *.
      by apply tracked_accountedFor.
    + rewrite Hl2 in Htd |- *. cbn [preparedStore removedLockedDevDeps] in *.
      by apply tracked_accountedFor.
    + done.
    + intros scr name command Hsc Hn Hne. rewrite Hscr.
      cbn [preparedStore removedScripts]. rewrite Hsc. cbn [from_option id].
      rewrite lookup_union, lookup_stored, Hn, stores_other by done.
      by destruct (removedScripts (removed s) !! name).
Qed.

Lemma export_runs_once_after_loop_witness :
  dirs (cleanPackageJson (alwaysFails yarnScopedNotFound) projectRoot
          noLocked exportRoot (freshState scopedManifest)).2
  = dirs (freshState scopedManifest)
  /\ files (cleanPackageJson (alwaysFails yarnScopedNotFound) projectRoot
              noLocked exportRoot (freshState scopedManifest)).2
     !! manifestPath projectRoot
     = Some (DocPackageJson (prunedManifest "@scope" scopedManifest)).
Proof.
  destruct (export_runs_once_after_loop (alwaysFails yarnScopedNotFound)
              projectRoot exportRoot noLocked (freshState scopedManifest)
              scopedManifest) as (Hdirs & H).
  split; [exact Hdirs|].
  destruct H as (_ & H);
    [vm_compute; reflexivity | vm_compute; reflexivity
    | vm_compute; reflexivity | vm_compute; reflexivity |].
  destruct (H (prunedManifest "@scope" scopedManifest))
    as (_ & _ & _ & Hmanifest & _); [vm_compute; reflexivity|].
  exact Hmanifest.
Defined.

(* ===================================================================== *)
(** ** C10: the scripts *)
(* ===================================================================== *)

(** C10. A manifest whose scripts are [__proto__] and [build]:
    [removeScripts] deletes the scripts mapping and records [build] only.
    In the run the manifest is written without scripts, and neither the
    removed-scripts document nor the summary holds the script named
    [__proto__]: it is lost. *)
Theorem script_named_proto_is_not_recorded :
  let p := protoScriptManifest in
  let s := freshState p in
  (removeScripts p s).1 = Ret (mkPackageJson None None None)
  /\ removedScripts (removed (removeScripts p s).2) = {[ "build" := "tsc" ]}
  /\ removedScripts (removed (removeScripts p s).2) !! "__proto__" = None
  /\ let final :=
       cleanPackageJson (fun _ _ _ => Exited "Done") projectRoot noLocked
         exportRoot s in
     final.1 = Ret tt
     /\ files final.2 !! manifestPath projectRoot
        = Some (DocPackageJson (mkPackageJson None None None))
     /\ files final.2 !! join (join exportRoot "details") "removedScripts.json"
        = Some (DocRecord {[ "build" := "tsc" ]})
     /\ files final.2 !! join exportRoot "allRemovedItems.json"
        = Some (DocAllRemoved {[ "build" := "tsc" ]} ∅ ∅).
Proof. cbv zeta. repeat split; vm_compute; reflexivity. Qed.
(* ===================================================================== *)
(** ** Further properties of the pruner *)
(* ===================================================================== *)

(** X1. Pruning a map removes exactly the entries whose name satisfies the
    condition and leaves the others as they are; each removed entry is
    assigned to the selected bucket under its name: with a name other than
    [__proto__], or when the bucket has an own property of that name, the
    bucket then holds it with the version it had in the map, in place of
    what it held under that name, and every other entry of the bucket
    stays.  But an entry named [__proto__] is deleted from the map without
    being recorded when the bucket has no own property of that name. *)
Theorem prune_moves_exactly_the_matching_entries (deps : Dependencies)
  (condition : string -> bool) (isDevDep : bool) (ty : DependencyType)
  (r : Removed) :
  exists deps',
    let pruned :=
      removeAndRecordDependencies (Some deps) isDevDep ty condition r in
    pruned.1 = Some deps'
    /\ forall name,
         deps' !! name = (if condition name then None else deps !! name)
         /\ (name <> "__proto__"
             \/ is_Some (getRecord ty isDevDep r !! name) ->
             getRecord ty isDevDep pruned.2 !! name
             = (if condition name
                then match deps !! name with
                     | Some ver => Some ver
                     | None => getRecord ty isDevDep r !! name
                     end
                else getRecord ty isDevDep r !! name))
         /\ (name = "__proto__" ->
             getRecord ty isDevDep r !! name = None ->
             getRecord ty isDevDep pruned.2 !! name = None).
Proof.
  rewrite removeAndRecordDependencies_Some. eexists. split; [reflexivity|].
  intros name. cbn [fst snd].
  rewrite getRecord_setRecord, lookup_kept, lookup_union, lookup_stored,
    lookup_taken.
  split; [done|]. split.
  - intros Hname.
    assert (Hs : JsObject.stores (getRecord ty isDevDep r) name = true).
    { destruct Hname as [Hne|Hown]; [by apply stores_other|].
      unfold JsObject.stores. rewrite bool_decide_eq_true_2 by done.
      apply orb_true_r. }
    rewrite Hs.
    destruct (condition name), (deps !! name),
      (getRecord ty isDevDep r !! name); done.
  - intros -> Hnone. unfold JsObject.stores. rewrite Hnone.
    rewrite bool_decide_eq_false_2 by (by intros [? ?]). done.
Qed.

Lemma getRecord_setRecord_other (ty ty' : DependencyType) (dev dev' : bool)
  (m : Dependencies) (r : Removed) :
  (ty, dev) <> (ty', dev') ->
  getRecord ty' dev' (setRecord ty dev m r) = getRecord ty' dev' r.
Proof. destruct ty, ty', dev, dev'; cbn; congruence. Qed.

Lemma size_kept_taken (condition : string -> bool) (deps : Dependencies) :
  size (kept condition deps) + size (taken condition deps) = size deps.
Proof.
  rewrite <- (kept_taken_union condition deps) at 3.
  symmetry. apply map_size_disj_union, kept_taken_disjoint.
Qed.

(** X2. Pruning writes to one bucket only: the three other dependency
    buckets and the scripts bucket are what they were, whatever the map and
    the condition; an absent map changes nothing at all; and the number of
    entries left plus the number of entries that satisfy the condition is
    the number of entries the map had. *)
Theorem prune_touches_one_bucket (dependencies : option Dependencies)
  (condition : string -> bool) (isDevDep : bool) (ty : DependencyType)
  (r : Removed) :
  let pruned :=
    removeAndRecordDependencies dependencies isDevDep ty condition r in
  (forall ty' isDevDep',
     (ty, isDevDep) <> (ty', isDevDep') ->
     getRecord ty' isDevDep' pruned.2 = getRecord ty' isDevDep' r)
  /\ removedScripts pruned.2 = removedScripts r
  /\ (dependencies = None -> pruned = (None, r))
  /\ keyCount pruned.1
     + size (taken condition (default ∅ dependencies))
     = keyCount dependencies.
Proof.
  destruct dependencies as [deps|].
  - rewrite removeAndRecordDependencies_Some. cbn [fst snd default keyCount].
    split; [|split; [|split]].
    + intros ty' dev' Hne. by apply getRecord_setRecord_other.
    + by destruct ty, isDevDep.
    + done.
    + apply size_kept_taken.
  - cbn. split; [done|]. split; [done|]. split; [done|].
    unfold taken. by rewrite map_filter_empty, map_size_empty.
Qed.

Lemma kept_ext (c1 c2 : string -> bool) (deps : Dependencies) :
  (forall k, c1 k = c2 k) -> kept c1 deps = kept c2 deps.
Proof.
  intros H. apply map_eq. intros k. by rewrite !lookup_kept, H.
Qed.

Lemma taken_ext (c1 c2 : string -> bool) (deps : Dependencies) :
  (forall k, c1 k = c2 k) -> taken c1 deps = taken c2 deps.
Proof.
  intros H. apply map_eq. intros k. by rewrite !lookup_taken, H.
Qed.

Lemma removeLockedDeps_cases (locked_ : LockedDependencies)
  (dependencies : option Dependencies) (isDevDep : bool) (r : Removed) :
  removeLockedDeps locked_ dependencies isDevDep r
  = (kept (inLocked locked_) <$> dependencies,
     setRecord locked isDevDep
       (stored (getRecord locked isDevDep r)
          (taken (inLocked locked_) (default ∅ dependencies))
        ∪ getRecord locked isDevDep r) r).
Proof.
  unfold removeLockedDeps. destruct dependencies as [d|].
  - by rewrite removeAndRecordDependencies_Some.
  - unfold removeAndRecordDependencies, taken.
    cbn [default fmap option_fmap option_map].
    rewrite map_filter_empty, stored_empty, (left_id_L ∅ (∪)).
    by rewrite setRecord_getRecord.
Qed.

Lemma inLocked_empty (k : string) :
  inLocked ∅ k = JsObject.inherited k.
Proof.
  unfold inLocked, JsObject.hasProperty.
  rewrite bool_decide_eq_false_2; [done|].
  rewrite lookup_empty. by intros [? ?].
Qed.

(** With an empty locked set, a dependency named [constructor] is removed
    and recorded as locked. *)
Example constructor_is_treated_as_locked :
  removeLockedDeps noLocked
    (Some {[ "constructor" := "1.0.0"; "lodash" := "4.17.21" ]}) false
    noRemoved
  = (Some {[ "lodash" := "4.17.21" ]},
     mkRemoved ∅ ∅ {[ "constructor" := "1.0.0" ]} ∅ ∅).
Proof. vm_compute. reflexivity. Qed.

(** X3. The locked pre-filter looks at names only: two locked sets with
    the same keys prune alike, whatever names and versions their
    descriptors carry.  An entry is removed when its name is a key of the
    locked set or one of the names that every object inherits
    ([constructor], [toString], [__proto__], ...), and stays otherwise; a
    removed entry with a name other than [__proto__] is recorded in the
    locked bucket with the version the manifest gave it.  So with an empty
    locked set the entries with an inherited name are removed all the
    same, and nothing changes only when the map has none. *)
Theorem locked_filter_uses_keys_only (locked1 locked2 : LockedDependencies)
  (dependencies : option Dependencies) (isDevDep : bool) (r : Removed) :
  dom locked1 = dom locked2 ->
  removeLockedDeps locked1 dependencies isDevDep r
  = removeLockedDeps locked2 dependencies isDevDep r
  /\ (forall deps name ver,
        dependencies = Some deps -> deps !! name = Some ver ->
        exists deps',
          (removeLockedDeps locked1 dependencies isDevDep r).1 = Some deps'
          /\ (is_Some (locked1 !! name) \/ JsObject.inherited name = true ->
              deps' !! name = None
              /\ (name <> "__proto__" ->
                  getRecord locked isDevDep
                    (removeLockedDeps locked1 dependencies isDevDep r).2
                  !! name = Some ver))
          /\ (locked1 !! name = None -> JsObject.inherited name = false ->
              deps' !! name = Some ver))
  /\ (removeLockedDeps ∅ dependencies isDevDep r).1
     = kept JsObject.inherited <$> dependencies
  /\ ((forall deps name,
         dependencies = Some deps -> is_Some (deps !! name) ->
         JsObject.inherited name = false) ->
      removeLockedDeps ∅ dependencies isDevDep r = (dependencies, r)).
Proof.
  intros Hdom.
  assert (Hc : forall k, inLocked locked1 k = inLocked locked2 k).
  { intros k. unfold inLocked, JsObject.hasProperty. f_equal.
    apply bool_decide_ext. by rewrite <- !elem_of_dom, Hdom. }
  split; [|split; [|split]].
  - rewrite !removeLockedDeps_cases.
    by rewrite (taken_ext _ _ _ Hc),
      (option_fmap_ext _ _ dependencies (fun d => kept_ext _ _ d Hc)).
  - intros deps name ver -> Hn. rewrite removeLockedDeps_cases.
    eexists. split; [reflexivity|]. cbn [fst snd from_option id].
    rewrite getRecord_setRecord, lookup_kept, lookup_union, lookup_stored,
      lookup_taken.
    unfold inLocked, JsObject.hasProperty. split.
    + intros Hl.
      assert (Ht : bool_decide (is_Some (locked1 !! name))
                   || JsObject.inherited name = true).
      { destruct Hl as [Hl| ->]; [|apply orb_true_r].
        by rewrite bool_decide_eq_true_2. }
      rewrite Ht, Hn. split; [done|]. intros Hne.
      rewrite stores_other by done.
      by destruct (getRecord locked isDevDep r !! name).
    + intros Hl Hi. rewrite Hi, bool_decide_eq_false_2; [done|].
      rewrite Hl. by intros [? ?].
  - rewrite removeLockedDeps_cases. cbn [fst].
    apply option_fmap_ext. intros d. apply kept_ext, inLocked_empty.
  - intros Hnone. rewrite removeLockedDeps_cases.
    f_equal.
    + destruct dependencies as [d|]; [|done]. cbn. f_equal.
      apply map_eq. intros k. rewrite lookup_kept, inLocked_empty.
      destruct (d !! k) as [v|] eqn:E; [|by destruct (JsObject.inherited k)].
      by rewrite (Hnone d k eq_refl) by eauto.
    + replace (taken (inLocked ∅) (default ∅ dependencies))
        with (∅ : Dependencies).
      * by rewrite stored_empty, (left_id_L ∅ (∪)), setRecord_getRecord.
      * apply map_eq. intros k.
        rewrite lookup_taken, inLocked_empty, lookup_empty.
        destruct dependencies as [d|]; cbn [from_option id];
          [|by destruct (JsObject.inherited k)].
        destruct (d !! k) as [v|] eqn:E; [|by destruct (JsObject.inherited k)].
        by rewrite (Hnone d k eq_refl) by eauto.
Qed.

Lemma locked_filter_uses_keys_only_witness :
  removeLockedDeps {[ "@acme/internal-lib" := mkLockedEntry "a" "1.0.0" ]}
    (Some {[ "@acme/internal-lib" := "x"; "lodash" := "y" ]}) false noRemoved
  = removeLockedDeps {[ "@acme/internal-lib" := mkLockedEntry "b" "2.0.0" ]}
      (Some {[ "@acme/internal-lib" := "x"; "lodash" := "y" ]}) false
      noRemoved.
Proof.
  destruct (locked_filter_uses_keys_only
              {[ "@acme/internal-lib" := mkLockedEntry "a" "1.0.0" ]}
              {[ "@acme/internal-lib" := mkLockedEntry "b" "2.0.0" ]}
              (Some {[ "@acme/internal-lib" := "x"; "lodash" := "y" ]})
              false noRemoved) as [H _]; [vm_compute; reflexivity|].
  exact H.
Defined.
(* ===================================================================== *)
(** ** Further properties of the classifier *)
(* ===================================================================== *)


Lemma beforeSlash_no_slash (s : string) :
  hasChar Str.slash (beforeSlash s) = false.
Proof.
  induction s as [|a s IH]; [done|]. cbn.
  destruct (Ascii.eqb a Str.slash) eqn:E; [done|]. cbn. by rewrite E, IH.
Qed.

(** X4. An alias returned by the classifier is never the empty string and
    never contains a path separator, so the test [!packageAlias] of the
    retry loop is true for null only. *)
Theorem alias_is_nonempty_and_has_no_slash (error alias : string) :
  Classifier.parseErrorForPackageAlias error = Ret (Some alias) ->
  alias <> "" /\ hasChar Str.slash alias = false
  /\ isFalsy (Some alias) = false.
Proof.
  intros H. split; [by apply tryPatterns_alias_nonempty in H|].
  split; [|by apply isFalsy_alias in H].
  revert H. unfold Classifier.parseErrorForPackageAlias.
  induction Classifier.patterns as [|p ps IH]; [done|].
  cbn [Classifier.tryPatterns].
  destruct (Regex.exec p error) as [m|]; [|done].
  destruct (URI.decodeURIComponent _) as [d|]; [|done].
  rewrite aliasMatch_beforeSlash.
  pose proof (beforeSlash_no_slash d) as Hs.
  destruct (beforeSlash d) eqn:E; [done|].
  cbn [Regex.group1]. by intros [= <-].
Qed.

Lemma alias_is_nonempty_and_has_no_slash_witness :
  hasChar Str.slash "@scope" = false.
Proof.
  apply (alias_is_nonempty_and_has_no_slash yarnScopedNotFound "@scope").
  vm_compute. reflexivity.
Defined.


Lemma hasChar_drop (c : ascii) (n : nat) (s : string) :
  hasChar c (Str.drop n s) = true -> hasChar c s = true.
Proof.
  revert s. induction n as [|n IH]; intros [|a s]; cbn; try done.
  intros H. rewrite (IH _ H). by rewrite orb_true_r.
Qed.

(** Every character of a captured group is a character of the text. *)
Lemma match_here_hasChar (c : ascii) (r : Regex.Pattern) (s : string)
  (gs : list string) :
  Regex.match_here r s = Some gs ->
  forall g, In g gs -> hasChar c g = true -> hasChar c s = true.
Proof.
  revert s gs. induction r as [|[text|d] r IH]; intros s gs.
  - cbn. by intros [= <-] g [].
  - cbn [Regex.match_here]. destruct (Str.startsWith s text); [|done].
    intros H g Hg Hc. eapply hasChar_drop, IH; eauto.
  - cbn [Regex.match_here]. revert gs.
    induction s as [|a s IHs]; intros gs; [done|].
    destruct (Ascii.eqb a d); [done|].
    match goal with
    | |- context [match ?f s with _ => _ end] =>
        destruct (f s) as [[|g0 gs0]|] eqn:E
    end.
    + destruct (Regex.match_here r s) as [gs1|] eqn:E1; [|done].
      intros [= <-] g [<-|Hg] Hc.
      * cbn in Hc. rewrite orb_false_r in Hc. cbn. by rewrite Hc.
      * cbn. rewrite (IH _ _ E1 g Hg Hc). by rewrite orb_true_r.
    + intros [= <-] g [<-|Hg] Hc.
      * cbn in Hc. cbn. destruct (Ascii.eqb a c); [done|]. cbn in *.
        eapply IHs; [reflexivity|by left|done].
      * cbn. rewrite (IHs _ eq_refl g (or_intror Hg) Hc).
        by rewrite orb_true_r.
    + destruct (Regex.match_here r s) as [gs1|] eqn:E1; [|done].
      intros [= <-] g [<-|Hg] Hc.
      * cbn in Hc. rewrite orb_false_r in Hc. cbn. by rewrite Hc.
      * cbn. rewrite (IH _ _ E1 g Hg Hc). by rewrite orb_true_r.
Qed.

Lemma exec_hasChar (c : ascii) (r : Regex.Pattern) (s : string)
  (gs : list string) :
  Regex.exec r s = Some gs ->
  forall g, In g gs -> hasChar c g = true -> hasChar c s = true.
Proof.
  revert gs. induction s as [|a s IH]; intros gs; cbn [Regex.exec].
  - destruct (Regex.match_here r "") as [gs'|] eqn:E; [|done].
    intros [= <-]. by eapply match_here_hasChar.
  - destruct (Regex.match_here r (String a s)) as [gs'|] eqn:E.
    + intros [= <-]. by eapply match_here_hasChar.
    + intros H g Hg Hc. cbn. rewrite (IH _ H g Hg Hc).
      by rewrite orb_true_r.
Qed.

Lemma Decode_no_percent (s : string) :
  hasChar Str.percent s = false -> URI.Decode [] 0 s = Some s.
Proof.
  induction s as [|a s IH]; [done|]. cbn [hasChar URI.Decode].
  intros [Ha Hs]%orb_false_elim. rewrite Ha, (IH Hs). done.
Qed.

Lemma group1_In (gs : list string) :
  Regex.group1 gs = "" \/ In (Regex.group1 gs) gs.
Proof. destruct gs; cbn; eauto. Qed.

(** X5. The classifier can only throw URIError, and it returns (an alias
    or null) on every text that has no percent sign: nothing it captures
    then has an escape to decode. *)
Theorem classifier_throws_only_on_escapes (error : string) :
  (forall e, Classifier.parseErrorForPackageAlias error = Throw e ->
             e = URIError /\ hasChar Str.percent error = true)
  /\ (hasChar Str.percent error = false ->
      exists o, Classifier.parseErrorForPackageAlias error = Ret o).
Proof.
  assert (H : forall e,
             Classifier.parseErrorForPackageAlias error = Throw e ->
             hasChar Str.percent error = true).
  { unfold Classifier.parseErrorForPackageAlias.
    induction Classifier.patterns as [|p ps IH]; [done|].
    intros e. cbn [Classifier.tryPatterns].
    destruct (Regex.exec p error) as [m|] eqn:Em; [|by apply IH].
    destruct (URI.decodeURIComponent _) as [d|] eqn:Ed.
    - destruct (Classifier.aliasMatch d); [done|by apply IH].
    - intros _. destruct (hasChar Str.percent (Regex.group1 m)) eqn:Ec.
      + destruct (group1_In m) as [E|Hin].
        * by rewrite E in Ec.
        * by eapply exec_hasChar.
      + unfold URI.decodeURIComponent in Ed.
        by rewrite Decode_no_percent in Ed. }
  split.
  - intros e He. split; [by eapply tryPatterns_throws_URIError|by eapply H].
  - intros Hno.
    destruct (Classifier.parseErrorForPackageAlias error) as [o|e] eqn:E;
      [by eauto|].
    rewrite (H e eq_refl) in Hno. done.
Qed.

Lemma classifier_throws_only_on_escapes_witness :
  exists o,
    Classifier.parseErrorForPackageAlias (couldntFindPackage "left-pad")
    = Ret o.
Proof.
  destruct (classifier_throws_only_on_escapes (couldntFindPackage "left-pad"))
    as [_ H].
  apply H. vm_compute. reflexivity.
Defined.

Lemma exec_match_here (r : Regex.Pattern) (s : string) (gs : list string) :
  Regex.match_here r s = Some gs -> Regex.exec r s = Some gs.
Proof. intros H. destruct s; cbn [Regex.exec]; by rewrite H. Qed.

Lemma exec_registryNotFound_needs_colon (s : string) :
  hasChar Str.colon s = false ->
  Regex.exec Classifier.registryNotFound s = None.
Proof.
  assert (Hm : forall t, hasChar Str.colon t = false ->
                 Regex.match_here Classifier.registryNotFound t = None).
  { intros t Ht. unfold Classifier.registryNotFound.
    cbn [Regex.match_here].
    destruct (Str.startsWith t "https://registry.yarnpkg.com/") eqn:E;
      [|done].
    apply (startsWith_hasChar Str.colon) in E; [congruence|reflexivity]. }
  induction s as [|a s IH]; intros Hs; cbn [Regex.exec].
  - by rewrite Hm.
  - rewrite (Hm _ Hs). apply IH. cbn in Hs.
    by apply orb_false_elim in Hs as [_ ?].
Qed.

Lemma startsWith_app (p s : string) : Str.startsWith (p ++ s) p = true.
Proof.
  unfold Str.startsWith. induction p as [|a p IH]; [by destruct s|].
  simpl. by destruct (ascii_dec a a).
Qed.

Lemma drop_app (p s : string) : Str.drop (String.length p) (p ++ s) = s.
Proof. induction p as [|a p IH]; [done|]. simpl. exact IH. Qed.

Lemma capture_until_quote (name rest : string) :
  name <> "" -> hasChar Str.dquote name = false ->
  Regex.match_here
    [Regex.CaptureNotPlus Str.dquote; Regex.Lit (String Str.dquote "")]
    (name ++ String Str.dquote rest)
  = Some [name].
Proof.
  induction name as [|a name IH]; [done|]. intros _ Hq.
  cbn in Hq. apply orb_false_elim in Hq as [Ha Hq].
  change (String a name ++ String Str.dquote rest)
    with (String a (name ++ String Str.dquote rest)).
  cbn [Regex.match_here] in *. rewrite Ha.
  destruct name as [|b name].
  - destruct rest; vm_compute; reflexivity.
  - by rewrite IH.
Qed.

(** X6. For every package name without double quote, percent sign or colon
    that does not begin with a path separator, the diagnostic
    [error Couldn't find package] followed by the quoted name (and by any
    text without colon) is classified as the portion of the name before
    its first path separator: the whole name of an unscoped package, the
    scope of a scoped one. *)
Theorem couldnt_find_package_gives_name_or_scope (name rest : string) :
  hasChar Str.dquote name = false ->
  hasChar Str.percent name = false ->
  hasChar Str.colon name = false ->
  hasChar Str.colon rest = false ->
  beforeSlash name <> "" ->
  Classifier.parseErrorForPackageAlias (couldntFindPackageThen name rest)
  = Ret (Some (beforeSlash name)).
Proof.
  intros Hq Hp Hc Hr Hb.
  assert (Hne : name <> "") by (by intros ->).
  unfold Classifier.parseErrorForPackageAlias, Classifier.patterns.
  cbn [Classifier.tryPatterns].
  rewrite exec_registryNotFound_needs_colon.
  2:{ unfold couldntFindPackageThen.
      rewrite !hasChar_app, Hc. cbn. by rewrite Hr. }
  rewrite (exec_match_here _ _ [name]).
  2:{ change (couldntFindPackageThen name rest)
        with (("error Couldn't find package " ++ String Str.dquote "")
              ++ (name ++ String Str.dquote rest)).
      unfold Classifier.packageNotFound. cbn [Regex.match_here].
      rewrite startsWith_app, drop_app.
      by apply capture_until_quote. }
  cbn [Regex.group1]. unfold URI.decodeURIComponent.
  rewrite Decode_no_percent by done.
  rewrite aliasMatch_beforeSlash. by destruct (beforeSlash name).
Qed.

Lemma couldnt_find_package_gives_name_or_scope_witness :
  Classifier.parseErrorForPackageAlias
    (couldntFindPackageThen "@babel/core" " on the npm registry.")
  = Ret (Some "@babel").
Proof.
  apply (couldnt_find_package_gives_name_or_scope "@babel/core"
           " on the npm registry.");
    [reflexivity | reflexivity | reflexivity | reflexivity
    | vm_compute; discriminate].
Defined.
(* ===================================================================== *)
(** ** Further properties of the retry loop *)
(* ===================================================================== *)


Lemma keepsUnscoped_refl (d : Dependencies) : keepsUnscoped d d.
Proof. by split. Qed.

Lemma keepsUnscoped_trans (d1 d2 d3 : Dependencies) :
  keepsUnscoped d1 d2 -> keepsUnscoped d2 d3 -> keepsUnscoped d1 d3.
Proof.
  intros [S1 K1] [S2 K2]. split; [by transitivity d2|].
  intros name Hn. by rewrite K1, K2.
Qed.

Lemma keepsUnscoped_kept (alias : string) (d : Dependencies) :
  keepsUnscoped (kept (aliasCondition alias) d) d.
Proof.
  split; [apply kept_subseteq|]. intros name Hn. rewrite lookup_kept.
  destruct (aliasCondition alias name) eqn:E; [|done].
  apply aliasCondition_has_slash in E. congruence.
Qed.

Lemma prunedFrom_refl (o : option Dependencies) : prunedFrom o o.
Proof. destruct o; [apply keepsUnscoped_refl|done]. Qed.

Lemma prunedFrom_trans (o1 o2 o3 : option Dependencies) :
  prunedFrom o1 o2 -> prunedFrom o2 o3 -> prunedFrom o1 o3.
Proof.
  destruct o1, o2, o3; cbn; try done. apply keepsUnscoped_trans.
Qed.

Lemma shrunkManifest_refl (p : PackageJson) : shrunkManifest p p.
Proof. repeat split; apply prunedFrom_refl. Qed.

Lemma shrunkManifest_trans (p1 p2 p3 : PackageJson) :
  shrunkManifest p1 p2 -> shrunkManifest p2 p3 -> shrunkManifest p1 p3.
Proof.
  intros (S1 & D1 & V1) (S2 & D2 & V2).
  split; [congruence|]. split; eapply prunedFrom_trans; eauto.
Qed.

Lemma shrunkManifest_pruned (alias : string) (p : PackageJson) :
  shrunkManifest (prunedManifest alias p) p.
Proof.
  split; [done|].
  split; cbn; [destruct (dependencies p)|destruct (devDependencies p)];
    cbn; try done; apply keepsUnscoped_kept.
Qed.

Lemma localGrowth_refl (r : Removed) : localGrowth r r.
Proof. by repeat split. Qed.

Lemma localGrowth_trans (r1 r2 r3 : Removed) :
  localGrowth r1 r2 -> localGrowth r2 r3 -> localGrowth r1 r3.
Proof.
  intros (A1 & B1 & C1 & D1 & E1) (A2 & B2 & C2 & D2 & E2).
  repeat split; try congruence; set_solver.
Qed.

Lemma localGrowth_pruned (alias : string) (p : PackageJson) (r : Removed) :
  localGrowth r (prunedStore alias p r).
Proof.
  repeat split; cbn; rewrite dom_union_L; set_solver.
Qed.

Section LoopShrinks.

Variable exec : string -> Path -> State -> ExecOutcome.
Variable root : Path.

Lemma retryLoop_shrinks (n : nat) (p : PackageJson) (rc : nat) (s : State) :
  localGrowth (removed s) (removed (retryLoop exec root n p rc s).2)
  /\ forall p' rc',
       (retryLoop exec root n p rc s).1 = Ret (p', rc') ->
       shrunkManifest p' p
       /\ (files s !! manifestPath root = Some (DocPackageJson p) ->
           files (retryLoop exec root n p rc s).2 !! manifestPath root
           = Some (DocPackageJson p')).
Proof.
  revert p rc s. induction n as [|n IH]; intros p rc s.
  { split; [apply localGrowth_refl|]. intros p' rc' [= <- <-].
    split; [apply shrunkManifest_refl|done]. }
  rewrite retryLoop_step. cbn zeta.
  destruct (exec _ _ _) as [out|stderr error].
  { split; [apply localGrowth_refl|]. intros p' rc' [= <- <-].
    split; [apply shrunkManifest_refl|done]. }
  destruct (Classifier.parseErrorForPackageAlias error) as [pa|e].
  2:{ split; [apply localGrowth_refl|]. done. }
  destruct (isFalsy pa).
  { split; [apply localGrowth_refl|]. intros p' rc' [= <- <-].
    split; [apply shrunkManifest_refl|done]. }
  case_bool_decide.
  2:{ split; [apply localGrowth_pruned|]. done. }
  destruct (IH (prunedManifest (default "" pa) p) (S rc)
              (afterPruning root (default "" pa) p
                 (afterFailure root stderr s))) as [Hg Hr].
  split.
  - eapply localGrowth_trans; [|exact Hg]. apply localGrowth_pruned.
  - intros p' rc' Hres. destruct (Hr p' rc' Hres) as [Hs Hf]. split.
    + eapply shrunkManifest_trans; [exact Hs|apply shrunkManifest_pruned].
    + intros _. apply Hf. cbn. apply lookup_insert_eq.
Qed.

End LoopShrinks.

(** X7. The retry loop only takes entries away, and only entries whose
    name contains a path separator: when [attemptInstallWithRetries]
    returns, the scripts of the manifest are what they were, each map is a
    sub-map of what it was, and every entry with a name without separator
    is still there; the locked buckets and the scripts bucket are
    untouched and the local buckets have lost no name; and when the
    manifest object was the one on the disk, the one returned is the one
    on the disk. *)
Theorem retry_loop_only_removes_scoped_entries
  (exec : string -> Path -> State -> ExecOutcome) (root : Path)
  (p : PackageJson) (maxRetries : nat) (s : State) :
  let run := attemptInstallWithRetries exec p root maxRetries s in
  localGrowth (removed s) (removed run.2)
  /\ forall p',
       run.1 = Ret p' ->
       shrunkManifest p' p
       /\ (files s !! manifestPath root = Some (DocPackageJson p) ->
           files run.2 !! manifestPath root = Some (DocPackageJson p')).
Proof.
  cbn zeta. rewrite attemptInstallWithRetries_cases.
  destruct (retryLoop_shrinks exec root maxRetries p 0 s) as [Hg Hr].
  destruct (retryLoop _ _ _ _ _ _) as [[[p1 rc1]|e] s1]; cbn [fst snd] in *.
  - destruct (Hr p1 rc1 eq_refl) as [Hs Hf].
    destruct (maxRetries <=? rc1)%nat; cbn [fst snd];
      (split; [done|]; by intros p' [= <-]).
  - by split.
Qed.

Lemma retry_loop_only_removes_scoped_entries_witness :
  shrunkManifest leftPadManifest leftPadManifest.
Proof.
  destruct (retry_loop_only_removes_scoped_entries
              (failsWhileListed "left-pad") projectRoot leftPadManifest 1
              (freshState leftPadManifest)) as [_ H].
  apply (H leftPadManifest). vm_compute. reflexivity.
Defined.

(** X8. When an install attempt of a run succeeds, the loop stops there:
    the manifest and the accumulators are as the pruning steps before left
    them, no further attempt is made and no exhaustion message is printed.
    Then the export runs: when the export directory and its [details]
    directory exist, the run returns and the events that follow the
    success message are the four writes of the export and its message;
    when the [details] directory is missing, the run throws right after
    the successful install. *)
Theorem successful_install_stops_and_exports
  (exec : string -> Path -> State -> ExecOutcome) (root out : Path)
  (locked_ : LockedDependencies) (s : State) (p : PackageJson)
  (n : nat) (p1 : PackageJson) (rc : nat) (s1 : State) (stdout : string) :
  files s !! manifestPath root = Some (DocPackageJson p) ->
  root ∈ dirs s ->
  iterates exec root (budget (preparedManifest locked_ p))
    (preparedManifest locked_ p) 0 (preparedState root locked_ p s)
    (S n) p1 rc s1 ->
  exec "yarn install" root
    (addEvent (LogInfo "Attempting to install dependencies...") s1)
  = Exited stdout ->
  let s2 := afterSuccess root stdout s1 in
  let final := cleanPackageJson exec root locked_ out s in
  retryLoop exec root (S n) p1 rc s1 = (Ret (p1, rc), s2)
  /\ attemptInstallWithRetries exec (preparedManifest locked_ p) root
       (budget (preparedManifest locked_ p))
       (preparedState root locked_ p s)
     = (Ret p1, s2)
  /\ removed s2 = removed s1
  /\ files s2 = files s1
  /\ (out ∈ dirs s -> join out "details" ∈ dirs s ->
      final.1 = Ret tt
      /\ removed final.2 = removed s1
      /\ files final.2 !! manifestPath root = files s1 !! manifestPath root
      /\ events final.2
         = (events s1
            ++ [ LogInfo "Attempting to install dependencies...";
                 Exec "yarn install" root; ConsoleLog stdout;
                 installedMessage ]
            ++ writeEvents (exportDocuments out (removed s1))
            ++ [ LogSuccess ("Saved removed items to " ++ showPath out) ])%list)
  /\ (join out "details" ∉ dirs s -> final = (Throw ENOENT, s2)).
Proof.
  intros Hp Hroot Hit Hexec s2 final.
  assert (Hloop : retryLoop exec root (S n) p1 rc s1 = (Ret (p1, rc), s2)).
  { rewrite retryLoop_step. cbn zeta. by rewrite Hexec. }
  destruct (iterates_retryLoop _ _ _ _ _ _ _ _ _ _ Hit) as (Hsame & Hn & Hd).
  assert (Hattempt :
            attemptInstallWithRetries exec (preparedManifest locked_ p) root
              (budget (preparedManifest locked_ p))
              (preparedState root locked_ p s)
            = (Ret p1, s2)).
  { rewrite attemptInstallWithRetries_cases, Hsame, Hloop.
    by replace (_ <=? rc)%nat with false
      by (symmetry; apply Nat.leb_gt; lia). }
  assert (Hdirs : dirs s2 = dirs s) by (cbn; by rewrite Hd).
  assert (Hfinal : final = saveRemovedItems out s2).
  { unfold final.
    rewrite (cleanPackageJson_cases exec root locked_ out s p Hp).
    rewrite bool_decide_eq_true_2 by done. by rewrite Hattempt. }
  split; [exact Hloop|]. split; [exact Hattempt|].
  split; [reflexivity|]. split; [reflexivity|]. split.
  - intros Hout Hdetails. rewrite Hfinal, saveRemovedItems_cases, Hdirs.
    rewrite !bool_decide_eq_true_2 by done. cbn [fst snd].
    split; [done|]. unfold exportedState.
    cbn [removed files events addEvent].
    rewrite written_removed, written_events.
    rewrite written_files_other by apply manifestPath_not_exported.
    split; [done|]. split; [done|].
    cbn. by rewrite <- !app_assoc.
  - intros Hmissing. rewrite Hfinal, saveRemovedItems_cases, Hdirs.
    by rewrite bool_decide_eq_false_2 by done.
Qed.

Lemma successful_install_stops_and_exports_witness :
  (cleanPackageJson (fun _ _ _ => Exited "Done") projectRoot noLocked
     exportRoot (freshState leftPadManifest)).1 = Ret tt.
Proof.
  destruct (successful_install_stops_and_exports
              (fun _ _ _ => Exited "Done") projectRoot exportRoot noLocked
              (freshState leftPadManifest) leftPadManifest 0
              (preparedManifest noLocked leftPadManifest) 0
              (preparedState projectRoot noLocked leftPadManifest
                 (freshState leftPadManifest)) "Done")
    as (_ & _ & _ & _ & H & _);
    [vm_compute; reflexivity | vm_compute; reflexivity | | reflexivity |].
  - replace (budget (preparedManifest noLocked leftPadManifest)) with 1
      by (vm_compute; reflexivity).
    apply iterates_here.
  - destruct H as (H & _); [vm_compute; reflexivity
                           | vm_compute; reflexivity |].
    exact H.
Defined.

(** X9. A manifest that has no entry left after the locked pre-filter
    (every name is a key of the locked set or a name that every object
    inherits) gets a budget of zero: no install is attempted in the run,
    the exhaustion message is printed all the same, and the run goes on to
    the export, which completes when the export directory and its
    [details] directory exist. *)
Theorem empty_manifest_is_reported_exhausted
  (exec : string -> Path -> State -> ExecOutcome) (root out : Path)
  (locked_ : LockedDependencies) (s : State) (p : PackageJson) :
  files s !! manifestPath root = Some (DocPackageJson p) ->
  root ∈ dirs s ->
  budget (preparedManifest locked_ p) = 0 ->
  let final := cleanPackageJson exec root locked_ out s in
  let s1 := addEvent exhaustedMessage (preparedState root locked_ p s) in
  attemptInstallWithRetries exec (preparedManifest locked_ p) root 0
    (preparedState root locked_ p s)
  = (Ret (preparedManifest locked_ p), s1)
  /\ final = saveRemovedItems out s1
  /\ (exists evs,
        events final.2 = (events s ++ evs)%list
        /\ attempts evs = 0 /\ In exhaustedMessage evs)
  /\ (out ∈ dirs s -> join out "details" ∈ dirs s ->
      final = (Ret tt, exportedState out s1)).
Proof.
  intros Hp Hroot Hb final s1.
  assert (Hattempt :
            attemptInstallWithRetries exec (preparedManifest locked_ p) root
              0 (preparedState root locked_ p s)
            = (Ret (preparedManifest locked_ p), s1)).
  { by rewrite attemptInstallWithRetries_cases. }
  assert (Hfinal : final = saveRemovedItems out s1).
  { unfold final.
    rewrite (cleanPackageJson_cases exec root locked_ out s p Hp).
    rewrite bool_decide_eq_true_2 by done. by rewrite Hb, Hattempt. }
  split; [exact Hattempt|]. split; [exact Hfinal|]. split.
  - rewrite Hfinal.
    destruct (saveRemovedItems_frame root out s1)
      as (_ & _ & _ & evs' & He' & Ha').
    rewrite He'. cbn [s1 events addEvent preparedState]. eexists.
    rewrite <- !app_assoc. split; [reflexivity|]. split.
    + rewrite <- app_comm_cons.
      change (attempts (ReadFile ?q :: ?l)) with (attempts l).
      rewrite !attempts_app, attempts_scriptsLog, Ha'. reflexivity.
    + rewrite <- app_comm_cons. right. rewrite !in_app_iff. cbn [In].
      eauto 10.
  - intros Hout Hdetails. rewrite Hfinal, saveRemovedItems_cases.
    cbn [s1 dirs addEvent preparedState].
    by rewrite !bool_decide_eq_true_2 by done.
Qed.

Lemma empty_manifest_is_reported_exhausted_witness :
  exists evs,
    events (cleanPackageJson (alwaysFails "unused") projectRoot noLocked
              exportRoot
              (freshState
                 (mkPackageJson (Some {[ "constructor" := "1.0.0" ]}) None
                    None))).2
    = ([] ++ evs)%list
    /\ attempts evs = 0 /\ In exhaustedMessage evs.
Proof.
  destruct (empty_manifest_is_reported_exhausted (alwaysFails "unused")
              projectRoot exportRoot noLocked
              (freshState
                 (mkPackageJson (Some {[ "constructor" := "1.0.0" ]}) None
                    None))
              (mkPackageJson (Some {[ "constructor" := "1.0.0" ]}) None None))
    as (_ & _ & H & _);
    [vm_compute; reflexivity | vm_compute; reflexivity
    | vm_compute; reflexivity |].
  exact H.
Defined.

Section LoopOutcome.

Variable exec : string -> Path -> State -> ExecOutcome.
Variable root : Path.

Lemma retryLoop_outcome (n : nat) (p : PackageJson) (rc : nat) (s : State) :
  exists evs,
    events (retryLoop exec root n p rc s).2 = (events s ++ evs)%list
    /\ ~ In exhaustedMessage evs
    /\ forall p' rc',
         (retryLoop exec root n p rc s).1 = Ret (p', rc') ->
         rc' <= rc + n
         /\ (rc' = rc + n ->
             attempts evs = n /\ ~ In installedMessage evs
             /\ Forall (fun e => isAbortMessage e = false) evs).
Proof.
  revert p rc s. induction n as [|n IH]; intros p rc s.
  { exists []. rewrite app_nil_r. split; [done|]. split; [by intros []|].
    intros p' rc' [= <- <-]. split; [lia|]. intros _.
    split; [done|]. split; [by intros []|constructor]. }
  rewrite retryLoop_step. cbn zeta.
  destruct (exec _ _ _) as [out|stderr error].
  { eexists [_; _; _; _]. cbn. rewrite <- !app_assoc.
    split; [reflexivity|]. split; [intros Hin; decompose [or] Hin; done|].
    intros p' rc' [= <- <-]. split; [lia|]. lia. }
  destruct (Classifier.parseErrorForPackageAlias error) as [pa|e].
  2:{ eexists [_; _; _]. cbn. rewrite <- !app_assoc.
      split; [reflexivity|]. split; [intros Hin; decompose [or] Hin; done|].
      done. }
  destruct (isFalsy pa).
  { eexists [_; _; _; _]. cbn. rewrite <- !app_assoc.
    split; [reflexivity|]. split; [intros Hin; decompose [or] Hin; done|].
    intros p' rc' [= <- <-]. split; [lia|]. lia. }
  case_bool_decide as Hroot.
  2:{ eexists [_; _; _]. cbn. rewrite <- !app_assoc.
      split; [reflexivity|]. split; [intros Hin; decompose [or] Hin; done|].
      done. }
  destruct (IH (prunedManifest (default "" pa) p) (S rc)
              (afterPruning root (default "" pa) p
                 (afterFailure root stderr s))) as (evs & He & Hx & Hr).
  eexists (_ :: _ :: _ :: _ :: _ :: evs). split.
  { rewrite He. cbn. rewrite <- !app_assoc. reflexivity. }
  split.
  { intros Hin. cbn in Hin. decompose [or] Hin; try done. }
  intros p' rc' Hres. destruct (Hr p' rc' Hres) as [Hle Heq].
  split; [lia|]. intros ->.
  destruct Heq as (Ha & Hi & Hf); [lia|]. split; [|split].
  - change (?a :: ?b :: ?c :: ?d :: ?e :: evs)
      with ([a; b; c; d; e] ++ evs)%list.
    rewrite attempts_app, Ha. reflexivity.
  - intros Hin. cbn in Hin. decompose [or] Hin; try done.
  - by repeat constructor.
Qed.

End LoopOutcome.

(** X10. [attemptInstallWithRetries] prints the exhaustion message only
    after exactly [maxRetries] install attempts, each of which failed and
    was followed by a pruning step: in a call that prints it, no success
    message and no could-not-parse message is printed. *)
Theorem exhaustion_excludes_success_and_abort
  (exec : string -> Path -> State -> ExecOutcome) (root : Path)
  (p : PackageJson) (maxRetries : nat) (s : State) :
  exists evs,
    events (attemptInstallWithRetries exec p root maxRetries s).2
    = (events s ++ evs)%list
    /\ (In exhaustedMessage evs ->
        attempts evs = maxRetries
        /\ ~ In installedMessage evs
        /\ Forall (fun e => isAbortMessage e = false) evs).
Proof.
  rewrite attemptInstallWithRetries_cases.
  destruct (retryLoop_outcome exec root maxRetries p 0 s)
    as (evs & He & Hx & Hr).
  destruct (retryLoop _ _ _ _ _ _) as [[[p1 rc1]|e] s1]; cbn [fst snd] in *.
  - destruct (Hr p1 rc1 eq_refl) as [Hle Heq].
    destruct (maxRetries <=? rc1)%nat eqn:E; cbn [snd].
    + apply Nat.leb_le in E.
      destruct Heq as (Ha & Hi & Hf); [lia|].
      exists (evs ++ [exhaustedMessage])%list. cbn. rewrite He, <- app_assoc.
      split; [done|]. intros _. split; [|split].
      * rewrite attempts_app, Ha. cbn. lia.
      * rewrite in_app_iff. intros [?|[?|[]]]; done.
      * apply Forall_app. split; [done|]. by repeat constructor.
    + exists evs. split; [done|]. by intros ?.
  - exists evs. split; [done|]. by intros ?.
Qed.

Section LoopWrites.

Variable exec : string -> Path -> State -> ExecOutcome.
Variable root : Path.


End LoopWrites.









(* ===================================================================== *)
(** ** Further properties of the export and of the entry point *)
(* ===================================================================== *)

Lemma conserved_restores (o o' : option Dependencies) (a b : Dependencies) :
  conserved o o' a b -> restores o o' (b ∪ a).
Proof.
  destruct o as [d|], o' as [d'|]; cbn; try done.
  - intros (Hu & Ha & Hb & Hab). split.
    + rewrite <- Hu, <- (map_union_assoc d'). f_equal.
      by apply map_union_comm.
    + by apply map_disjoint_union_r.
  - intros [-> ->]. by rewrite (left_id_L ∅ (∪)).
Qed.

Lemma stored_fresh (m : gmap string string) :
  stored ∅ m = delete "__proto__" m.
Proof.
  apply map_eq. intros k. rewrite lookup_stored.
  destruct (decide (k = "__proto__")) as [->|Hk].
  - by rewrite lookup_delete_eq.
  - by rewrite lookup_delete_ne, stores_other.
Qed.

(** X12. The summary document restores the manifest but for entries named
    [__proto__]: when a run that started with empty accumulators returns,
    [allRemovedItems.json] holds the scripts the manifest had and, for
    each kind, a map that is disjoint from the final map of the manifest
    on the disk and whose union with it is the original map, versions
    included; in each of the three, an entry named [__proto__] of the
    original is missing. *)
Theorem summary_restores_the_original_manifest
  (exec : string -> Path -> State -> ExecOutcome) (root out : Path)
  (locked_ : LockedDependencies) (s : State) (p : PackageJson) :
  files s !! manifestPath root = Some (DocPackageJson p) ->
  root ∈ dirs s ->
  removed s = noRemoved ->
  let final := cleanPackageJson exec root locked_ out s in
  final.1 = Ret tt ->
  exists p' deps dev,
    files final.2 !! manifestPath root = Some (DocPackageJson p')
    /\ files final.2 !! join out "allRemovedItems.json"
       = Some (DocAllRemoved (default ∅ (withoutProto (scripts p))) deps dev)
    /\ restores (withoutProto (dependencies p)) (dependencies p') deps
    /\ restores (withoutProto (devDependencies p)) (devDependencies p') dev.
Proof.
  intros Hp Hroot Hfresh final. unfold final.
  rewrite (cleanPackageJson_cases exec root locked_ out s p Hp).
  rewrite bool_decide_eq_true_2 by done.
  set (I := fun (q : PackageJson) (t : State) =>
              files t !! manifestPath root = Some (DocPackageJson q)
              /\ conserved (withoutProto (dependencies p)) (dependencies q)
                   (removedLocalDeps (removed t))
                   (removedLockedDeps (removed t))
              /\ conserved (withoutProto (devDependencies p))
                   (devDependencies q) (removedLocalDevDeps (removed t))
                   (removedLockedDevDeps (removed t))
              /\ removedScripts (removed t)
                 = default ∅ (withoutProto (scripts p))).
  destruct (attemptInstallWithRetries_invariant exec root I)
    with (p := preparedManifest locked_ p)
         (maxRetries := budget (preparedManifest locked_ p))
         (s := preparedState root locked_ p s)
    as (p' & (Hf & Hc1 & Hc2 & Hs) & _).
  - intros q t e (? & ? & ? & ?). split; [done|]. by split.
  - intros q t alias (_ & Hd & Hdd & Hscr). split; [|split; [|split]].
    + cbn. apply lookup_insert_eq.
    + cbn. by apply conserved_prune.
    + cbn. by apply conserved_prune.
    + done.
  - done.
  - split; [|split; [|split]].
    + cbn. apply lookup_insert_eq.
    + cbn [preparedState preparedStore removed dependencies preparedManifest
           removedLocalDeps removedLockedDeps].
      rewrite Hfresh. apply conserved_prepare.
    + cbn [preparedState preparedStore removed devDependencies
           preparedManifest removedLocalDevDeps removedLockedDevDeps].
      rewrite Hfresh. apply conserved_prepare.
    + cbn. rewrite Hfresh. cbn.
      rewrite (right_id_L ∅ (∪)), stored_fresh.
      destruct (scripts p) as [scr|]; cbn; [done|].
      by rewrite delete_empty.
  - destruct (attemptInstallWithRetries _ _ _ _ _) as [[p1|e] s1];
      cbn [snd] in *; [|done].
    rewrite saveRemovedItems_cases.
    repeat case_bool_decide; cbn [fst snd]; try done. intros _.
    exists p', (removedLockedDeps (removed s1) ∪ removedLocalDeps (removed s1)),
      (removedLockedDevDeps (removed s1)
       ∪ removedLocalDevDeps (removed s1)).
    split; [|split; [|split]].
    + unfold exportedState. cbn [files addEvent].
      by rewrite written_files_other by apply manifestPath_not_exported.
    + rewrite <- Hs.
      apply (exported_documents_on_disk out s1
               (summaryDocument out (removed s1))).
      unfold exportDocuments. apply elem_of_app. right. by left.
    + by apply conserved_restores.
    + by apply conserved_restores.
Qed.

Lemma summary_restores_the_original_manifest_witness :
  exists p' deps dev,
    files (cleanPackageJson (alwaysFails yarnScopedNotFound) projectRoot
             noLocked exportRoot
             (freshState
                (mkPackageJson
                   (Some {[ "@scope/pkg" := "1.2.3"; "lodash" := "4.17.21" ]})
                   None (Some {[ "build" := "tsc" ]})))).2
    !! manifestPath projectRoot = Some (DocPackageJson p')
    /\ restores
         (withoutProto
            (Some {[ "@scope/pkg" := "1.2.3"; "lodash" := "4.17.21" ]}))
         (dependencies p') deps
    /\ restores (withoutProto None) (devDependencies p') dev.
Proof.
  destruct (summary_restores_the_original_manifest
              (alwaysFails yarnScopedNotFound) projectRoot exportRoot
              noLocked
              (freshState
                 (mkPackageJson
                    (Some {[ "@scope/pkg" := "1.2.3"; "lodash" := "4.17.21" ]})
                    None (Some {[ "build" := "tsc" ]})))
              (mkPackageJson
                 (Some {[ "@scope/pkg" := "1.2.3"; "lodash" := "4.17.21" ]})
                 None (Some {[ "build" := "tsc" ]})))
    as (p' & deps & dev & Hf & _ & Hd & Hv);
    [vm_compute; reflexivity | vm_compute; reflexivity | reflexivity
    | vm_compute; reflexivity |].
  exists p', deps, dev. split; [exact Hf|]. split; [exact Hd|exact Hv].
Defined.

(** X13. Without the [details] directory no run returns and no document of
    the export is written: however the install attempts end, the run
    throws, and the only files it has written are manifests.  And without
    a manifest to read, [cleanPackageJson] throws before doing anything:
    no file is written, no command is run, nothing is printed and the
    accumulators are untouched. *)
Theorem failed_run_exports_nothing
  (exec : string -> Path -> State -> ExecOutcome) (root out : Path)
  (locked_ : LockedDependencies) (s : State) :
  let final := cleanPackageJson exec root locked_ out s in
  (files s !! manifestPath root = None -> final = (Throw ENOENT, s))
  /\ (join out "details" ∉ dirs s ->
      (exists e, final.1 = Throw e)
      /\ exists evs,
           events final.2 = (events s ++ evs)%list
           /\ List.filter (isWriteElsewhere (manifestPath root)) evs = []).
Proof.
  cbn zeta. split.
  { intros H. unfold cleanPackageJson, bind, readPackageJson.
    fold (manifestPath root). by rewrite H. }
  intros Hmissing.
  destruct (files s !! manifestPath root) as [[p| |]|] eqn:Hp.
  2,3,4: (destruct (cleanPackageJson_unreadable exec root locked_ out s)
            as [e' ->]; [by rewrite Hp|];
          split; [by eauto|]; exists []; by rewrite app_nil_r).
  rewrite (cleanPackageJson_cases exec root locked_ out s p Hp).
  case_bool_decide as Hroot.
  2:{ split; [by eauto|]. cbn. eexists. split; [reflexivity|].
      cbn [List.filter isWriteElsewhere]. apply filter_scriptsLog. }
  destruct (attemptInstallWithRetries_frame exec root
              (preparedManifest locked_ p)
              (budget (preparedManifest locked_ p))
              (preparedState root locked_ p s)) as (Hd & _ & evs & He & _ & Hw).
  cbn [dirs preparedState] in Hd.
  assert (Hevs : exists evs',
            (events (preparedState root locked_ p s) ++ evs)%list
            = (events s ++ evs')%list
            /\ List.filter (isWriteElsewhere (manifestPath root)) evs' = []).
  { cbn [events preparedState]. eexists.
    rewrite <- !app_assoc. split; [reflexivity|].
    rewrite <- app_comm_cons. cbn [List.filter isWriteElsewhere].
    rewrite !List.filter_app, filter_scriptsLog, (filter_none _ evs Hw).
    cbn [List.filter isWriteElsewhere app].
    by rewrite bool_decide_eq_true_2 by done. }
  destruct (attemptInstallWithRetries _ _ _ _ _) as [[p1|e1] s1];
    cbn [snd] in *.
  - rewrite saveRemovedItems_cases, Hd.
    rewrite (bool_decide_eq_false_2 (join out "details" ∈ dirs s)) by done.
    cbn [fst snd]. split; [by eauto|]. by rewrite He.
  - split; [by eauto|]. by rewrite He.
Qed.

Lemma failed_run_exports_nothing_witness :
  exists e,
    (cleanPackageJson (fun _ _ _ => Exited "Done") projectRoot noLocked
       exportRoot (stateWithoutDetails leftPadManifest)).1 = Throw e.
Proof.
  destruct (failed_run_exports_nothing (fun _ _ _ => Exited "Done")
              projectRoot exportRoot noLocked
              (stateWithoutDetails leftPadManifest)) as [_ H].
  destruct H as [H _]; [vm_compute; intros H; discriminate H|].
  exact H.
Defined.

Lemma exportDocuments_NoDup (out : Path) (r : Removed) :
  NoDup (exportDocuments out r).*1.
Proof.
  unfold exportDocuments, detailDocuments, summaryDocument. cbn.
  repeat (apply NoDup_cons; split;
          [rewrite ?not_elem_of_cons; repeat split;
           try (by apply join_ne_fileName); apply not_elem_of_nil|]).
  apply NoDup_nil_2.
Qed.


Lemma saveRemovedItems_ok (out : Path) (t : State) :
  out ∈ dirs t -> join out "details" ∈ dirs t ->
  saveRemovedItems out t = (Ret tt, exportedState out t).
Proof.
  intros Ho Hd. rewrite saveRemovedItems_cases.
  by rewrite !bool_decide_eq_true_2 by done.
Qed.

Lemma exportedState_removed (out : Path) (s : State) :
  removed (exportedState out s) = removed s.
Proof.
  unfold exportedState. cbn [removed addEvent]. apply written_removed.
Qed.

Lemma exportedState_dirs (out : Path) (s : State) :
  dirs (exportedState out s) = dirs s.
Proof.
  unfold exportedState. cbn [dirs addEvent]. apply written_dirs.
Qed.

Lemma exportedState_files_other (out : Path) (s : State) (q : Path) :
  q ∉ (exportDocuments out (removed s)).*1 ->
  files (exportedState out s) !! q = files s !! q.
Proof.
  intros Hq. unfold exportedState. cbn [files addEvent].
  by apply written_files_other.
Qed.

Lemma exportedState_again (out : Path) (s : State) :
  files (exportedState out (exportedState out s))
  = files (exportedState out s).
Proof.
  apply map_eq. intros q.
  destruct (decide (q ∈ (exportDocuments out (removed s)).*1)) as [Hq|Hq].
  - apply list_elem_of_fmap in Hq as (pd & -> & Hpd).
    rewrite (exported_documents_on_disk out s pd Hpd).
    apply exported_documents_on_disk. by rewrite exportedState_removed.
  - rewrite exportedState_files_other; [done|].
    by rewrite exportedState_removed.
Qed.

(** X14. With its two directories present, the export returns and writes
    its four documents, each under its own path; it leaves the
    accumulators, the directories and every other file as they were; and
    exporting again rewrites the same files with the same contents. *)
Theorem export_writes_four_documents_only (out : Path) (s : State) :
  out ∈ dirs s ->
  join out "details" ∈ dirs s ->
  let s1 := (saveRemovedItems out s).2 in
  (saveRemovedItems out s).1 = Ret tt
  /\ removed s1 = removed s
  /\ dirs s1 = dirs s
  /\ length (exportDocuments out (removed s)) = 4
  /\ NoDup (exportDocuments out (removed s)).*1
  /\ (forall pd, pd ∈ exportDocuments out (removed s) ->
                 files s1 !! pd.1 = Some pd.2)
  /\ (forall q, q ∉ (exportDocuments out (removed s)).*1 ->
                files s1 !! q = files s !! q)
  /\ files (saveRemovedItems out s1).2 = files s1.
Proof.
  intros Hout Hdetails s1.
  assert (E1 : saveRemovedItems out s = (Ret tt, exportedState out s))
    by (by apply saveRemovedItems_ok).
  assert (Es : s1 = exportedState out s) by (unfold s1; by rewrite E1).
  rewrite Es, E1.
  split; [reflexivity|].
  split; [apply exportedState_removed|].
  split; [apply exportedState_dirs|].
  split; [reflexivity|].
  split; [apply exportDocuments_NoDup|].
  split; [apply exported_documents_on_disk|].
  split; [apply exportedState_files_other|].
  rewrite saveRemovedItems_ok by (by rewrite exportedState_dirs).
  apply exportedState_again.
Qed.

Lemma export_writes_four_documents_only_witness :
  (saveRemovedItems exportRoot (freshState leftPadManifest)).1 = Ret tt.
Proof.
  destruct (export_writes_four_documents_only exportRoot
              (freshState leftPadManifest)) as [H _];
    [vm_compute; reflexivity | vm_compute; reflexivity |].
  exact H.
Defined.

(* ===================================================================== *)
(** ** The registry diagnostic for scoped packages *)
(* ===================================================================== *)

Lemma match_here_capture_cons (d : ascii) (r : Regex.Pattern) (a : ascii)
  (s : string) :
  Regex.match_here (Regex.CaptureNotPlus d :: r) (String a s)
  = if Ascii.eqb a d then None
    else match Regex.match_here (Regex.CaptureNotPlus d :: r) s with
         | Some (g :: gs) => Some (String a g :: gs)
         | _ =>
             match Regex.match_here r s with
             | Some gs => Some (String a "" :: gs)
             | None => None
             end
         end.
Proof. reflexivity. Qed.

Lemma capture_until_delimiter (d : ascii) (lit body tail : string) :
  body <> "" -> hasChar d body = false ->
  Regex.match_here
    [Regex.CaptureNotPlus d; Regex.Lit (String d lit)]
    (body ++ String d lit ++ tail)
  = Some [body].
Proof.
  induction body as [|a body IH]; [done|]. intros _ Hq.
  cbn in Hq. apply orb_false_elim in Hq as [Ha Hq].
  change (String a body ++ String d lit ++ tail)
    with (String a (body ++ String d lit ++ tail)).
  rewrite match_here_capture_cons, Ha.
  destruct body as [|b body].
  - change ("" ++ String d lit ++ tail) with (String d (lit ++ tail)).
    rewrite match_here_capture_cons, Ascii.eqb_refl.
    change (String d (lit ++ tail)) with (String d lit ++ tail).
    cbn [Regex.match_here]. by rewrite startsWith_app.
  - by rewrite IH.
Qed.

Lemma Decode_app_no_percent (a t : string) :
  hasChar Str.percent a = false ->
  URI.Decode [] 0 (a ++ t) = String.append a <$> URI.Decode [] 0 t.
Proof.
  induction a as [|c a IH]; intros H.
  - change ("" ++ t) with t. by destruct (URI.Decode [] 0 t).
  - cbn in H. apply orb_false_elim in H as [Hc Ha].
    change (String c a ++ t) with (String c (a ++ t)).
    cbn [URI.Decode]. rewrite Hc, (IH Ha).
    by destruct (URI.Decode [] 0 t).
Qed.

Lemma beforeSlash_app (a t : string) :
  hasChar Str.slash a = false -> beforeSlash (a ++ String Str.slash t) = a.
Proof.
  induction a as [|c a IH]; intros H; [done|].
  cbn in H. apply orb_false_elim in H as [Hc Ha].
  change (String c a ++ String Str.slash t)
    with (String c (a ++ String Str.slash t)).
  cbn [beforeSlash]. by rewrite Hc, (IH Ha).
Qed.

(** X15. For every scope and package name without percent sign or colon,
    the scope being without path separator, the registry diagnostic for
    the path [@scope%2Fname], followed by any text, is classified as
    [@scope]. *)
Theorem registry_diagnostic_gives_scope (scope name rest : string) :
  hasChar Str.percent scope = false ->
  hasChar Str.colon scope = false ->
  hasChar Str.slash scope = false ->
  hasChar Str.percent name = false ->
  hasChar Str.colon name = false ->
  Classifier.parseErrorForPackageAlias
    (registryPathNotFound ("@" ++ scope ++ "%2F" ++ name) rest)
  = Ret (Some ("@" ++ scope)).
Proof.
  intros Hps Hcs Hss Hpn Hcn.
  set (path := "@" ++ scope ++ "%2F" ++ name).
  assert (Hpath : hasChar Str.colon path = false).
  { unfold path. rewrite !hasChar_app, Hcs, Hcn. reflexivity. }
  unfold Classifier.parseErrorForPackageAlias, Classifier.patterns.
  cbn [Classifier.tryPatterns].
  rewrite (exec_match_here _ _ [path]).
  2:{ change (registryPathNotFound path rest)
        with ("https://registry.yarnpkg.com/"
              ++ (path ++ String Str.colon " Not found" ++ rest)).
      unfold Classifier.registryNotFound. cbn [Regex.match_here].
      rewrite startsWith_app, drop_app.
      by apply capture_until_delimiter. }
  cbn [Regex.group1]. unfold URI.decodeURIComponent, path.
  change ("@" ++ scope ++ "%2F" ++ name)
    with (String "@" (scope ++ "%2F" ++ name)).
  cbn [URI.Decode]. change (Ascii.eqb "@" Str.percent) with false.
  cbn iota. rewrite (Decode_app_no_percent scope) by done.
  change (URI.Decode [] 0 ("%2F" ++ name))
    with (String Str.slash <$> URI.Decode [] 0 name).
  rewrite Decode_no_percent by done. cbn [fmap option_fmap option_map].
  rewrite aliasMatch_beforeSlash.
  change (String "@" (scope ++ String Str.slash name))
    with (("@" ++ scope) ++ String Str.slash name).
  rewrite beforeSlash_app by (cbn; exact Hss). reflexivity.
Qed.

Lemma registry_diagnostic_gives_scope_witness :
  Classifier.parseErrorForPackageAlias
    (registryPathNotFound ("@" ++ "scope" ++ "%2F" ++ "pkg") "")
  = Ret (Some "@scope").
Proof.
  apply (registry_diagnostic_gives_scope "scope" "pkg" ""); reflexivity.
Defined.
(* ===================================================================== *)
(** ** Order of the entries, and what the install command sees *)
(* ===================================================================== *)

(** X16. The loop of [removeAndRecordDependencies] gives the same result
    in whatever order [Object.entries] lists the entries of the map: the
    entries that do not satisfy the condition, and the bucket extended with
    those that do and that the assignment stores (all of them, but an
    entry named [__proto__] in a bucket without an own property of that
    name). *)
Theorem prune_does_not_depend_on_entry_order (condition : string -> bool)
  (deps record : Dependencies) (entries : list (string * string)) :
  entries ≡ₚ map_to_list deps ->
  foldl (removeStep condition) (deps, record) entries
  = (kept condition deps, stored record (taken condition deps) ∪ record).
Proof.
  intros Hperm.
  assert (Hnd : NoDup entries.*1).
  { rewrite Hperm. apply NoDup_fst_map_to_list. }
  assert (Hmap : (list_to_map entries : Dependencies) = deps).
  { rewrite (list_to_map_proper entries (map_to_list deps)) by done.
    apply list_to_map_to_list. }
  destruct (foldl _ _ _) as [d' r'] eqn:E.
  f_equal; apply map_eq; intros k;
    destruct (foldl_removeStep_lookup condition entries deps record k Hnd)
      as [H1 H2];
    rewrite E in H1, H2; simpl in H1, H2.
  - rewrite H1, lookup_kept.
    destruct (condition k); [|done]. simpl.
    destruct (deps !! k) as [v|] eqn:Hk.
    + rewrite bool_decide_eq_true_2; [done|].
      apply list_elem_of_fmap. exists (k, v). split; [done|].
      rewrite Hperm. by apply elem_of_map_to_list.
    + by destruct (bool_decide _).
  - rewrite H2, Hmap, lookup_union, lookup_stored, lookup_taken.
    destruct (condition k), (JsObject.stores record k), (deps !! k),
      (record !! k); done.
Qed.

Lemma prune_does_not_depend_on_entry_order_witness :
  foldl (removeStep (aliasCondition "@scope"))
    ({[ "@scope/a" := "1"; "lodash" := "2" ]}, ∅)
    (reverse (map_to_list ({[ "@scope/a" := "1"; "lodash" := "2" ]}
                           : Dependencies)))
  = (kept (aliasCondition "@scope") {[ "@scope/a" := "1"; "lodash" := "2" ]},
     stored ∅
       (taken (aliasCondition "@scope")
          {[ "@scope/a" := "1"; "lodash" := "2" ]}) ∪ ∅).
Proof.
  apply (prune_does_not_depend_on_entry_order (aliasCondition "@scope")
           {[ "@scope/a" := "1"; "lodash" := "2" ]} ∅).
  apply reverse_Permutation.
Defined.



(* ===================================================================== *)
(** ** The scripts *)
(* ===================================================================== *)

(** X18. [removeScripts] deletes the whole scripts mapping of the manifest
    and assigns every entry of it, with its command, to the removed-scripts
    bucket, so that every script with a name other than [__proto__] is in
    the bucket with its command; without a scripts mapping it changes
    nothing.  In a run this happens first: the bucket ends as this step
    left it, the manifest on the disk ends without scripts, and a manifest
    without scripts is written before any install attempt. *)
Theorem scripts_leave_before_first_attempt
  (exec : string -> Path -> State -> ExecOutcome) (root out : Path)
  (locked_ : LockedDependencies) (s : State) (p : PackageJson) :
  files s !! manifestPath root = Some (DocPackageJson p) ->
  let scr := default ∅ (scripts p) in
  let s' := (cleanPackageJson exec root locked_ out s).2 in
  (removeScripts p s).1 = Ret (deleteScripts p)
  /\ removedScripts (removed (removeScripts p s).2)
     = stored (removedScripts (removed s)) scr ∪ removedScripts (removed s)
  /\ (forall name command,
        scr !! name = Some command -> name <> "__proto__" ->
        removedScripts (removed (removeScripts p s).2) !! name
        = Some command)
  /\ (scripts p = None -> removeScripts p s = (Ret p, s))
  /\ removedScripts (removed s')
     = removedScripts (removed (removeScripts p s).2)
  /\ (root ∈ dirs s ->
      exists p', files s' !! manifestPath root = Some (DocPackageJson p')
                 /\ scripts p' = None)
  /\ exists rest,
       events s'
       = (events s ++ ReadFile (manifestPath root) :: scriptsLog p ++ rest)%list
       /\ (attempts rest = 0
           \/ exists pm rest',
                rest = WriteFile (manifestPath root) (DocPackageJson pm)
                       :: rest'
                /\ scripts pm = None).
Proof.
  intros Hp scr s'.
  split; [by rewrite removeScripts_cases|].
  split; [by rewrite removeScripts_cases|].
  split.
  { intros name command Hn Hne. rewrite removeScripts_cases. cbn.
    fold scr. rewrite lookup_union, lookup_stored, Hn, stores_other by done.
    by destruct (removedScripts (removed s) !! name). }
  split.
  { intros Hnone. unfold removeScripts. by rewrite Hnone. }
  rewrite removeScripts_cases. cbn [snd removed removedScripts]. fold scr.
  set (I := fun (q : PackageJson) (t : State) =>
              files t !! manifestPath root = Some (DocPackageJson q)
              /\ scripts q = None
              /\ removedScripts (removed t)
                 = stored (removedScripts (removed s)) scr
                   ∪ removedScripts (removed s)).
  unfold s'. rewrite (cleanPackageJson_cases exec root locked_ out s p Hp).
  case_bool_decide as Hroot.
  - destruct (attemptInstallWithRetries_invariant exec root I)
      with (p := preparedManifest locked_ p)
           (maxRetries := budget (preparedManifest locked_ p))
           (s := preparedState root locked_ p s) as (p' & (Hf & Hs & Hb) & _).
    { intros q t e (? & ? & ?). by repeat split. }
    { intros q t alias (_ & Hq & Hr). repeat split; [|done|done].
      cbn. apply lookup_insert_eq. }
    { done. }
    { repeat split. cbn. apply lookup_insert_eq. }
    destruct (attemptInstallWithRetries_frame exec root
                (preparedManifest locked_ p)
                (budget (preparedManifest locked_ p))
                (preparedState root locked_ p s))
      as (_ & _ & evs & He & _ & _).
    destruct (attemptInstallWithRetries _ _ _ _ _) as [[p1|e] s1];
      cbn [snd] in *.
    + destruct (saveRemovedItems_frame root out s1)
        as (_ & Hr' & Hf' & evs' & He' & _).
      rewrite Hr', Hf', He', He. split; [done|]. split; [by eauto|].
      cbn [events preparedState]. eexists.
      rewrite <- !app_assoc, <- app_comm_cons, <- !app_assoc.
      split; [reflexivity|]. right. by eexists _, _.
    + rewrite He. split; [done|]. split; [by eauto|].
      cbn [events preparedState]. eexists.
      rewrite <- !app_assoc, <- app_comm_cons, <- !app_assoc.
      split; [reflexivity|]. right. by eexists _, _.
  - cbn. split; [done|]. split; [done|]. exists [].
    rewrite app_nil_r. split; [done|]. by left.
Qed.

Lemma scripts_leave_before_first_attempt_witness :
  removedScripts
    (removed
       (cleanPackageJson (alwaysFails "something else went wrong")
          projectRoot noLocked exportRoot
          (freshState buildScriptManifest)).2)
  = removedScripts
      (removed
         (removeScripts buildScriptManifest
            (freshState buildScriptManifest)).2).
Proof.
  destruct (scripts_leave_before_first_attempt
              (alwaysFails "something else went wrong") projectRoot
              exportRoot noLocked (freshState buildScriptManifest)
              buildScriptManifest)
    as (_ & _ & _ & _ & H & _); [vm_compute; reflexivity|].
  exact H.
Defined.
